(** * Open Collective API: payment-method provider and account mutations

    A shallow embedding of

    - [paymentMethodProvider] (the "opencollective" collective-to-collective
      payment method: [getBalance], [processOrder], [refundTransaction]), and
    - the GraphQL v2 account mutations [editAccountFeeStructure],
      [editAccountFreezeStatus], [addTwoFactorAuthTokenToIndividual] and
      [removeTwoFactorAuthTokenFromIndividual]
      (server/graphql/v2/mutation/AccountMutations.ts).

    Conventions.
    - A JavaScript number is a double.  A finite double is the rational it
      denotes, in [Q]; comparisons are exact, and every arithmetic operation
      rounds its exact result to the nearest double ([toDouble], ties to
      even).  [NaN], the infinities and the sign of zero are outside the
      model.
    - [null]/[undefined] are [None].
    - An [async] function that may [throw] is a computation in the
      state-and-error monad [M]: it receives the [World] (the database
      tables), and returns either the thrown [Error] or a value, together
      with the world it leaves behind.
    - Routines of the repository that these two files only import (the model
      methods, [lib/payments], [lib/currency], the two-factor library, the
      scope checks) are fields of an interface record ([PaymentDeps],
      [AccountDeps]); every theorem holds for all implementations. *)

From Stdlib Require Import ZArith QArith String List Bool Lia Permutation.
Import ListNotations.

Open Scope string_scope.
Open Scope Z_scope.

(* ================================================================== *)
(** * Errors and the state-and-error monad                             *)
(* ================================================================== *)

(** The error classes of [graphql/errors], the plain [Error] and the
    [TypeError] raised by a property access on [null]. *)
Inductive ErrorKind : Type :=
| PlainError | TypeError
| Unauthorized | Forbidden | NotFound | ValidationFailed | BadRequest.

Record Error : Type := mkError { kind : ErrorKind; message : string }.

Definition ErrorKind_eqb (a b : ErrorKind) : bool :=
  match a, b with
  | PlainError, PlainError | TypeError, TypeError
  | Unauthorized, Unauthorized | Forbidden, Forbidden
  | NotFound, NotFound | ValidationFailed, ValidationFailed
  | BadRequest, BadRequest => true
  | _, _ => false
  end.

(** "Authorization failures (not authenticated / not authorized for scope or
    role)": the two classes thrown for them. *)
Definition isAuthorizationError (e : Error) : bool :=
  match kind e with
  | Unauthorized | Forbidden => true
  | _ => false
  end.

Section Monad.
Variable S : Type.

Definition M (A : Type) : Type := S -> (Error + A) * S.

Definition ret {A} (a : A) : M A := fun s => (inr a, s).

Definition throw {A} (e : Error) : M A := fun s => (inl e, s).

Definition bind {A B} (m : M A) (k : A -> M B) : M B :=
  fun s =>
    match m s with
    | (inl e, s') => (inl e, s')
    | (inr a, s') => k a s'
    end.

(** Read the state through a pure query. *)
Definition gets {A} (f : S -> A) : M A := fun s => (inr (f s), s).

(** A query that may throw. *)
Definition query {A} (f : S -> Error + A) : M A := fun s => (f s, s).

Definition modify (f : S -> S) : M unit := fun s => (inr tt, f s).

(** [if (c) { throw e; }] *)
Definition throwIf (c : bool) (e : Error) : M unit :=
  if c then throw e else ret tt.

(** [await Promise.all(xs.map(f))], and [Array.from({ length }, f)]: the
    callbacks run in list order and the first rejection is the result. *)
Fixpoint mapM {A B} (f : A -> M B) (xs : list A) : M (list B) :=
  match xs with
  | [] => ret []
  | x :: xs' =>
      bind (f x) (fun y => bind (mapM f xs') (fun ys => ret (y :: ys)))
  end.

Fixpoint replicateM {A} (n : nat) (m : M A) : M (list A) :=
  match n with
  | O => ret []
  | Datatypes.S n' =>
      bind m (fun y => bind (replicateM n' m) (fun ys => ret (y :: ys)))
  end.
End Monad.

Arguments ret {S A} a _.
Arguments throw {S A} e _.
Arguments bind {S A B} m k _.
Arguments gets {S A} f _.
Arguments query {S A} f _.
Arguments modify {S} f _.
Arguments throwIf {S} c e _.
Arguments mapM {S A B} f xs _.
Arguments replicateM {S A} n m _.

Declare Scope monad_scope.
Delimit Scope monad_scope with monad.
Notation "x <- c1 ;; c2" := (bind c1 (fun x => c2))
  (at level 61, c1 at next level, right associativity) : monad_scope.
Notation "c1 ;; c2" := (bind c1 (fun _ => c2))
  (at level 61, right associativity) : monad_scope.
Open Scope monad_scope.

(* ================================================================== *)
(** * Data model                                                       *)
(* ================================================================== *)

(** ** JavaScript numbers

    The doubles are the rationals [m * 2^e] with [|m| < 2^53] and
    [-1074 <= e]; the largest is below [2^1024]. *)

(** [2^e], also for a negative [e]. *)
Definition pow2 (e : Z) : Q :=
  match e with
  | Z0 => 1%Q
  | Zpos p => inject_Z (2 ^ Zpos p)
  | Zneg p => (1 # (2 ^ p)%positive)%Q
  end.

(** The [l] with [2^l <= q < 2^(l+1)], for a positive [q]. *)
Definition floorLog2 (q : Q) : Z :=
  let l := Z.log2 (Qnum q) - Z.log2 (Zpos (Qden q)) in
  if Qle_bool (pow2 l) q then l else l - 1.

(** The integer nearest to a non-negative [q]; halfway, the even one. *)
Definition roundHalfEven (q : Q) : Z :=
  let f := (Qnum q / Zpos (Qden q))%Z in
  match (q - inject_Z f ?= 1 # 2)%Q with
  | Lt => f
  | Gt => f + 1
  | Eq => if Z.even f then f else f + 1
  end.

(** The double nearest to [q], ties to even: 53 significant bits, or a
    multiple of [2^-1074] below [2^-1022].  Above the largest double
    JavaScript gives [Infinity], which is not a number of this model. *)
Definition toDouble (q : Q) : Q :=
  if Qeq_bool q 0 then 0%Q
  else
    let a := (Z.abs (Qnum q) # Qden q)%Q in
    let e := Z.max (floorLog2 a - 52) (-1074) in
    let m := roundHalfEven (a / pow2 e) in
    Qred ((if Qle_bool 0 q then 1 else -1) * inject_Z m * pow2 e)%Q.

(** [a * b], [a - b] and [a / b] on numbers: the exact result, rounded.  An
    operand that is not a double stands for the double nearest to it, as a
    decimal literal does.  The divisors of this file are the constant 100. *)
Definition js_mul (a b : Q) : Q := toDouble (toDouble a * toDouble b).

Definition js_sub (a b : Q) : Q := toDouble (toDouble a - toDouble b).

Definition js_div (a b : Q) : Q := toDouble (toDouble a / toDouble b).

Arguments toDouble : simpl never.
Arguments js_mul : simpl never.
Arguments js_sub : simpl never.
Arguments js_div : simpl never.

Opaque toDouble js_mul js_sub js_div.

(** [!x] on a numeric value: zero is falsy. *)
Definition isZero (x : Q) : bool := Qeq_bool x 0.

(** [a < b] on numeric values. *)
Definition Qltb (a b : Q) : bool := negb (Qle_bool b a).

(** [!id] and [a !== b] on nullable integer keys. *)
Definition falsyId (i : option Z) : bool :=
  match i with
  | None => true
  | Some n => n =? 0
  end.

Definition optZ_eqb (a b : option Z) : bool :=
  match a, b with
  | Some x, Some y => x =? y
  | None, None => true
  | _, _ => false
  end.

(** constants/collectives *)
Inductive CollectiveType : Type :=
| USER | ORGANIZATION | COLLECTIVE | FUND | EVENT | PROJECT | BOT | VENDOR.

(** The part of [Collective.data] that the mutations read or write; the
    remaining keys are carried along untouched in [otherData]. *)
Record CollectiveData : Type := mkCollectiveData {
  useCustomHostFee : option bool;
  otherData : list (string * string)
}.

Record Collective : Type := mkCollective {
  id : Z;
  type : CollectiveType;
  name : string;
  currency : string;
  isActive : bool;
  HostCollectiveId : option Z;
  ParentCollectiveId : option Z;
  approvedAt : option Z;
  hostFeePercent : option Q;
  data : option CollectiveData
}.

Record User : Type := mkUser {
  userId : Z;
  userCollectiveId : option Z;
  twoFactorAuthRecoveryCodes : option (list string)
}.

(** lib/two-factor-authentication *)
Inductive TwoFactorMethod : Type := TOTP | YUBIKEY_OTP | WEBAUTHN | RECOVERY_CODE.

Definition TwoFactorMethod_eqb (a b : TwoFactorMethod) : bool :=
  match a, b with
  | TOTP, TOTP | YUBIKEY_OTP, YUBIKEY_OTP
  | WEBAUTHN, WEBAUTHN | RECOVERY_CODE, RECOVERY_CODE => true
  | _, _ => false
  end.

Record WebauthnData : Type := mkWebauthnData {
  description : option string;
  credential : string
}.

Inductive TwoFactorMethodData : Type :=
| SecretData (secret : string)
| YubikeyData (yubikeyDeviceId : string)
| DeviceData (device : WebauthnData).

Record UserTwoFactorMethod : Type := mkUserTwoFactorMethod {
  methodId : Z;
  methodUserId : Z;
  method : TwoFactorMethod;
  methodName : string;
  methodData : TwoFactorMethodData
}.

(** constants/transactions *)
Inductive TransactionTypes : Type := CREDIT | DEBIT.

Definition isCredit (t : TransactionTypes) : bool :=
  match t with CREDIT => true | DEBIT => false end.

(** A ledger entry.  The object literal that [processOrder] assembles as
    [payload.transaction] has the four keys at the top unset. *)
Record Transaction : Type := mkTransaction {
  txCreatedByUserId : option Z;
  txFromCollectiveId : option Z;
  txCollectiveId : option Z;
  txPaymentMethodId : option Z;
  txType : TransactionTypes;
  OrderId : option Z;
  amount : Q;
  txCurrency : string;
  hostCurrency : string;
  hostCurrencyFxRate : Q;
  netAmountInCollectiveCurrency : Q;
  amountInHostCurrency : Q;
  hostFeeInHostCurrency : Q;
  platformFeeInHostCurrency : Q;
  taxAmount : option Q;
  paymentProcessorFeeInHostCurrency : Q;
  txDescription : option string;
  isFeesOnTop : option bool
}.

Record Payload : Type := mkPayload {
  plCreatedByUserId : option Z;
  plFromCollectiveId : option Z;
  plCollectiveId : option Z;
  plPaymentMethodId : option Z;
  transaction : Transaction
}.

Record PaymentMethod : Type := mkPaymentMethod {
  pmId : Z;
  pmCollectiveId : option Z;
  pmCurrency : string
}.

(** [order.data]: the keys [processOrder] reads. *)
Record OrderData : Type := mkOrderData {
  odHostFeePercent : option Q;
  odPlatformFeePercent : option Q;
  platformFee : option Q;
  odIsFeesOnTop : option bool
}.

Record Order : Type := mkOrder {
  orderId : Z;
  orCreatedByUserId : option Z;
  orFromCollectiveId : option Z;
  orCollectiveId : option Z;
  orPaymentMethodId : option Z;
  fromCollective : Collective;
  collective : Collective;
  paymentMethod : PaymentMethod;
  totalAmount : Q;
  orCurrency : string;
  orTaxAmount : option Q;
  orDescription : option string;
  orData : option OrderData
}.

(** constants/activities: the three types written by the mutations below. *)
Inductive ActivityType : Type :=
| COLLECTIVE_EDITED | TWO_FACTOR_METHOD_ADDED | TWO_FACTOR_METHOD_DELETED.

Record FeeStructure (A B : Type) : Type := mkFeeStructure {
  fsHostFeePercent : A;
  fsUseCustomHostFee : B
}.

Inductive ActivityData : Type :=
| NoData
| FeeStructureEdit (previousData : FeeStructure (option Q) (option bool))
                   (newData : FeeStructure Q bool)
| MethodDeleted (userTwoFactorMethod : option UserTwoFactorMethod).

Record Activity : Type := mkActivity {
  actType : ActivityType;
  actUserId : Z;
  actUserTokenId : option Z;
  actCollectiveId : option Z;
  actFromCollectiveId : option Z;
  actHostCollectiveId : option Z;
  actData : ActivityData
}.

(** The database tables, and how many strings were drawn so far from the
    random source. *)
Record World : Type := mkWorld {
  Collectives : list Collective;
  Users : list User;
  UserTwoFactorMethods : list UserTwoFactorMethod;
  Activities : list Activity;
  Transactions : list Transaction;
  randomDraws : nat
}.

Definition setTransactions (w : World) (ts : list Transaction) : World :=
  mkWorld (Collectives w) (Users w) (UserTwoFactorMethods w) (Activities w)
          ts (randomDraws w).

Definition setCollectives (w : World) (cs : list Collective) : World :=
  mkWorld cs (Users w) (UserTwoFactorMethods w) (Activities w)
          (Transactions w) (randomDraws w).

Definition setUsers (w : World) (us : list User) : World :=
  mkWorld (Collectives w) us (UserTwoFactorMethods w) (Activities w)
          (Transactions w) (randomDraws w).

Definition setUserTwoFactorMethods (w : World) (ms : list UserTwoFactorMethod) : World :=
  mkWorld (Collectives w) (Users w) ms (Activities w)
          (Transactions w) (randomDraws w).

Definition setActivities (w : World) (acts : list Activity) : World :=
  mkWorld (Collectives w) (Users w) (UserTwoFactorMethods w) acts
          (Transactions w) (randomDraws w).

Definition setRandomDraws (w : World) (n : nat) : World :=
  mkWorld (Collectives w) (Users w) (UserTwoFactorMethods w) (Activities w)
          (Transactions w) n.

(** [models.Collective.findByPk(pk)]: the row with that primary key, or
    [null]. *)
Definition findCollective (pk : option Z) (w : World) : option Collective :=
  match pk with
  | None => None
  | Some i => find (fun c => id c =? i) (Collectives w)
  end.

Definition Collective_findByPk (pk : option Z) : M World (option Collective) :=
  gets (findCollective pk).

(* ================================================================== *)
(** * The collective-to-collective payment method                       *)
(* ================================================================== *)

(** What the provider imports from the rest of the server. *)
Record PaymentDeps : Type := mkPaymentDeps {
  (** lib/currency *)
  getFxRate : string -> string -> World -> Error + Q;
  (** lib/payments *)
  paymentsLib_calcFee : Q -> Q -> Q;
  paymentsLib_createRefundTransaction :
    Transaction -> Q -> option string -> User ->
    World -> (Error + Transaction) * World;
  (** lib/utils *)
  formatCurrency : Q -> string -> string;
  (** models *)
  Collective_getHostCollective : Collective -> World -> option Collective;
  Collective_getBalance : Collective -> World -> Q;
  PaymentMethod_getCollective : PaymentMethod -> World -> Error + Collective;
  Transaction_createFromPayload :
    Payload -> World -> (Error + list Transaction) * World
}.

Section PaymentMethodProvider.
Variable d : PaymentDeps.

(** [paymentMethodProvider.getBalance]: the balance in the currency of the
    payment method, that is, of its collective. *)
Definition getBalance (paymentMethod : PaymentMethod) : M World Q :=
  collective <- query (PaymentMethod_getCollective d paymentMethod) ;;
  gets (Collective_getBalance d collective).

(** [get(order, 'data.hostFeePercent', 0)] and its sibling. *)
Definition get_hostFeePercent (order : Order) : Q :=
  match orData order with
  | Some od => match odHostFeePercent od with Some p => p | None => 0%Q end
  | None => 0%Q
  end.

Definition get_platformFeePercent (order : Order) : Q :=
  match orData order with
  | Some od => match odPlatformFeePercent od with Some p => p | None => 0%Q end
  | None => 0%Q
  end.

(** [order.data?.platformFee || 0] *)
Definition get_feeOnTop (order : Order) : Q :=
  match orData order with
  | Some od =>
      match platformFee od with
      | Some f => if isZero f then 0%Q else f
      | None => 0%Q
      end
  | None => 0%Q
  end.

(** [order.data?.isFeesOnTop] *)
Definition get_isFeesOnTop (order : Order) : option bool :=
  match orData order with
  | Some od => odIsFeesOnTop od
  | None => None
  end.

Definition processOrder (order : Order) : M World (list Transaction) :=
  throwIf (negb (isActive (fromCollective order)))
    (mkError PlainError
       "Cannot use the Open Collective payment method if not active.") ;;
  throwIf (negb (optZ_eqb (pmCollectiveId (paymentMethod order))
                          (Some (id (fromCollective order)))))
    (mkError PlainError
       "Cannot use the Open Collective payment method to make a payment on behalf of another collective") ;;
  (* Get the host of the fromCollective and collective *)
  fromCollectiveHost <- gets (Collective_getHostCollective d (fromCollective order)) ;;
  collectiveHost <- gets (Collective_getHostCollective d (collective order)) ;;
  match fromCollectiveHost with
  | None =>
      throw (mkError PlainError
               "Cannot use the Open Collective payment method without an Host.")
  | Some fromCollectiveHost =>
  match collectiveHost with
  | None =>
      throw (mkError PlainError
               "Cannot use the Open Collective payment method to a recipient without an Host.")
  | Some collectiveHost =>
  throwIf (negb (id fromCollectiveHost =? id collectiveHost))
    (mkError PlainError
       ("Cannot use the Open Collective payment method to make a payment between different hosts: "
          ++ name fromCollectiveHost ++ " -> " ++ name collectiveHost)) ;;
  balance <- getBalance (paymentMethod order) ;;
  throwIf (Qltb balance (totalAmount order))
    (mkError PlainError
       ("Not enough funds available ("
          ++ formatCurrency d balance (pmCurrency (paymentMethod order))
          ++ " left) to execute this order ("
          ++ formatCurrency d (totalAmount order) (orCurrency order) ++ ")")) ;;
  let hostFeePercent := get_hostFeePercent order in
  let platformFeePercent := get_platformFeePercent order in
  (* Different collectives on the same host may have different currencies:
     compute the equivalent using the fxrate of the day *)
  fxrate <- query (getFxRate d (orCurrency order) (pmCurrency (paymentMethod order))) ;;
  let totalAmountInPaymentMethodCurrency := js_mul (totalAmount order) fxrate in
  let feeOnTop := get_feeOnTop order in
  let hostFeeInHostCurrency :=
    paymentsLib_calcFee d (js_mul (js_sub (totalAmount order) feeOnTop) fxrate)
                        hostFeePercent in
  let platformFeeInHostCurrency :=
    if isZero feeOnTop
    then paymentsLib_calcFee d (js_mul (totalAmount order) fxrate) platformFeePercent
    else js_mul feeOnTop fxrate in
  let payload :=
    {| plCreatedByUserId := orCreatedByUserId order;
       plFromCollectiveId := orFromCollectiveId order;
       plCollectiveId := orCollectiveId order;
       plPaymentMethodId := orPaymentMethodId order;
       transaction :=
         {| txCreatedByUserId := None;
            txFromCollectiveId := None;
            txCollectiveId := None;
            txPaymentMethodId := None;
            txType := CREDIT;
            OrderId := Some (orderId order);
            amount := totalAmount order;
            txCurrency := orCurrency order;
            hostCurrency := currency collectiveHost;
            hostCurrencyFxRate := fxrate;
            netAmountInCollectiveCurrency :=
              js_mul (totalAmount order) (js_sub 1 (js_div hostFeePercent 100));
            amountInHostCurrency := totalAmountInPaymentMethodCurrency;
            hostFeeInHostCurrency := hostFeeInHostCurrency;
            platformFeeInHostCurrency := platformFeeInHostCurrency;
            taxAmount := orTaxAmount order;
            paymentProcessorFeeInHostCurrency := 0%Q;
            txDescription := orDescription order;
            isFeesOnTop := get_isFeesOnTop order |} |} in
  transactions <- Transaction_createFromPayload d payload ;;
  ret transactions
  end end.

(** Refund a given transaction by creating the opposing transaction.
    Refunds are not supported for cross-host donations. *)
Definition refundTransaction (transaction : Transaction) (user : User)
  : M World Transaction :=
  (* Get the from/to collectives. *)
  c1 <- Collective_findByPk (txFromCollectiveId transaction) ;;
  c2 <- Collective_findByPk (txCollectiveId transaction) ;;
  let collectives := (c1, c2) in
  let '(fromCollective, collective) :=
    if isCredit (txType transaction) then collectives else (c2, c1) in
  (* Check if we allow refund for this one *)
  match fromCollective with
  | None =>
      throw (mkError TypeError "Cannot read properties of null (reading 'HostCollectiveId')")
  | Some fromCollective =>
  (if falsyId (HostCollectiveId fromCollective)
   then throw (mkError PlainError "Cannot process refunds for collectives without a host")
   else
     match collective with
     | None =>
         throw (mkError TypeError "Cannot read properties of null (reading 'HostCollectiveId')")
     | Some collective =>
     throwIf (negb (optZ_eqb (HostCollectiveId fromCollective)
                             (HostCollectiveId collective)))
       (mkError PlainError "Cannot process refunds for collectives with different hosts") ;;
     balance <- gets (Collective_getBalance d collective) ;;
     throwIf (Qltb balance (amount transaction))
       (mkError PlainError
          ("Not enough funds available ("
             ++ formatCurrency d balance (currency collective)
             ++ " left) to process this refund ("
             ++ formatCurrency d (amount transaction) (txCurrency transaction) ++ ")")) ;;
     (* Use 0 for processor fees because there's no fees for collective to
        collective transactions within the same host. *)
     paymentsLib_createRefundTransaction d transaction 0%Q None user
     end)
  end.
End PaymentMethodProvider.

(* ================================================================== *)
(** * Account mutations                                                 *)
(* ================================================================== *)

(** The Express request: the authenticated user and the API token. *)
Record Request : Type := mkRequest {
  remoteUser : option User;
  userToken : option Z
}.

Record AccountReference : Type := mkAccountReference {
  refLegacyId : option Z;
  refSlug : option string
}.

Record FetchOptions : Type := mkFetchOptions {
  throwIfMissing : bool;
  lock : bool
}.

Record ValidateRequestOptions : Type := mkValidateRequestOptions {
  alwaysAskForToken : bool;
  requireTwoFactorAuthEnabled : bool
}.

(** What AccountMutations.ts imports from the rest of the server. *)
Record AccountDeps : Type := mkAccountDeps {
  (** graphql/common/scope-check: [None] when the check passes. *)
  checkRemoteUserCanUseHost : Request -> option Error;
  checkRemoteUserCanUseAccount : Request -> option Error;
  (** graphql/v2/input *)
  fetchAccountWithReference :
    AccountReference -> FetchOptions -> World -> Error + option Collective;
  fetchUserTwoFactorMethodWithReference :
    Z -> FetchOptions -> World -> Error + option UserTwoFactorMethod;
  (** models/User, models/Collective *)
  User_isAdmin : User -> option Z -> bool;
  User_isAdminOfCollective : User -> option Collective -> bool;
  Account_getHostCollective : Collective -> World -> option Collective;
  Collective_getChildren : Collective -> World -> list Collective;
  Collective_freeze : Collective -> option string -> World -> (Error + unit) * World;
  Collective_unfreeze : Collective -> option string -> World -> (Error + unit) * World;
  (** lib/two-factor-authentication *)
  TwoFactorAuthLib_validateRequest :
    Request -> ValidateRequestOptions -> World -> Error + bool;
  TwoFactorAuthLib_twoFactorMethodsSupportedByUser :
    User -> World -> list TwoFactorMethod;
  validateYubikeyOTP : string -> World -> Error + bool;
  parseRegistrationResult : string -> Error + string;
  webauthn_verifyRegistrationResponse :
    User -> Request -> string -> World -> Error + string;
  webauthn_getWebauthDeviceData : string -> World -> Error + WebauthnData;
  (** lib/encryption and crypto-random-string: the [n]-th string drawn from
      the random source, of the requested length. *)
  crypto_encrypt : string -> string;
  crypto_hash : string -> string;
  cryptoRandomString : nat -> nat -> string;
  (** the database: whether it aborts the [n]-th statement of a transaction
      opened on the given state (a lock that cannot be taken, a deadlock, a
      lost connection), and with which error *)
  transactionAborts : World -> nat -> option Error
}.

Inductive AccountFreezeAction : Type := FREEZE | UNFREEZE.

Record EditAccountFeeStructureArgs : Type := mkEditAccountFeeStructureArgs {
  feeAccount : AccountReference;
  argHostFeePercent : Q;
  isCustomFee : bool
}.

Record EditAccountFreezeStatusArgs : Type := mkEditAccountFreezeStatusArgs {
  freezeAccount : AccountReference;
  action : AccountFreezeAction;
  freezeMessage : option string
}.

Record AddTwoFactorArgs : Type := mkAddTwoFactorArgs {
  addAccount : AccountReference;
  addType : option TwoFactorMethod;
  token : string
}.

Record AddTwoFactorResponse : Type := mkAddTwoFactorResponse {
  account : Collective;
  recoveryCodes : option (list string)
}.

Record RemoveTwoFactorArgs : Type := mkRemoveTwoFactorArgs {
  rmUserTwoFactorMethod : option Z;
  rmAccount : AccountReference;
  rmType : option TwoFactorMethod;
  code : option string
}.

(** ** The ORM operations used by the mutations

    A write is its effect on the tables.  That the database refuses a
    statement is modelled for the statements of a transaction, where the
    code answers it with a rollback ([inTransaction],
    [sequelize_transaction]); the mutations that write without a
    transaction are described for the runs in which their writes go
    through. *)

(** The handle that [sequelize.transaction] passes to its callback:
    [aborts n] is the error with which the database aborts the [n]-th
    statement of this transaction, if it does. *)
Record DbTransaction : Type := mkDbTransaction {
  aborts : nat -> option Error
}.

(** The database while a transaction is open: what is committed, what the
    statements of the transaction see, and how many statements the
    transaction has run. *)
Record OpenTransaction : Type := mkOpenTransaction {
  committed : World;
  pending : World;
  statements : nat
}.

(** A call with the option [{ transaction: t }]: the database aborts it, or
    it reads and writes what the transaction sees. *)
Definition inTransaction {A} (t : DbTransaction) (op : M World A)
  : M OpenTransaction A :=
  fun s =>
    match aborts t (statements s) with
    | Some e => (inl e, s)
    | None =>
        let (r, w') := op (pending s) in
        (r, {| committed := committed s;
               pending := w';
               statements := Datatypes.S (statements s) |})
    end.

(** [sequelize.transaction(async t => body)]: when [body] throws the
    transaction is rolled back, and what was committed stays; when it
    resolves the transaction is committed, which the database may refuse as
    any other statement, and what the transaction saw becomes the state. *)
Definition sequelize_transaction (d : AccountDeps) {A}
           (body : DbTransaction -> M OpenTransaction A) : M World A :=
  fun w =>
    let t := {| aborts := transactionAborts d w |} in
    match body t {| committed := w; pending := w; statements := 0 |} with
    | (inl e, s) => (inl e, committed s)
    | (inr a, s) =>
        match aborts t (statements s) with
        | Some e => (inl e, committed s)
        | None => (inr a, pending s)
        end
    end.

(** [{ ...data, useCustomHostFee }] *)
Definition spreadUseCustomHostFee (dt : option CollectiveData) (flag : bool)
  : option CollectiveData :=
  Some {| useCustomHostFee := Some flag;
          otherData := match dt with Some x => otherData x | None => [] end |}.

(** [data?.useCustomHostFee] *)
Definition data_useCustomHostFee (dt : option CollectiveData) : option bool :=
  match dt with
  | Some x => useCustomHostFee x
  | None => None
  end.

Definition withFees (c : Collective) (p : option Q) (dt : option CollectiveData)
  : Collective :=
  mkCollective (id c) (type c) (name c) (currency c) (isActive c)
               (HostCollectiveId c) (ParentCollectiveId c) (approvedAt c) p dt.

(** [instance.update({ hostFeePercent, data })]: sets the two columns on the
    row of the instance, and on the instance, which is returned. *)
Definition Collective_update (instance : Collective) (p : option Q)
           (dt : option CollectiveData) : M World Collective :=
  modify (fun w =>
            setCollectives w
              (map (fun row => if id row =? id instance then withFees row p dt else row)
                   (Collectives w))) ;;
  ret (withFees instance p dt).

(** [instance.reload()] *)
Definition Collective_reload (instance : Collective) : M World Collective :=
  row <- Collective_findByPk (Some (id instance)) ;;
  match row with
  | Some c => ret c
  | None =>
      throw (mkError PlainError
               "Instance could not be reloaded because it does not exist anymore (find call returned null)")
  end.

(** [models.User.findOne({ where: { CollectiveId } })] *)
Definition User_findOne (CollectiveId : Z) : M World (option User) :=
  gets (fun w => find (fun u => optZ_eqb (userCollectiveId u) (Some CollectiveId)) (Users w)).

(** [user.update({ twoFactorAuthRecoveryCodes })] *)
Definition User_update (user : User) (codes : option (list string)) : M World User :=
  modify (fun w =>
            setUsers w
              (map (fun row =>
                      if userId row =? userId user
                      then mkUser (userId row) (userCollectiveId row) codes
                      else row)
                   (Users w))) ;;
  ret (mkUser (userId user) (userCollectiveId user) codes).

(** The next value of the auto-incremented primary key. *)
Definition nextMethodId (ms : list UserTwoFactorMethod) : Z :=
  1 + fold_right (fun m acc => Z.max (methodId m) acc) 0 ms.

(** [UserTwoFactorMethod.create({ UserId, method, name, data })] *)
Definition UserTwoFactorMethod_create (UserId : Z) (m : TwoFactorMethod)
           (nm : string) (dt : TwoFactorMethodData) : M World UserTwoFactorMethod :=
  fun w =>
    let row := mkUserTwoFactorMethod (nextMethodId (UserTwoFactorMethods w)) UserId m nm dt in
    (inr row, setUserTwoFactorMethods w (UserTwoFactorMethods w ++ [row])).

(** [instance.destroy()] *)
Definition UserTwoFactorMethod_destroyInstance (instance : UserTwoFactorMethod)
  : M World unit :=
  modify (fun w =>
            setUserTwoFactorMethods w
              (filter (fun row => negb (methodId row =? methodId instance))
                      (UserTwoFactorMethods w))).

(** [UserTwoFactorMethod.destroy({ where: { UserId, ...(type ? { method: type } : {}) } })] *)
Definition UserTwoFactorMethod_destroy (UserId : Z) (ty : option TwoFactorMethod)
  : M World unit :=
  modify (fun w =>
            setUserTwoFactorMethods w
              (filter (fun row =>
                         negb ((methodUserId row =? UserId)
                               && match ty with
                                  | Some t => TwoFactorMethod_eqb (method row) t
                                  | None => true
                                  end))
                      (UserTwoFactorMethods w))).

(** [models.Activity.create(row)] *)
Definition Activity_create (row : Activity) : M World unit :=
  modify (fun w => setActivities w (Activities w ++ [row])).

(** A scope check: throws the error it reports. *)
Definition check (r : option Error) : M World unit :=
  match r with
  | Some e => throw e
  | None => ret tt
  end.

(** [[CollectiveType.COLLECTIVE, CollectiveType.FUND].includes(type)] *)
Definition isCollectiveOrFund (t : CollectiveType) : bool :=
  match t with
  | COLLECTIVE | FUND => true
  | _ => false
  end.

(** [token.match(/([A-Z2-7]){103}/)]: some run of [n] consecutive characters
    of the base32 alphabet; [left] counts what the current run still needs. *)
Definition isBase32Char (c : Ascii.ascii) : bool :=
  let k := Ascii.nat_of_ascii c in
  ((65 <=? k)%nat && (k <=? 90)%nat) || ((50 <=? k)%nat && (k <=? 55)%nat).

Fixpoint base32Run (n left : nat) (s : string) {struct s} : bool :=
  match left with
  | O => true
  | Datatypes.S left' =>
      match s with
      | EmptyString => false
      | String c s' =>
          if isBase32Char c then base32Run n left' s' else base32Run n n s'
      end
  end.

Definition verifyToken (tk : string) : bool := base32Run 103 103 tk.

Section AccountMutations.
Variable d : AccountDeps.

(** [req.remoteUser?.isAdmin(id)] *)
Definition remoteUser_isAdmin (req : Request) (i : option Z) : bool :=
  match remoteUser req with
  | Some u => User_isAdmin d u i
  | None => false
  end.

(** An endpoint for hosts to edit the fees structure of their hosted
    accounts. Scope: "host". *)
Definition editAccountFeeStructure (args : EditAccountFeeStructureArgs)
           (req : Request) : M World Collective :=
  check (checkRemoteUserCanUseHost d req) ;;
  sequelize_transaction d (fun dbTransaction =>
    account <- inTransaction dbTransaction
                 (query (fetchAccountWithReference d (feeAccount args)
                           {| throwIfMissing := true; lock := true |})) ;;
    match account with
    | None =>
        throw (mkError TypeError "Cannot read properties of null (reading 'HostCollectiveId')")
    | Some account =>
    if falsyId (HostCollectiveId account) then
      throw (mkError ValidationFailed
               "Fees structure can only be edited for accounts that you are hosting")
    else if negb (remoteUser_isAdmin req (HostCollectiveId account)) then
      throw (mkError Forbidden
               "You need to be logged in as an host admin to change the fees structure of the hosted accounts")
    else if match approvedAt account with None => true | Some _ => false end then
      throw (mkError ValidationFailed
               "The collective needs to be approved before you can change the fees structure")
    else
      host <- inTransaction dbTransaction
                (Collective_findByPk (HostCollectiveId account)) ;;
      hostFeePercent_ <-
        (if isCustomFee args then ret (Some (argHostFeePercent args))
         else match host with
              | Some h => ret (hostFeePercent h)
              | None =>
                  throw (mkError TypeError
                           "Cannot read properties of null (reading 'hostFeePercent')")
              end) ;;
      let updateAccountFees := fun account : Collective =>
        inTransaction dbTransaction
          (Collective_update account hostFeePercent_
             (spreadUseCustomHostFee (data account) (isCustomFee args))) in
      let previousData :=
        {| fsHostFeePercent := hostFeePercent account;
           fsUseCustomHostFee := data_useCustomHostFee (data account) |} in
      (* Update main account *)
      account <- updateAccountFees account ;;
      (* Cascade host update to events and projects *)
      children <- inTransaction dbTransaction
                    (gets (Collective_getChildren d account)) ;;
      (if (0 <? Z.of_nat (length children))
       then mapM updateAccountFees children
       else ret []) ;;
      match remoteUser req with
      | None => throw (mkError TypeError "Cannot read properties of null (reading 'id')")
      | Some remote =>
      inTransaction dbTransaction
        (Activity_create
           {| actType := COLLECTIVE_EDITED;
              actUserId := userId remote;
              actUserTokenId := userToken req;
              actCollectiveId := Some (id account);
              actFromCollectiveId := Some (id account);
              actHostCollectiveId := HostCollectiveId account;
              actData :=
                FeeStructureEdit previousData
                  {| fsHostFeePercent := argHostFeePercent args;
                     fsUseCustomHostFee := isCustomFee args |} |}) ;;
      ret account
      end
    end).

(** An endpoint for hosts to edit the freeze status of their hosted
    accounts. Scope: "host". *)
Definition editAccountFreezeStatus (args : EditAccountFreezeStatusArgs)
           (req : Request) : M World Collective :=
  check (checkRemoteUserCanUseHost d req) ;;
  account <- query (fetchAccountWithReference d (freezeAccount args)
                      {| throwIfMissing := true; lock := false |}) ;;
  match account with
  | None =>
      throw (mkError TypeError "Cannot read properties of null (reading 'getHostCollective')")
  | Some account =>
  host <- gets (Account_getHostCollective d account) ;;
  match host with
  | None => throw (mkError ValidationFailed "Cannot find the host of this account")
  | Some host =>
  match remoteUser req with
  | None =>
      throw (mkError TypeError "Cannot read properties of null (reading 'isAdminOfCollective')")
  | Some remote =>
  if negb (User_isAdminOfCollective d remote (Some host)) then
    throw (mkError Unauthorized "")
  else if negb (isCollectiveOrFund (type account)) then
    throw (mkError ValidationFailed
             "Only collective and funds can be frozen. To freeze children accounts (projects, events) you need to freeze the parent account.")
  else
    match action args with
    | FREEZE => Collective_freeze d account (freezeMessage args)
    | UNFREEZE => Collective_unfreeze d account (freezeMessage args)
    end ;;
    Collective_reload account
  end end end.

(** [cryptoRandomString({ length: 16, type: 'distinguishable' })]: the next
    draw from the random source. *)
Definition drawRandomString (len : nat) : M World string :=
  fun w => (inr (cryptoRandomString d (randomDraws w) len),
            setRandomDraws w (Datatypes.S (randomDraws w))).

(** [x || fallback] on an optional string: the empty string is falsy. *)
Definition orString (x : option string) (fallback : string) : string :=
  match x with
  | Some EmptyString | None => fallback
  | Some s => s
  end.

(** Add 2FA to the Individual if it does not have it. Scope: "account". *)
Definition addTwoFactorAuthTokenToIndividual (args : AddTwoFactorArgs)
           (req : Request) : M World AddTwoFactorResponse :=
  check (checkRemoteUserCanUseAccount d req) ;;
  account <- query (fetchAccountWithReference d (addAccount args)
                      {| throwIfMissing := false; lock := false |}) ;;
  match remoteUser req with
  | None =>
      throw (mkError TypeError "Cannot read properties of null (reading 'isAdminOfCollective')")
  | Some remote =>
  throwIf (negb (User_isAdminOfCollective d remote account)) (mkError Forbidden "") ;;
  match account with
  | None => throw (mkError TypeError "Cannot read properties of null (reading 'id')")
  | Some account =>
  user <- User_findOne (id account) ;;
  match user with
  | None => throw (mkError NotFound "Account not found.")
  | Some user =>
  let type := match addType args with Some t => t | None => TOTP end in
  userEnabledMethods <- gets (TwoFactorAuthLib_twoFactorMethodsSupportedByUser d user) ;;
  (if (0 <? Z.of_nat (length userEnabledMethods))
   then query (TwoFactorAuthLib_validateRequest d req
                 {| alwaysAskForToken := true; requireTwoFactorAuthEnabled := false |})
   else ret true) ;;
  match type with
  | TOTP =>
      (* check that the base32 secret is only capital letters and numbers (2-7) *)
      throwIf (negb (verifyToken (token args))) (mkError ValidationFailed "Invalid 2FA token") ;;
      let encryptedText := crypto_encrypt d (token args) in
      UserTwoFactorMethod_create (userId user) TOTP "Authenticator"
        (SecretData encryptedText)
  | YUBIKEY_OTP =>
      validYubikeyOTP <- query (validateYubikeyOTP d (token args)) ;;
      throwIf (negb validYubikeyOTP) (mkError ValidationFailed "Invalid 2FA token") ;;
      UserTwoFactorMethod_create (userId user) YUBIKEY_OTP
        ("Yubikey " ++ substring 0 12 (token args))
        (YubikeyData (substring 0 12 (token args)))
  | WEBAUTHN =>
      registrationResult <- query (fun _ => parseRegistrationResult d (token args)) ;;
      registrationResponse <-
        query (webauthn_verifyRegistrationResponse d user req registrationResult) ;;
      dt <- query (webauthn_getWebauthDeviceData d registrationResponse) ;;
      let nm := orString (description dt) "U2F device" in
      UserTwoFactorMethod_create (userId user) WEBAUTHN nm (DeviceData dt)
  | RECOVERY_CODE =>
      throw (mkError ValidationFailed "Unsupported 2FA method")
  end ;;
  recoveryCodesArray <-
    (if (length userEnabledMethods =? 0)%nat then
       (* Generate recovery codes, hash and store them in the table, and
          return them to the user to write down *)
       recoveryCodesArray <- replicateM 6 (drawRandomString 16) ;;
       let hashedRecoveryCodesArray := map (crypto_hash d) recoveryCodesArray in
       User_update user (Some hashedRecoveryCodesArray) ;;
       ret (Some recoveryCodesArray)
     else ret None) ;;
  Activity_create
    {| actType := TWO_FACTOR_METHOD_ADDED;
       actUserId := userId user;
       actUserTokenId := None;
       actCollectiveId := userCollectiveId user;
       actFromCollectiveId := userCollectiveId user;
       actHostCollectiveId := None;
       actData := NoData |} ;;
  ret {| account := account; recoveryCodes := recoveryCodesArray |}
  end end end.

(** Remove 2FA from the Individual if it has been enabled. Scope: "account". *)
Definition removeTwoFactorAuthTokenFromIndividual (args : RemoveTwoFactorArgs)
           (req : Request) : M World Collective :=
  check (checkRemoteUserCanUseAccount d req) ;;
  account <- query (fetchAccountWithReference d (rmAccount args)
                      {| throwIfMissing := false; lock := false |}) ;;
  match remoteUser req with
  | None =>
      throw (mkError TypeError "Cannot read properties of null (reading 'isAdminOfCollective')")
  | Some remote =>
  throwIf (negb (User_isAdminOfCollective d remote account)) (mkError Forbidden "") ;;
  userTwoFactorMethod <-
    match rmUserTwoFactorMethod args with
    | Some reference =>
        found <- query (fetchUserTwoFactorMethodWithReference d reference
                          {| throwIfMissing := true; lock := false |}) ;;
        match found with
        | None => throw (mkError TypeError "Cannot read properties of null (reading 'UserId')")
        | Some m =>
            throwIf (negb (methodUserId m =? userId remote)) (mkError Forbidden "") ;;
            ret (Some m)
        end
    | None => ret None
    end ;;
  match account with
  | None => throw (mkError TypeError "Cannot read properties of null (reading 'id')")
  | Some account =>
  user <- User_findOne (id account) ;;
  match user with
  | None => throw (mkError NotFound "Account not found.")
  | Some user =>
  enabled <- gets (TwoFactorAuthLib_twoFactorMethodsSupportedByUser d user) ;;
  throwIf (length enabled =? 0)%nat
    (mkError Unauthorized "This account already has 2FA disabled.") ;;
  query (TwoFactorAuthLib_validateRequest d req
           {| alwaysAskForToken := true; requireTwoFactorAuthEnabled := true |}) ;;
  match userTwoFactorMethod with
  | Some m => UserTwoFactorMethod_destroyInstance m
  | None => UserTwoFactorMethod_destroy (userId user) (rmType args)
  end ;;
  remaining <- gets (TwoFactorAuthLib_twoFactorMethodsSupportedByUser d user) ;;
  (if (length remaining =? 0)%nat
   then User_update user None ;; ret tt
   else ret tt) ;;
  Activity_create
    {| actType := TWO_FACTOR_METHOD_DELETED;
       actUserId := userId user;
       actUserTokenId := userToken req;
       actCollectiveId := userCollectiveId user;
       actFromCollectiveId := userCollectiveId user;
       actHostCollectiveId := None;
       actData := MethodDeleted userTwoFactorMethod |} ;;
  ret account
  end end end.
End AccountMutations.

(* ================================================================== *)
(** * The ledger                                                        *)
(* ================================================================== *)

Definition oppositeType (t : TransactionTypes) : TransactionTypes :=
  match t with CREDIT => DEBIT | DEBIT => CREDIT end.

(** Modelled from the spec: the double-entry routine behind
    [models.Transaction.createFromPayload] is not part of the two files.
    "A Transaction's debit/credit pair must net to zero across the two
    ledger sides": the paired row sits on the other account, has the opposite
    type, and carries the negated amounts. *)
Definition pairedEntry (t : Transaction) : Transaction :=
  {| txCreatedByUserId := txCreatedByUserId t;
     txFromCollectiveId := txCollectiveId t;
     txCollectiveId := txFromCollectiveId t;
     txPaymentMethodId := txPaymentMethodId t;
     txType := oppositeType (txType t);
     OrderId := OrderId t;
     amount := (- amount t)%Q;
     txCurrency := txCurrency t;
     hostCurrency := hostCurrency t;
     hostCurrencyFxRate := hostCurrencyFxRate t;
     netAmountInCollectiveCurrency := (- netAmountInCollectiveCurrency t)%Q;
     amountInHostCurrency := (- amountInHostCurrency t)%Q;
     hostFeeInHostCurrency := hostFeeInHostCurrency t;
     platformFeeInHostCurrency := platformFeeInHostCurrency t;
     taxAmount := taxAmount t;
     paymentProcessorFeeInHostCurrency := paymentProcessorFeeInHostCurrency t;
     txDescription := txDescription t;
     isFeesOnTop := isFeesOnTop t |}.

(** The transaction of a payload, with the keys of the payload filled in. *)
Definition payloadEntry (p : Payload) : Transaction :=
  let t := transaction p in
  {| txCreatedByUserId := plCreatedByUserId p;
     txFromCollectiveId := plFromCollectiveId p;
     txCollectiveId := plCollectiveId p;
     txPaymentMethodId := plPaymentMethodId p;
     txType := txType t;
     OrderId := OrderId t;
     amount := amount t;
     txCurrency := txCurrency t;
     hostCurrency := hostCurrency t;
     hostCurrencyFxRate := hostCurrencyFxRate t;
     netAmountInCollectiveCurrency := netAmountInCollectiveCurrency t;
     amountInHostCurrency := amountInHostCurrency t;
     hostFeeInHostCurrency := hostFeeInHostCurrency t;
     platformFeeInHostCurrency := platformFeeInHostCurrency t;
     taxAmount := taxAmount t;
     paymentProcessorFeeInHostCurrency := paymentProcessorFeeInHostCurrency t;
     txDescription := txDescription t;
     isFeesOnTop := isFeesOnTop t |}.

(** Modelled from the spec: [models.Transaction.createFromPayload] is not
    part of the two files.  "Delegates persistence to the ledger-entry
    creation routine, which is responsible for generating the paired
    debit/credit rows": both rows are appended to the ledger and returned. *)
Definition spec_createFromPayload (p : Payload) : M World (list Transaction) :=
  let rows := [payloadEntry p; pairedEntry (payloadEntry p)] in
  modify (fun w => setTransactions w (Transactions w ++ rows)) ;;
  ret rows.

(** Modelled from the spec: [paymentsLib.createRefundTransaction] is not part
    of the two files.  It "creates an opposing ledger entry" with the given
    processor fee: an entry on the same account with the opposite type and
    the negated amounts, out of which the processor fee is taken. *)
Definition opposingEntry (t : Transaction) (paymentProcessorFee : Q) : Transaction :=
  {| txCreatedByUserId := txCreatedByUserId t;
     txFromCollectiveId := txFromCollectiveId t;
     txCollectiveId := txCollectiveId t;
     txPaymentMethodId := txPaymentMethodId t;
     txType := oppositeType (txType t);
     OrderId := OrderId t;
     amount := (- amount t)%Q;
     txCurrency := txCurrency t;
     hostCurrency := hostCurrency t;
     hostCurrencyFxRate := hostCurrencyFxRate t;
     netAmountInCollectiveCurrency :=
       (- netAmountInCollectiveCurrency t - paymentProcessorFee)%Q;
     amountInHostCurrency := (- amountInHostCurrency t)%Q;
     hostFeeInHostCurrency := hostFeeInHostCurrency t;
     platformFeeInHostCurrency := platformFeeInHostCurrency t;
     taxAmount := taxAmount t;
     paymentProcessorFeeInHostCurrency := paymentProcessorFee;
     txDescription := txDescription t;
     isFeesOnTop := isFeesOnTop t |}.

(** Modelled from the spec: see [opposingEntry]; the refund is itself a
    double entry, so the opposing row comes with its paired row. *)
Definition spec_createRefundTransaction (t : Transaction) (paymentProcessorFee : Q)
           (dt : option string) (user : User) : M World Transaction :=
  let refund := opposingEntry t paymentProcessorFee in
  modify (fun w => setTransactions w (Transactions w ++ [refund; pairedEntry refund])) ;;
  ret refund.

(** The sum of the net amounts of the ledger entries of one account. *)
Fixpoint balanceOf (CollectiveId : Z) (ledger : list Transaction) : Q :=
  match ledger with
  | [] => 0%Q
  | t :: rest =>
      ((if optZ_eqb (txCollectiveId t) (Some CollectiveId)
        then netAmountInCollectiveCurrency t
        else 0)
       + balanceOf CollectiveId rest)%Q
  end.

(** Modelled from the spec: [collective.getBalance()] is not part of the two
    files.  The balance of an account is what its ledger entries (credits
    and debits, in the currency of the collective) add up to. *)
Definition spec_getBalance (c : Collective) (w : World) : Q :=
  balanceOf (id c) (Transactions w).

(** Modelled from the spec: [collective.getHostCollective()] is not part of
    the two files.  "Collective may have a ... HostCollective": the row the
    [HostCollectiveId] key points to. *)
Definition spec_getHostCollective (c : Collective) (w : World) : option Collective :=
  match HostCollectiveId c with
  | Some h => find (fun x => id x =? h) (Collectives w)
  | None => None
  end.

(** Modelled from the spec: [paymentsLib.calcFee] is not part of the two
    files.  "Fee fields are proportional to their configured percentages":
    the fee is the amount times the percentage, over 100, in the arithmetic
    of numbers. *)
Definition spec_calcFee (amount fee : Q) : Q := js_div (js_mul amount fee) 100.

Arguments spec_calcFee : simpl never.

(** The provider over the ledger above; amounts are printed as their
    currency. *)
Definition ledgerDeps (fxrate : Q) : PaymentDeps :=
  {| getFxRate := fun _ _ _ => inr fxrate;
     paymentsLib_calcFee := spec_calcFee;
     paymentsLib_createRefundTransaction := spec_createRefundTransaction;
     formatCurrency := fun _ cur => cur;
     Collective_getHostCollective := spec_getHostCollective;
     Collective_getBalance := spec_getBalance;
     PaymentMethod_getCollective :=
       fun pm w =>
         match pmCollectiveId pm with
         | Some i =>
             match find (fun x => id x =? i) (Collectives w) with
             | Some c => inr c
             | None => inl (mkError TypeError "Cannot read properties of null (reading 'getBalance')")
             end
         | None => inl (mkError TypeError "Cannot read properties of null (reading 'getBalance')")
         end;
     Transaction_createFromPayload := spec_createFromPayload |}.

(* ================================================================== *)
(** * Vocabulary of the statements                                      *)
(* ================================================================== *)

(** The identifier of the fiscal host of an account, as [processOrder]
    sees it. *)
Definition hostIdOf (d : PaymentDeps) (c : Collective) (w : World) : option Z :=
  option_map id (Collective_getHostCollective d c w).

(** The validations of [processOrder] that precede the balance check. *)
Definition passesValidations (d : PaymentDeps) (order : Order) (w : World) : Prop :=
  isActive (fromCollective order) = true /\
  pmCollectiveId (paymentMethod order) = Some (id (fromCollective order)) /\
  (exists h, hostIdOf d (fromCollective order) w = Some h /\
             hostIdOf d (collective order) w = Some h).



(** The two accounts of a transaction as [refundTransaction] resolves them:
    the payer first, the recipient second. *)
Definition refundSides (t : Transaction) (w : World)
  : option Collective * option Collective :=
  if isCredit (txType t)
  then (findCollective (txFromCollectiveId t) w, findCollective (txCollectiveId t) w)
  else (findCollective (txCollectiveId t) w, findCollective (txFromCollectiveId t) w).

(** What [updateAccountFees] of [editAccountFeeStructure] does to one row
    when it is run on [instance], and what running it on a list of
    instances, one after the other, does to one row. *)
Definition updateFeesRow (p : option Q) (flag : bool) (instance row : Collective)
  : Collective :=
  if id row =? id instance
  then withFees row p (spreadUseCustomHostFee (data instance) flag)
  else row.

Definition cascadeRow (p : option Q) (flag : bool) (instances : list Collective)
           (row : Collective) : Collective :=
  fold_left (fun r instance => updateFeesRow p flag instance r) instances row.

(** A row carries the fee structure [(p, flag)]. *)
Definition feesApplied (p : option Q) (flag : bool) (row : Collective) : Prop :=
  hostFeePercent row = p /\ data_useCustomHostFee (data row) = Some flag.

(** The host fee percent that [editAccountFeeStructure] applies. *)
Definition appliedHostFeePercent (args : EditAccountFeeStructureArgs)
           (host : option Collective) : option Q :=
  if isCustomFee args then Some (argHostFeePercent args)
  else match host with
       | Some h => hostFeePercent h
       | None => None
       end.

(** The audit row that [editAccountFeeStructure] writes. *)
Definition feeEditActivity (args : EditAccountFeeStructureArgs) (req : Request)
           (remote : User) (account : Collective) : Activity :=
  {| actType := COLLECTIVE_EDITED;
     actUserId := userId remote;
     actUserTokenId := userToken req;
     actCollectiveId := Some (id account);
     actFromCollectiveId := Some (id account);
     actHostCollectiveId := HostCollectiveId account;
     actData :=
       FeeStructureEdit
         {| fsHostFeePercent := hostFeePercent account;
            fsUseCustomHostFee := data_useCustomHostFee (data account) |}
         {| fsHostFeePercent := argHostFeePercent args;
            fsUseCustomHostFee := isCustomFee args |} |}.

(** The children that [editAccountFeeStructure] cascades to: what
    [getChildren] answers for the updated account, inside the transaction. *)
Definition cascadeChildren (d : AccountDeps) (args : EditAccountFeeStructureArgs)
           (account : Collective) (p : option Q) (w : World) : list Collective :=
  Collective_getChildren d
    (withFees account p (spreadUseCustomHostFee (data account) (isCustomFee args)))
    (setCollectives w (map (updateFeesRow p (isCustomFee args) account) (Collectives w))).

(** The world that a committed [editAccountFeeStructure] leaves behind. *)
Definition afterFeeEdit (d : AccountDeps) (args : EditAccountFeeStructureArgs)
           (req : Request) (remote : User) (account : Collective) (p : option Q)
           (w : World) : World :=
  let flag := isCustomFee args in
  let children := cascadeChildren d args account p w in
  setActivities
    (setCollectives w
       (map (cascadeRow p flag children)
            (map (updateFeesRow p flag account) (Collectives w))))
    (Activities w ++ [feeEditActivity args req remote account]).

(** The database lets the first [n] statements of a transaction opened on
    [w] through. *)
Definition notAborted (d : AccountDeps) (w : World) (n : nat) : Prop :=
  forall k, (k < n)%nat -> transactionAborts d w k = None.

(** The caller is authorized to freeze [account]: the token has the "host"
    scope and the caller administers the host of the account. *)
Definition authorizedForHost (d : AccountDeps) (req : Request) (account : Collective)
           (w : World) : Prop :=
  checkRemoteUserCanUseHost d req = None /\
  exists host remote,
    Account_getHostCollective d account w = Some host /\
    remoteUser req = Some remote /\
    User_isAdminOfCollective d remote (Some host) = true.

(** The error of the account-type guard of [editAccountFreezeStatus]. *)
Definition onlyCollectiveAndFunds : Error :=
  mkError ValidationFailed
    "Only collective and funds can be frozen. To freeze children accounts (projects, events) you need to freeze the parent account.".

(** The row of a user, by primary key. *)
Definition userRow (uid : Z) (w : World) : option User :=
  find (fun u => userId u =? uid) (Users w).

(** [user.update({ twoFactorAuthRecoveryCodes })] on one row. *)
Definition setRecoveryCodes (user : User) (codes : option (list string)) (row : User)
  : User :=
  if userId row =? userId user
  then mkUser (userId row) (userCollectiveId row) codes
  else row.

(** The six strings that the next six draws from the random source give. *)
Definition recoveryCodesDrawn (d : AccountDeps) (w : World) : list string :=
  map (fun k => cryptoRandomString d (randomDraws w + k) 16) (seq 0 6).

(** The credential named by the arguments of
    [removeTwoFactorAuthTokenFromIndividual] resolves to [m]: none was named,
    or the named one exists and belongs to the caller. *)
Definition methodResolved (d : AccountDeps) (args : RemoveTwoFactorArgs)
           (remote : User) (w : World) (m : option UserTwoFactorMethod) : Prop :=
  match rmUserTwoFactorMethod args with
  | None => m = None
  | Some reference =>
      exists found,
        fetchUserTwoFactorMethodWithReference d reference
          {| throwIfMissing := true; lock := false |} w = inr (Some found) /\
        methodUserId found = userId remote /\
        m = Some found
  end.

(** The request gets as far as the check of the enrolled methods: the token
    has the "account" scope, the caller administers the account, and the
    credential to remove, if one is named, resolves. *)
Definition reachesRemoval (d : AccountDeps) (args : RemoveTwoFactorArgs)
           (req : Request) (acct : Collective) (w : World)
           (m : option UserTwoFactorMethod) : Prop :=
  checkRemoteUserCanUseAccount d req = None /\
  exists remote,
    remoteUser req = Some remote /\
    User_isAdminOfCollective d remote (Some acct) = true /\
    methodResolved d args remote w m.

Definition alreadyDisabled : Error :=
  mkError Unauthorized "This account already has 2FA disabled.".

(** The world after the deletion step of the removal. *)
Definition destroyed (m : option UserTwoFactorMethod) (user : User)
           (ty : option TwoFactorMethod) (w : World) : World :=
  snd (match m with
       | Some x => UserTwoFactorMethod_destroyInstance x
       | None => UserTwoFactorMethod_destroy (userId user) ty
       end w).

(** The world that a completed removal leaves behind. *)
Definition afterRemoval (d : AccountDeps) (args : RemoveTwoFactorArgs)
           (req : Request) (user : User) (m : option UserTwoFactorMethod)
           (w : World) : World :=
  let w1 := destroyed m user (rmType args) w in
  let w2 :=
    if (length (TwoFactorAuthLib_twoFactorMethodsSupportedByUser d user w1) =? 0)%nat
    then setUsers w1 (map (setRecoveryCodes user None) (Users w1))
    else w1 in
  setActivities w2
    (Activities w2
       ++ [{| actType := TWO_FACTOR_METHOD_DELETED;
              actUserId := userId user;
              actUserTokenId := userToken req;
              actCollectiveId := userCollectiveId user;
              actFromCollectiveId := userCollectiveId user;
              actHostCollectiveId := None;
              actData := MethodDeleted m |}]).

(* ================================================================== *)
(** * A small instance                                                  *)
(* ================================================================== *)

Module Fixture.
Definition host : Collective :=
  mkCollective 1 ORGANIZATION "Host" "USD" true (Some 1) None (Some 1700000000)
               (Some (10 # 1)) None.
Definition otherHost : Collective :=
  mkCollective 4 ORGANIZATION "Other host" "USD" true (Some 4) None (Some 1700000000)
               (Some (5 # 1)) None.
Definition payer : Collective :=
  mkCollective 2 COLLECTIVE "Payer" "USD" true (Some 1) None (Some 1700000000)
               (Some (10 # 1)) None.
Definition recipient : Collective :=
  mkCollective 3 COLLECTIVE "Recipient" "EUR" true (Some 1) None (Some 1700000000)
               (Some (10 # 1)) None.
Definition stranger : Collective :=
  mkCollective 5 COLLECTIVE "Stranger" "USD" true (Some 4) None (Some 1700000000)
               (Some (5 # 1)) None.
Definition event : Collective :=
  mkCollective 6 EVENT "Meetup" "EUR" true (Some 1) (Some 3) (Some 1700000000)
               (Some (10 # 1))
               (Some {| useCustomHostFee := None; otherData := [("venue", "online")] |}).
Definition project : Collective :=
  mkCollective 7 PROJECT "Website" "EUR" true (Some 1) (Some 3) (Some 1700000000)
               (Some (3 # 1)) None.

Definition alice : User := mkUser 11 (Some 21) None.
Definition aliceAccount : Collective :=
  mkCollective 21 USER "Alice" "USD" true None None None None None.
Definition bob : User := mkUser 12 (Some 22) (Some ["h1"; "h2"]).
Definition bobAccount : Collective :=
  mkCollective 22 USER "Bob" "USD" true None None None None None.
Definition bobKey : UserTwoFactorMethod :=
  mkUserTwoFactorMethod 1 12 YUBIKEY_OTP "Yubikey ccccccbobbob" (YubikeyData "ccccccbobbob").

(** The opening entry that funds the payer with 100.00. *)
Definition funding : Transaction :=
  {| txCreatedByUserId := Some 11;
     txFromCollectiveId := Some 1;
     txCollectiveId := Some 2;
     txPaymentMethodId := None;
     txType := CREDIT;
     OrderId := None;
     amount := 10000 # 1;
     txCurrency := "USD";
     hostCurrency := "USD";
     hostCurrencyFxRate := 1%Q;
     netAmountInCollectiveCurrency := 10000 # 1;
     amountInHostCurrency := 10000 # 1;
     hostFeeInHostCurrency := 0%Q;
     platformFeeInHostCurrency := 0%Q;
     taxAmount := None;
     paymentProcessorFeeInHostCurrency := 0%Q;
     txDescription := None;
     isFeesOnTop := None |}.

(** The recipient starts with 20.00. *)
Definition savings : Transaction :=
  {| txCreatedByUserId := Some 11;
     txFromCollectiveId := Some 1;
     txCollectiveId := Some 3;
     txPaymentMethodId := None;
     txType := CREDIT;
     OrderId := None;
     amount := 2000 # 1;
     txCurrency := "EUR";
     hostCurrency := "USD";
     hostCurrencyFxRate := 1%Q;
     netAmountInCollectiveCurrency := 2000 # 1;
     amountInHostCurrency := 2000 # 1;
     hostFeeInHostCurrency := 0%Q;
     platformFeeInHostCurrency := 0%Q;
     taxAmount := None;
     paymentProcessorFeeInHostCurrency := 0%Q;
     txDescription := None;
     isFeesOnTop := None |}.

Definition world : World :=
  {| Collectives := [host; payer; recipient; otherHost; stranger; event; project;
                     aliceAccount; bobAccount];
     Users := [alice; bob];
     UserTwoFactorMethods := [bobKey];
     Activities := [];
     Transactions := [funding; savings];
     randomDraws := 0 |}.

Definition card : PaymentMethod := mkPaymentMethod 31 (Some 2) "USD".

(** An order of 50.00 EUR from the payer to [to], with a host fee of 10%
    and a platform fee of 5%, or the given fee on top. *)
Definition order (to : Collective) (total : Q) (feeOnTop : option Q) : Order :=
  {| orderId := 41;
     orCreatedByUserId := Some 11;
     orFromCollectiveId := Some 2;
     orCollectiveId := Some (id to);
     orPaymentMethodId := Some 31;
     fromCollective := payer;
     collective := to;
     paymentMethod := card;
     totalAmount := total;
     orCurrency := "EUR";
     orTaxAmount := None;
     orDescription := Some "Monthly contribution";
     orData := Some {| odHostFeePercent := Some (10 # 1);
                       odPlatformFeePercent := Some (5 # 1);
                       platformFee := feeOnTop;
                       odIsFeesOnTop := None |} |}.

(** One EUR is 1.10 USD. *)
Definition deps : PaymentDeps := ledgerDeps (11 # 10).

(** The payer gives 50.00 EUR to the recipient, with 2.00 EUR on top. *)
Definition contribution : Order := order recipient (5000 # 1) (Some (200 # 1)).

Definition created : list Transaction :=
  match fst (processOrder deps contribution world) with
  | inr transactions => transactions
  | inl _ => []
  end.

Definition afterOrder : World := snd (processOrder deps contribution world).

(** The credit row of that contribution, and the world after its refund. *)
Definition credit : Transaction := hd funding created.

Definition afterRefund : World := snd (refundTransaction deps credit alice afterOrder).

(** A ledger entry from the payer to an account of another host. *)
Definition crossHostEntry : Transaction :=
  {| txCreatedByUserId := Some 11;
     txFromCollectiveId := Some 2;
     txCollectiveId := Some 5;
     txPaymentMethodId := None;
     txType := CREDIT;
     OrderId := None;
     amount := 100 # 1;
     txCurrency := "USD";
     hostCurrency := "USD";
     hostCurrencyFxRate := 1%Q;
     netAmountInCollectiveCurrency := 100 # 1;
     amountInHostCurrency := 100 # 1;
     hostFeeInHostCurrency := 0%Q;
     platformFeeInHostCurrency := 0%Q;
     taxAmount := None;
     paymentProcessorFeeInHostCurrency := 0%Q;
     txDescription := None;
     isFeesOnTop := None |}.
End Fixture.

(** A sample server around the account mutations: alice administers the
    host (collective 1) and her own account, bob his own account; children
    are the rows that name the account as their parent; freezing is recorded
    by deactivating the row. *)
Module AccountFixture.
Import Fixture.

Definition adminOf (u : User) (collectiveId : Z) : bool :=
  optZ_eqb (userCollectiveId u) (Some collectiveId)
  || ((userId u =? 11) && (collectiveId =? 1)).

Definition setActive (active : bool) (c : Collective) (w : World) : World :=
  setCollectives w
    (map (fun row =>
            if id row =? id c
            then mkCollective (id row) (type row) (name row) (currency row) active
                              (HostCollectiveId row) (ParentCollectiveId row)
                              (approvedAt row) (hostFeePercent row) (data row)
            else row)
         (Collectives w)).

(** A sample of the routines behind the mutations, over a database that
    aborts the statements of a transaction as [aborting] says. *)
Definition depsAborting (aborting : World -> nat -> option Error) : AccountDeps :=
  {| checkRemoteUserCanUseHost :=
       fun req => match remoteUser req with
                  | Some _ => None
                  | None => Some (mkError Unauthorized "You need to be logged in to manage hosted accounts.")
                  end;
     checkRemoteUserCanUseAccount :=
       fun req => match remoteUser req with
                  | Some _ => None
                  | None => Some (mkError Unauthorized "You need to be logged in to manage account.")
                  end;
     fetchAccountWithReference :=
       fun reference opts w =>
         match findCollective (refLegacyId reference) w with
         | Some c => inr (Some c)
         | None => if throwIfMissing opts
                   then inl (mkError NotFound "Account Not Found")
                   else inr None
         end;
     fetchUserTwoFactorMethodWithReference :=
       fun reference opts w =>
         match find (fun m => methodId m =? reference) (UserTwoFactorMethods w) with
         | Some m => inr (Some m)
         | None => if throwIfMissing opts
                   then inl (mkError NotFound "UserTwoFactorMethod Not Found")
                   else inr None
         end;
     User_isAdmin :=
       fun u i => match i with Some i => adminOf u i | None => false end;
     User_isAdminOfCollective :=
       fun u c => match c with Some c => adminOf u (id c) | None => false end;
     Account_getHostCollective := spec_getHostCollective;
     Collective_getChildren :=
       fun c w => filter (fun row => optZ_eqb (ParentCollectiveId row) (Some (id c)))
                         (Collectives w);
     Collective_freeze := fun c _ w => (inr tt, setActive false c w);
     Collective_unfreeze := fun c _ w => (inr tt, setActive true c w);
     TwoFactorAuthLib_validateRequest :=
       fun req _ _ => match userToken req with
                      | Some _ => inr true
                      | None => inl (mkError Unauthorized "Two-factor authentication required")
                      end;
     TwoFactorAuthLib_twoFactorMethodsSupportedByUser :=
       fun u w => map method
                      (filter (fun m => methodUserId m =? userId u)
                              (UserTwoFactorMethods w));
     validateYubikeyOTP := fun tk _ => inr (String.length tk =? 44)%nat;
     parseRegistrationResult := fun tk => inr tk;
     webauthn_verifyRegistrationResponse := fun _ _ r _ => inr r;
     webauthn_getWebauthDeviceData :=
       fun r _ => inr {| description := None; credential := r |};
     crypto_encrypt := fun s => "enc:" ++ s;
     crypto_hash := fun s => "sha:" ++ s;
     cryptoRandomString :=
       fun n _ => String (Ascii.ascii_of_nat (65 + n)) "-recovery-code";
     transactionAborts := aborting |}.

(** The database that aborts nothing. *)
Definition deps : AccountDeps := depsAborting (fun _ _ => None).

(** The database that loses the connection at the [n]-th statement of a
    transaction. *)
Definition connectionLost : Error := mkError PlainError "Connection terminated unexpectedly".

Definition depsLosingConnectionAt (n : nat) : AccountDeps :=
  depsAborting (fun _ k => if (k =? n)%nat then Some connectionLost else None).

Definition asAlice : Request := {| remoteUser := Some alice; userToken := Some 51 |}.
Definition asBob : Request := {| remoteUser := Some bob; userToken := Some 52 |}.

Definition reference (c : Collective) : AccountReference :=
  {| refLegacyId := Some (id c); refSlug := None |}.

(** The host asks for 7.5% on the recipient, as a custom fee or not. *)
Definition feeArgs (custom : bool) : EditAccountFeeStructureArgs :=
  {| feeAccount := reference recipient;
     argHostFeePercent := 75 # 10;
     isCustomFee := custom |}.

(** A request to freeze or unfreeze [c], without a message. *)
Definition freezeArgs (c : Collective) (a : AccountFreezeAction)
  : EditAccountFreezeStatusArgs :=
  {| freezeAccount := reference c; action := a; freezeMessage := None |}.

Definition yubikeyToken : string := "ccccccalicekvnbrtuhgdcjlhbfnhgvrffcregtbifjh".

Definition enroll (c : Collective) : AddTwoFactorArgs :=
  {| addAccount := reference c; addType := Some YUBIKEY_OTP; token := yubikeyToken |}.

Definition removeAll (c : Collective) : RemoveTwoFactorArgs :=
  {| rmUserTwoFactorMethod := None; rmAccount := reference c;
     rmType := None; code := None |}.

(** Alice, who has no second factor yet, enrolls a Yubikey. *)
Definition enrollment : AddTwoFactorResponse :=
  match fst (addTwoFactorAuthTokenToIndividual deps (enroll aliceAccount) asAlice world) with
  | inr response => response
  | inl _ => {| account := aliceAccount; recoveryCodes := None |}
  end.

Definition afterEnrollment : World :=
  snd (addTwoFactorAuthTokenToIndividual deps (enroll aliceAccount) asAlice world).
End AccountFixture.

(* ================================================================== *)
(** * Account mutations: duplicate, delete, recovery codes              *)
(* ================================================================== *)

(** The [String] value of a [CollectiveType], as a template string prints
    it. *)
Definition CollectiveType_toString (t : CollectiveType) : string :=
  match t with
  | USER => "USER"
  | ORGANIZATION => "ORGANIZATION"
  | COLLECTIVE => "COLLECTIVE"
  | FUND => "FUND"
  | EVENT => "EVENT"
  | PROJECT => "PROJECT"
  | BOT => "BOT"
  | VENDOR => "VENDOR"
  end.

(** [pick(args, ['newSlug', 'newName', 'oldName', 'include', 'connect'])] *)
Record DuplicateAccountOptions : Type := mkDuplicateAccountOptions {
  newSlug : option string;
  newName : option string;
  oldName : option string;
  includeData : option string;
  connect : bool
}.

Record DuplicateAccountArgs : Type := mkDuplicateAccountArgs {
  dupAccount : AccountReference;
  dupOptions : DuplicateAccountOptions
}.

Record EnforceOptions : Type := mkEnforceOptions {
  enforceAlwaysAskForToken : bool;
  onlyAskOnLogin : bool
}.

(** What these mutations import on top of [AccountDeps]. *)
Record AccountLibDeps : Type := mkAccountLibDeps {
  (** lib/duplicate-account *)
  lib_duplicateAccount :
    Collective -> User -> DuplicateAccountOptions -> World -> (Error + Collective) * World;
  (** graphql/v2/identifiers: [idDecode(reference.id, 'account')] *)
  decodeAccountId : AccountReference -> Error + Z;
  (** lib/two-factor-authentication *)
  TwoFactorAuthLib_enforceForAccount :
    Request -> Collective -> EnforceOptions -> World -> Error + unit;
  TwoFactorAuthLib_userHasTwoFactorAuthEnabled : option User -> World -> Error + bool;
  (** models/Collective, lib/collectivelib *)
  Collective_isHost : Collective -> World -> Error + bool;
  collectivelib_isCollectiveDeletable : Collective -> World -> Error + bool;
  collectivelib_deleteCollective : Collective -> World -> (Error + Collective) * World
}.

Section MoreAccountMutations.
Variable d : AccountDeps.
Variable l : AccountLibDeps.

(** Duplicate an account. Scope: "account". *)
Definition duplicateAccount (args : DuplicateAccountArgs) (req : Request)
  : M World Collective :=
  check (checkRemoteUserCanUseAccount d req) ;;
  account <- query (fetchAccountWithReference d (dupAccount args)
                      {| throwIfMissing := true; lock := false |}) ;;
  match remoteUser req with
  | None =>
      throw (mkError TypeError "Cannot read properties of null (reading 'isAdminOfCollective')")
  | Some remote =>
  if negb (User_isAdminOfCollective d remote account) then
    throw (mkError Forbidden
             "You need to be logged in as an Admin of the account to duplicate it.")
  else
    match account with
    | None => throw (mkError TypeError "Cannot read properties of null (reading 'type')")
    | Some account =>
    if negb (isCollectiveOrFund (type account)) then
      throw (mkError ValidationFailed
               (CollectiveType_toString (type account) ++ " accounts cannot be duplicated."))
    else
      lib_duplicateAccount l account remote (dupOptions args)
    end
  end.

(** [args.account.legacyId || idDecode(args.account.id, 'account')] *)
Definition accountIdOf (reference : AccountReference) : M World Z :=
  match refLegacyId reference with
  | Some i => if i =? 0 then query (fun _ => decodeAccountId l reference) else ret i
  | None => query (fun _ => decodeAccountId l reference)
  end.

(** Delete an account. Scope: "account". *)
Definition deleteAccount (reference : AccountReference) (req : Request)
  : M World Collective :=
  check (checkRemoteUserCanUseAccount d req) ;;
  i <- accountIdOf reference ;;
  account <- Collective_findByPk (Some i) ;;
  match account with
  | None => throw (mkError NotFound "Account Not Found")
  | Some account =>
  match remoteUser req with
  | None =>
      throw (mkError TypeError "Cannot read properties of null (reading 'isAdminOfCollective')")
  | Some remote =>
  throwIf (negb (User_isAdminOfCollective d remote (Some account)))
    (mkError Unauthorized "You need to be logged in as an Admin of the account.") ;;
  query (TwoFactorAuthLib_enforceForAccount l req account
           {| enforceAlwaysAskForToken := true; onlyAskOnLogin := false |}) ;;
  isHost <- query (Collective_isHost l account) ;;
  throwIf isHost
    (mkError PlainError
       "You can't delete an account activated as Host. Please, desactivate the account as Host and try again.") ;;
  deletable <- query (collectivelib_isCollectiveDeletable l account) ;;
  throwIf (negb deletable)
    (mkError PlainError
       "You can't delete an Account with admin memberships, children, transactions, orders or expenses. Please archive it instead.") ;;
  collectivelib_deleteCollective l account
  end end.

(** Regenerate two factor authentication recovery codes. *)
Definition regenerateRecoveryCodes (req : Request) : M World (list string) :=
  check (checkRemoteUserCanUseAccount d req) ;;
  hasTwoFactorEnabled <-
    query (TwoFactorAuthLib_userHasTwoFactorAuthEnabled l (remoteUser req)) ;;
  throwIf (negb hasTwoFactorEnabled)
    (mkError BadRequest "User does not have two factor authetication enabled") ;;
  query (TwoFactorAuthLib_validateRequest d req
           {| alwaysAskForToken := true; requireTwoFactorAuthEnabled := false |}) ;;
  recoveryCodesArray <- replicateM 6 (drawRandomString d 16) ;;
  let hashedRecoveryCodesArray := map (crypto_hash d) recoveryCodesArray in
  match remoteUser req with
  | None => throw (mkError TypeError "Cannot read properties of null (reading 'update')")
  | Some remote =>
      User_update remote (Some hashedRecoveryCodesArray) ;;
      ret recoveryCodesArray
  end.
End MoreAccountMutations.

(* ================================================================== *)
(** * Policies: the merge of [setPolicies]                              *)
(* ================================================================== *)

(** A policy is a flag or a settings object. *)
Inductive PolicyValue : Type :=
| PolicyFlag (enabled : bool)
| PolicySettings (settings : string).

(** [!!value] *)
Definition truthyPolicy (v : option PolicyValue) : bool :=
  match v with
  | Some (PolicyFlag b) => b
  | Some (PolicySettings _) => true
  | None => false
  end.

(** A JavaScript object with string keys, in insertion order; a value may
    be [null]. *)
Definition JsObject (V : Type) : Type := list (string * option V).

(** [obj[key]]: [None] when the key is missing, [Some None] when it holds
    [null]. *)
Fixpoint getKey {V} (key : string) (obj : JsObject V) : option (option V) :=
  match obj with
  | [] => None
  | (k, v) :: rest => if String.eqb key k then Some v else getKey key rest
  end.

(** [obj[key] = v]: an existing key keeps its place, a new key goes last. *)
Fixpoint setKey {V} (key : string) (v : option V) (obj : JsObject V) : JsObject V :=
  match obj with
  | [] => [(key, v)]
  | (k, x) :: rest =>
      if String.eqb key k then (k, v) :: rest else (k, x) :: setKey key v rest
  end.

(** [{ ...a, ...b }] *)
Definition spread {V} (a b : JsObject V) : JsObject V :=
  fold_left (fun acc kv => setKey (fst kv) (snd kv) acc) b a.

(** [omitBy(obj, isNull)] *)
Definition omitNull {V} (obj : JsObject V) : JsObject V :=
  filter (fun kv => match snd kv with Some _ => true | None => false end) obj.

(** [const newPolicies = omitBy({ ...previousPolicies, ...args.policies }, isNull)],
    where [previousPolicies] is [account.data?.policies] ([undefined] spreads
    as the empty object). *)
Definition mergePolicies (previousPolicies : option (JsObject PolicyValue))
           (policies : JsObject PolicyValue) : JsObject PolicyValue :=
  omitNull (spread (match previousPolicies with Some p => p | None => [] end) policies).

(** [obj?.REQUIRE_2FA_FOR_ADMINS], as a truth value. *)
Definition requires2FAForAdmins (obj : option (JsObject PolicyValue)) : bool :=
  match obj with
  | Some o =>
      match getKey "REQUIRE_2FA_FOR_ADMINS" o with
      | Some v => truthyPolicy v
      | None => false
      end
  | None => false
  end.

(** The condition under which [setPolicies] asks for a two-factor code:
    [previousPolicies?.REQUIRE_2FA_FOR_ADMINS && !newPolicies.REQUIRE_2FA_FOR_ADMINS]. *)
Definition disables2FAForAdmins (previousPolicies : option (JsObject PolicyValue))
           (policies : JsObject PolicyValue) : bool :=
  requires2FAForAdmins previousPolicies
  && negb (requires2FAForAdmins (Some (mergePolicies previousPolicies policies))).

(** An object as JavaScript has them: no key twice. *)
Definition uniqueKeys {V} (obj : JsObject V) : Prop := NoDup (map fst obj).

(** The last value written for a key by a sequence of assignments. *)
Definition lastKey {V} (key : string) (obj : JsObject V) : option (option V) :=
  getKey key (rev obj).

(* ================================================================== *)
(** * The cron job that suspends accounts without enough admins         *)
(* ================================================================== *)

(** A row of the [findAll] of the job: a parent collective with its admin
    memberships and its host. *)
Record HostedCollective : Type := mkHostedCollective {
  hosted : Collective;
  members : list Z;
  host : Collective
}.

(** The COLLECTIVE_MINIMUM_ADMINS policy of a host. *)
Record MinimumAdminsPolicy : Type := mkMinimumAdminsPolicy {
  numberOfAdmins : option Q
}.

Inductive FEATURE : Type := RECEIVE_FINANCIAL_CONTRIBUTIONS.

Record CronDeps : Type := mkCronDeps {
  (** [models.Collective.findAll({ where, include })] of the job *)
  findAllHostedCollectives : World -> Error + list HostedCollective;
  (** lib/policies: [getPolicy(host, POLICIES.COLLECTIVE_MINIMUM_ADMINS)] *)
  getPolicy : Collective -> World -> Error + option MinimumAdminsPolicy;
  (** models/Collective *)
  Collective_disableFeature : Collective -> FEATURE -> World -> (Error + unit) * World
}.

(** [admins < requiredAdmins], where [requiredAdmins] is
    [minAdminsPolicy?.numberOfAdmins]: false when it is [undefined]. *)
Definition belowMinimum (admins : nat) (policy : option MinimumAdminsPolicy) : bool :=
  match policy with
  | Some p =>
      match numberOfAdmins p with
      | Some requiredAdmins => Qltb (inject_Z (Z.of_nat admins)) requiredAdmins
      | None => false
      end
  | None => false
  end.

Section Cron.
Variable c : CronDeps.

(** The body of the [for] loop; the log line leaves no trace in the world. *)
Definition suspendIfBelowMinimum (collective : HostedCollective) : M World unit :=
  let admins := length (members collective) in
  minAdminsPolicy <- query (getPolicy c (host collective)) ;;
  if belowMinimum admins minAdminsPolicy
  then Collective_disableFeature c (hosted collective) RECEIVE_FINANCIAL_CONTRIBUTIONS
  else ret tt.

(** [for (const collective of collectives) { ... }] *)
Fixpoint forEach {A} (body : A -> M World unit) (xs : list A) : M World unit :=
  match xs with
  | [] => ret tt
  | x :: rest => body x ;; forEach body rest
  end.

Definition run : M World unit :=
  collectives <- query (findAllHostedCollectives c) ;;
  forEach suspendIfBelowMinimum collectives.
End Cron.

(* ================================================================== *)
(** * Vocabulary of further statements                                  *)
(* ================================================================== *)

(** The first [n] characters of [s] exist and are of the base32 alphabet. *)
Fixpoint startsWithBase32 (n : nat) (s : string) : bool :=
  match n with
  | O => true
  | Datatypes.S n' =>
      match s with
      | EmptyString => false
      | String ch s' => isBase32Char ch && startsWithBase32 n' s'
      end
  end.

(** [s] without its first [k] characters. *)
Fixpoint dropChars (k : nat) (s : string) : string :=
  match k with
  | O => s
  | Datatypes.S k' =>
      match s with
      | EmptyString => EmptyString
      | String _ s' => dropChars k' s'
      end
  end.

(** What the regular expression [/([A-Z2-7]){n}/] matches: [n] characters of
    the alphabet in a row, somewhere in [s]. *)
Definition hasBase32Window (n : nat) (s : string) : Prop :=
  exists k, startsWithBase32 n (dropChars k s) = true.

(** [n] copies of a character. *)
Fixpoint repeatChar (ch : Ascii.ascii) (n : nat) : string :=
  match n with
  | O => EmptyString
  | Datatypes.S n' => String ch (repeatChar ch n')
  end.

(** [order] with [data.platformFee] set to [fee], the other keys of [data]
    kept. *)
Definition withPlatformFee (order : Order) (fee : option Q) : Order :=
  {| orderId := orderId order;
     orCreatedByUserId := orCreatedByUserId order;
     orFromCollectiveId := orFromCollectiveId order;
     orCollectiveId := orCollectiveId order;
     orPaymentMethodId := orPaymentMethodId order;
     fromCollective := fromCollective order;
     collective := collective order;
     paymentMethod := paymentMethod order;
     totalAmount := totalAmount order;
     orCurrency := orCurrency order;
     orTaxAmount := orTaxAmount order;
     orDescription := orDescription order;
     orData :=
       match orData order with
       | Some od =>
           Some {| odHostFeePercent := odHostFeePercent od;
                   odPlatformFeePercent := odPlatformFeePercent od;
                   platformFee := fee;
                   odIsFeesOnTop := odIsFeesOnTop od |}
       | None => None
       end |}.

Definition refundWithoutHost : Error :=
  mkError PlainError "Cannot process refunds for collectives without a host".

(** Two rows agree on every column other than [hostFeePercent] and [data]. *)
Definition sameOtherColumns (row row' : Collective) : Prop :=
  id row' = id row /\ type row' = type row /\ name row' = name row /\
  currency row' = currency row /\ isActive row' = isActive row /\
  HostCollectiveId row' = HostCollectiveId row /\
  ParentCollectiveId row' = ParentCollectiveId row /\
  approvedAt row' = approvedAt row.

(** [data?.otherKeys]: the keys of [data] besides [useCustomHostFee]. *)
Definition data_otherData (dt : option CollectiveData) : list (string * string) :=
  match dt with
  | Some x => otherData x
  | None => []
  end.

(** More of the small instance. *)
Module MoreFixture.
Import Fixture.

(** A ledger entry from alice, whose account has no host, to the recipient. *)
Definition gift : Transaction :=
  {| txCreatedByUserId := Some 11;
     txFromCollectiveId := Some 21;
     txCollectiveId := Some 3;
     txPaymentMethodId := None;
     txType := CREDIT;
     OrderId := None;
     amount := 100 # 1;
     txCurrency := "EUR";
     hostCurrency := "USD";
     hostCurrencyFxRate := 1%Q;
     netAmountInCollectiveCurrency := 100 # 1;
     amountInHostCurrency := 100 # 1;
     hostFeeInHostCurrency := 0%Q;
     platformFeeInHostCurrency := 0%Q;
     taxAmount := None;
     paymentProcessorFeeInHostCurrency := 0%Q;
     txDescription := None;
     isFeesOnTop := None |}.

(** A base32 secret of [n] characters. *)
Definition secret (n : nat) : string := repeatChar (Ascii.ascii_of_nat 65) n.

(** Alice enrolls an authenticator app with the secret [tk]. *)
Definition enrollTotp (tk : string) : AddTwoFactorArgs :=
  {| addAccount := AccountFixture.reference aliceAccount;
     addType := None;
     token := tk |}.

(** Bob, who has a Yubikey already, without a two-factor code in the
    request. *)
Definition asBobWithoutCode : Request := {| remoteUser := Some bob; userToken := None |}.

(** A sample of the libraries behind duplicate, delete and the recovery
    codes: a copy is a new row with the next id; a host is an account that
    hosts itself; an account can be deleted when no ledger entry and no child
    names it; two-factor authentication is enabled for a user with a
    credential. *)
Definition nextCollectiveId (cs : list Collective) : Z :=
  1 + fold_right (fun c acc => Z.max (id c) acc) 0 cs.

Definition namesAccount (c : Collective) (t : Transaction) : bool :=
  optZ_eqb (txCollectiveId t) (Some (id c)) || optZ_eqb (txFromCollectiveId t) (Some (id c)).

Definition libDeps : AccountLibDeps :=
  {| lib_duplicateAccount :=
       fun c _ opts w =>
         let copy :=
           mkCollective (nextCollectiveId (Collectives w)) (type c)
                        (match newName opts with Some n => n | None => name c end)
                        (currency c) (isActive c) (HostCollectiveId c)
                        (ParentCollectiveId c) None (hostFeePercent c) (data c) in
         (inr copy, setCollectives w (Collectives w ++ [copy]));
     decodeAccountId := fun _ => inl (mkError BadRequest "Invalid account id");
     TwoFactorAuthLib_enforceForAccount :=
       fun req _ _ _ =>
         match userToken req with
         | Some _ => inr tt
         | None => inl (mkError Unauthorized "Two-factor authentication required")
         end;
     TwoFactorAuthLib_userHasTwoFactorAuthEnabled :=
       fun u w =>
         inr (match u with
              | Some u => existsb (fun m => methodUserId m =? userId u)
                                  (UserTwoFactorMethods w)
              | None => false
              end);
     Collective_isHost := fun c _ => inr (optZ_eqb (HostCollectiveId c) (Some (id c)));
     collectivelib_isCollectiveDeletable :=
       fun c w =>
         inr (negb (existsb (namesAccount c) (Transactions w))
              && negb (existsb (fun row => optZ_eqb (ParentCollectiveId row) (Some (id c)))
                               (Collectives w)));
     collectivelib_deleteCollective :=
       fun c w =>
         (inr c, setCollectives w (filter (fun row => negb (id row =? id c))
                                          (Collectives w))) |}.

Definition duplicateArgs (c : Collective) : DuplicateAccountArgs :=
  {| dupAccount := AccountFixture.reference c;
     dupOptions := {| newSlug := None; newName := Some "Copy"; oldName := None;
                      includeData := None; connect := false |} |}.

(** Bob asks to remove every credential of his account, of one kind or of
    all kinds. *)
Definition removeKind (kind : option TwoFactorMethod) : RemoveTwoFactorArgs :=
  {| rmUserTwoFactorMethod := None;
     rmAccount := AccountFixture.reference bobAccount;
     rmType := kind;
     code := None |}.

(** Alice names the credential of bob in a removal on her own account. *)
Definition removeBobKey : RemoveTwoFactorArgs :=
  {| rmUserTwoFactorMethod := Some 1;
     rmAccount := AccountFixture.reference aliceAccount;
     rmType := None;
     code := None |}.

(** The world with an empty ledger. *)
Definition emptyLedger : World := setTransactions world [].






(** Policies of an account that requires two-factor authentication of its
    admins and one expense policy, and three submissions. *)
Definition strictPolicies : JsObject PolicyValue :=
  [("EXPENSE_AUTHOR_CANNOT_APPROVE", Some (PolicySettings "{ enabled: true }"));
   ("REQUIRE_2FA_FOR_ADMINS", Some (PolicyFlag true))].

Definition relax2FA : JsObject PolicyValue := [("REQUIRE_2FA_FOR_ADMINS", None)].

Definition minimumAdmins : JsObject PolicyValue :=
  [("COLLECTIVE_MINIMUM_ADMINS", Some (PolicySettings "{ numberOfAdmins: 2 }"))].

(** A sample of the routines behind the cron job: the host with id 1 asks
    for two admins, the policy of any other host names no number;
    disabling a feature writes it in the [data] of the row and fails for a
    row that is gone. *)
Definition withFeatureDisabled (row : Collective) : Collective :=
  mkCollective (id row) (type row) (name row) (currency row) (isActive row)
               (HostCollectiveId row) (ParentCollectiveId row) (approvedAt row)
               (hostFeePercent row)
               (Some {| useCustomHostFee :=
                          match data row with
                          | Some x => useCustomHostFee x
                          | None => None
                          end;
                        otherData :=
                          ("features.RECEIVE_FINANCIAL_CONTRIBUTIONS", "false")
                            :: data_otherData (data row) |}).

Definition cronDeps (rows : list HostedCollective) : CronDeps :=
  {| findAllHostedCollectives := fun _ => inr rows;
     getPolicy :=
       fun h _ =>
         inr (Some {| numberOfAdmins := if id h =? 1 then Some (2 # 1) else None |});
     Collective_disableFeature :=
       fun c _ w =>
         if existsb (fun row => id row =? id c) (Collectives w)
         then (inr tt,
               setCollectives w
                 (map (fun row => if id row =? id c then withFeatureDisabled row else row)
                      (Collectives w)))
         else (inl (mkError NotFound "No such row"), w) |}.

(** The policy that [cronDeps] gives for the host of a row. *)
Definition policyOfRow (x : HostedCollective) : option MinimumAdminsPolicy :=
  match x with
  | mkHostedCollective _ _ h =>
      Some {| numberOfAdmins := if id h =? 1 then Some (2 # 1) else None |}
  end.

Definition payerRow : HostedCollective := mkHostedCollective payer [11] host.
Definition recipientRow : HostedCollective := mkHostedCollective recipient [11; 12] host.
Definition strangerRow : HostedCollective := mkHostedCollective stranger [] otherHost.
Definition goneRow : HostedCollective :=
  mkHostedCollective (mkCollective 99 COLLECTIVE "Gone" "USD" true (Some 1) None None None None)
                     [] host.
End MoreFixture.

(** The audit row of an enrollment. *)
Definition methodAddedActivity (user : User) : Activity :=
  {| actType := TWO_FACTOR_METHOD_ADDED;
     actUserId := userId user;
     actUserTokenId := None;
     actCollectiveId := userCollectiveId user;
     actFromCollectiveId := userCollectiveId user;
     actHostCollectiveId := None;
     actData := NoData |}.

(** [args.type || TwoFactorMethod.TOTP] *)
Definition requestedMethod (args : AddTwoFactorArgs) : TwoFactorMethod :=
  match addType args with
  | Some t => t
  | None => TOTP
  end.

(* ================================================================== *)
(** * Basic facts                                                       *)
(* ================================================================== *)

Lemma Qltb_lt (a b : Q) : Qltb a b = true <-> (a < b)%Q.
Proof.
  unfold Qltb. rewrite negb_true_iff. split; intro H.
  - apply Qnot_le_lt. intro Hle. apply Qle_bool_iff in Hle. congruence.
  - destruct (Qle_bool b a) eqn:E; [|reflexivity].
    apply Qle_bool_iff in E. exfalso. exact (Qlt_not_le _ _ H E).
Qed.

Lemma Qltb_ge (a b : Q) : Qltb a b = false <-> (b <= a)%Q.
Proof.
  unfold Qltb. rewrite negb_false_iff. apply Qle_bool_iff.
Qed.

Lemma optZ_eqb_eq (a b : option Z) : optZ_eqb a b = true <-> a = b.
Proof.
  destruct a as [x|], b as [y|]; simpl; split; intro H;
    try discriminate; try reflexivity.
  - apply Z.eqb_eq in H. congruence.
  - inversion H. apply Z.eqb_refl.
Qed.

Lemma optZ_eqb_neq (a b : option Z) : optZ_eqb a b = false <-> a <> b.
Proof.
  split; intro H.
  - intro E. apply optZ_eqb_eq in E. congruence.
  - destruct (optZ_eqb a b) eqn:E; [|reflexivity].
    apply optZ_eqb_eq in E. contradiction.
Qed.

(** Numbers: the rounding shows in everyday amounts.  In JavaScript
    [1.1] is the double 2476979795053773 / 2^51, [200 * 1.1] is
    220.00000000000003 and [1000 * (1 - 7 / 100)] is 929.9999999999999. *)
Example toDouble_1_1 : toDouble (11 # 10) = 2476979795053773 # 2251799813685248.
Proof. vm_compute. reflexivity. Qed.

Example js_mul_200_1_1 :
  js_mul (200 # 1) (11 # 10) = 7740561859543041 # 35184372088832.
Proof. vm_compute. reflexivity. Qed.

Example js_mul_1000_0_93 :
  js_mul (1000 # 1) (js_sub 1 (js_div (7 # 1) 100))
  = 8180366510653439 # 8796093022208.
Proof. vm_compute. reflexivity. Qed.

Lemma toDouble_zero (q : Q) : (q == 0)%Q -> toDouble q = 0%Q.
Proof.
  intro H. apply Qeq_bool_iff in H.
  with_strategy transparent [toDouble] (unfold toDouble). rewrite H. reflexivity.
Qed.

(** No percentage, no fee. *)
Lemma spec_calcFee_no_percent (amount : Q) : spec_calcFee amount 0 = 0%Q.
Proof.
  unfold spec_calcFee.
  with_strategy transparent [js_mul js_div] (unfold js_mul, js_div).
  rewrite (toDouble_zero 0) by reflexivity.
  rewrite (toDouble_zero (toDouble amount * 0)) by ring.
  rewrite (toDouble_zero 0) by reflexivity.
  apply toDouble_zero. unfold Qdiv. ring.
Qed.

(** Unfolding of the monad operations, and case analysis on the scrutinee
    of the first [match] or [if] of a hypothesis or of the goal. *)
Ltac unfold_monad :=
  unfold bind, throwIf, check, gets, query, modify, ret, throw in *.

Ltac case_scrutinee :=
  match goal with
  | H : context [match ?x with _ => _ end] |- _ =>
      lazymatch x with
      | context [match _ with _ => _ end] => fail
      | _ => destruct x eqn:?
      end
  | H : context [if ?x then _ else _] |- _ =>
      lazymatch x with
      | context [if _ then _ else _] => fail
      | _ => destruct x eqn:?
      end
  end.

(** Boolean tests in hypotheses, as propositions. *)
Ltac norm_hyps :=
  repeat match goal with
         | H : negb _ = false |- _ => apply negb_false_iff in H
         | H : negb _ = true |- _ => apply negb_true_iff in H
         | H : optZ_eqb _ _ = true |- _ => apply optZ_eqb_eq in H
         | H : optZ_eqb _ _ = false |- _ => apply optZ_eqb_neq in H
         | H : (_ =? _) = true |- _ => apply Z.eqb_eq in H
         | H : (_ =? _) = false |- _ => apply Z.eqb_neq in H
         end.

(* ================================================================== *)
(** * Orders                                                            *)
(* ================================================================== *)

Section OrderProperties.
Variable d : PaymentDeps.

Lemma processOrder_inv (order : Order) (w w' : World) (r : Error + list Transaction) :
  processOrder d order w = (r, w') ->
  (exists e, r = inl e /\ w' = w) \/
  (passesValidations d order w /\
   exists payerAccount fxrate payload,
     PaymentMethod_getCollective d (paymentMethod order) w = inr payerAccount /\
     Qltb (Collective_getBalance d payerAccount w) (totalAmount order) = false /\
     getFxRate d (orCurrency order) (pmCurrency (paymentMethod order)) w = inr fxrate /\
     Transaction_createFromPayload d payload w = (r, w') /\
     plCreatedByUserId payload = orCreatedByUserId order /\
     plFromCollectiveId payload = orFromCollectiveId order /\
     plCollectiveId payload = orCollectiveId order /\
     plPaymentMethodId payload = orPaymentMethodId order /\
     txType (transaction payload) = CREDIT /\
     amount (transaction payload) = totalAmount order /\
     hostCurrencyFxRate (transaction payload) = fxrate /\
     amountInHostCurrency (transaction payload) = js_mul (totalAmount order) fxrate /\
     hostFeeInHostCurrency (transaction payload) =
       paymentsLib_calcFee d (js_mul (js_sub (totalAmount order) (get_feeOnTop order)) fxrate)
                           (get_hostFeePercent order) /\
     platformFeeInHostCurrency (transaction payload) =
       (if isZero (get_feeOnTop order)
        then paymentsLib_calcFee d (js_mul (totalAmount order) fxrate)
                                 (get_platformFeePercent order)
        else js_mul (get_feeOnTop order) fxrate) /\
     paymentProcessorFeeInHostCurrency (transaction payload) = 0%Q).
Proof.
  unfold processOrder, getBalance, passesValidations, hostIdOf.
  unfold_monad. intro H.
  repeat (case_scrutinee; simpl in *).
  all: inversion H; subst; clear H.
  all: try (left; eexists; split; reflexivity).
  all: right.
  all: norm_hyps.
  all: split; [ repeat split; try assumption;
                eexists; split; [reflexivity | congruence] | ].
  all: do 3 eexists.
  all: split; [reflexivity|]; split; [assumption|]; split; [reflexivity|].
  all: split; [eassumption|]; simpl; repeat split; reflexivity.
Qed.

(** Forward direction: an order that passes the validations and whose
    payer has enough funds is handed to the ledger. *)
Lemma processOrder_proceeds (order : Order) (w : World) (payerAccount : Collective) :
  passesValidations d order w ->
  PaymentMethod_getCollective d (paymentMethod order) w = inr payerAccount ->
  Qltb (Collective_getBalance d payerAccount w) (totalAmount order) = false ->
  match getFxRate d (orCurrency order) (pmCurrency (paymentMethod order)) w with
  | inl e => processOrder d order w = (inl e, w)
  | inr fxrate =>
      exists payload,
        processOrder d order w = Transaction_createFromPayload d payload w /\
        amount (transaction payload) = totalAmount order /\
        amountInHostCurrency (transaction payload) = js_mul (totalAmount order) fxrate
  end.
Proof.
  intros (Hact & Hpm & h & Hfrom & Hto) Hacct Hbal.
  unfold hostIdOf in Hfrom, Hto.
  destruct (Collective_getHostCollective d (fromCollective order) w) as [h1|] eqn:E1;
    [|discriminate].
  destruct (Collective_getHostCollective d (collective order) w) as [h2|] eqn:E2;
    [|discriminate].
  simpl in Hfrom, Hto.
  assert (Hid : (id h1 =? id h2) = true) by (apply Z.eqb_eq; congruence).
  unfold processOrder, getBalance. unfold_monad.
  rewrite Hact, Hpm. simpl. rewrite Z.eqb_refl. simpl.
  rewrite E1, E2, Hid. simpl. rewrite Hacct, Hbal.
  destruct (getFxRate d (orCurrency order) (pmCurrency (paymentMethod order)) w)
    as [e|fxrate]; [reflexivity|].
  eexists. split; [|split].
  - match goal with
    | |- match ?m with _ => _ end = _ =>
        instantiate (1 := ltac:(match m with ?f ?p w => exact p end));
        destruct m as [[?|?] ?]; reflexivity
    end.
  - reflexivity.
  - reflexivity.
Qed.
End OrderProperties.

(* ================================================================== *)
(** * Refunds                                                           *)
(* ================================================================== *)

Section RefundProperties.
Variable d : PaymentDeps.

Lemma refundTransaction_inv (t : Transaction) (user : User) (w w' : World)
      (r : Error + Transaction) :
  refundTransaction d t user w = (r, w') ->
  (exists e, r = inl e /\ w' = w) \/
  (exists fromCollective collective,
     refundSides t w = (Some fromCollective, Some collective) /\
     falsyId (HostCollectiveId fromCollective) = false /\
     HostCollectiveId fromCollective = HostCollectiveId collective /\
     Qltb (Collective_getBalance d collective w) (amount t) = false /\
     paymentsLib_createRefundTransaction d t 0%Q None user w = (r, w')).
Proof.
  unfold refundTransaction, Collective_findByPk, refundSides.
  unfold_monad. intro H.
  destruct (isCredit (txType t));
    repeat (case_scrutinee; simpl in *).
  all: try (inversion H; subst; left; eexists; split; reflexivity).
  all: right; norm_hyps; do 2 eexists; repeat split; eauto.
Qed.

Lemma refundTransaction_cross_host (t : Transaction) (user : User) (w : World)
      (c1 c2 : Collective) :
  findCollective (txFromCollectiveId t) w = Some c1 ->
  findCollective (txCollectiveId t) w = Some c2 ->
  HostCollectiveId c1 <> HostCollectiveId c2 ->
  exists e, refundTransaction d t user w = (inl e, w).
Proof.
  intros H1 H2 Hne.
  destruct (refundTransaction d t user w) as [r w'] eqn:E.
  apply refundTransaction_inv in E.
  destruct E as [(e & -> & ->) | (f & c & Hs & _ & Heq & _)].
  - eauto.
  - exfalso. unfold refundSides in Hs. rewrite H1, H2 in Hs.
    destruct (isCredit (txType t)); inversion Hs; subst; congruence.
Qed.
End RefundProperties.

(* ================================================================== *)
(** * Balances over the ledger                                          *)
(* ================================================================== *)




Lemma processOrder_accepted (d : PaymentDeps) (order : Order) (w w' : World)
      (transactions : list Transaction) :
  processOrder d order w = (inr transactions, w') ->
  passesValidations d order w /\
  exists payerAccount fxrate payload,
    PaymentMethod_getCollective d (paymentMethod order) w = inr payerAccount /\
    Qltb (Collective_getBalance d payerAccount w) (totalAmount order) = false /\
    getFxRate d (orCurrency order) (pmCurrency (paymentMethod order)) w = inr fxrate /\
    Transaction_createFromPayload d payload w = (inr transactions, w') /\
    plCreatedByUserId payload = orCreatedByUserId order /\
    plFromCollectiveId payload = orFromCollectiveId order /\
    plCollectiveId payload = orCollectiveId order /\
    plPaymentMethodId payload = orPaymentMethodId order /\
    txType (transaction payload) = CREDIT /\
    amount (transaction payload) = totalAmount order /\
    hostCurrencyFxRate (transaction payload) = fxrate /\
    amountInHostCurrency (transaction payload) = js_mul (totalAmount order) fxrate /\
    hostFeeInHostCurrency (transaction payload) =
      paymentsLib_calcFee d (js_mul (js_sub (totalAmount order) (get_feeOnTop order)) fxrate)
                          (get_hostFeePercent order) /\
    platformFeeInHostCurrency (transaction payload) =
      (if isZero (get_feeOnTop order)
       then paymentsLib_calcFee d (js_mul (totalAmount order) fxrate)
                                (get_platformFeePercent order)
       else js_mul (get_feeOnTop order) fxrate) /\
    paymentProcessorFeeInHostCurrency (transaction payload) = 0%Q.
Proof.
  intro H. apply processOrder_inv in H. destruct H as [(e & He & _) | Hr].
  - discriminate.
  - exact Hr.
Qed.

(* ================================================================== *)
(** * The claims about orders and refunds                               *)
(* ================================================================== *)






(** C2.  An order between accounts whose fiscal hosts differ is rejected by
    [processOrder], and a refund of a transaction between accounts whose
    fiscal hosts differ is rejected by [refundTransaction]; in both cases the
    world, ledger included, is left as it was: nothing was handed to the
    ledger. *)
Theorem cross_host_rejected (d : PaymentDeps) :
  (forall (order : Order) (w : World),
      hostIdOf d (fromCollective order) w <> hostIdOf d (collective order) w ->
      exists e, processOrder d order w = (inl e, w)) /\
  (forall (t : Transaction) (user : User) (w : World) (c1 c2 : Collective),
      findCollective (txFromCollectiveId t) w = Some c1 ->
      findCollective (txCollectiveId t) w = Some c2 ->
      HostCollectiveId c1 <> HostCollectiveId c2 ->
      exists e, refundTransaction d t user w = (inl e, w)).
Proof.
  split.
  - intros order w Hne.
    destruct (processOrder d order w) as [r w'] eqn:E.
    apply processOrder_inv in E.
    destruct E as [(e & -> & ->) | ((_ & _ & h & Hfrom & Hto) & _)].
    + eauto.
    + exfalso. apply Hne. congruence.
  - intros t user w c1 c2. apply refundTransaction_cross_host.
Qed.

Lemma cross_host_rejected_witness :
  (exists e,
      processOrder Fixture.deps (Fixture.order Fixture.stranger (5000 # 1) None)
                   Fixture.world = (inl e, Fixture.world)) /\
  (exists e,
      refundTransaction Fixture.deps Fixture.crossHostEntry Fixture.alice
                        Fixture.world = (inl e, Fixture.world)).
Proof.
  destruct (cross_host_rejected Fixture.deps) as [Horder Hrefund].
  split.
  - apply Horder. vm_compute. discriminate.
  - apply (Hrefund Fixture.crossHostEntry Fixture.alice Fixture.world
                   Fixture.payer Fixture.stranger).
    + reflexivity.
    + reflexivity.
    + vm_compute. discriminate.
Defined.

(** C6.  [processOrder] rejects every order whose total exceeds the balance
    of the paying account, leaving the world as it was; an order that passed
    the earlier validations and whose total is covered goes on to the
    exchange rate and to the ledger.  The balance is the one
    [getBalance] returns for the payment method: the balance of the
    collective of the payment method. *)
Theorem processOrder_balance_check
        (d : PaymentDeps) (order : Order) (w : World) (payerAccount : Collective) :
  PaymentMethod_getCollective d (paymentMethod order) w = inr payerAccount ->
  getBalance d (paymentMethod order) w
    = (inr (Collective_getBalance d payerAccount w), w) /\
  ((Collective_getBalance d payerAccount w < totalAmount order)%Q ->
   exists e, processOrder d order w = (inl e, w)) /\
  (passesValidations d order w ->
   ~ (Collective_getBalance d payerAccount w < totalAmount order)%Q ->
   match getFxRate d (orCurrency order) (pmCurrency (paymentMethod order)) w with
   | inl e => processOrder d order w = (inl e, w)
   | inr fxrate =>
       exists payload,
         processOrder d order w = Transaction_createFromPayload d payload w /\
         amount (transaction payload) = totalAmount order /\
         amountInHostCurrency (transaction payload) = js_mul (totalAmount order) fxrate
   end).
Proof.
  intro Hacct. split; [|split].
  - unfold getBalance. unfold_monad. rewrite Hacct. reflexivity.
  - intro Hlt.
    destruct (processOrder d order w) as [r w'] eqn:E.
    apply processOrder_inv in E.
    destruct E as [(e & -> & ->) | (_ & acct & fx & p & Hacct' & Hbal & _)].
    + eauto.
    + exfalso. rewrite Hacct in Hacct'. inversion Hacct'; subst acct.
      apply Qltb_ge in Hbal. exact (Qlt_not_le _ _ Hlt Hbal).
  - intros Hval Hge. apply processOrder_proceeds with (payerAccount := payerAccount);
      try assumption.
    destruct (Qltb (Collective_getBalance d payerAccount w) (totalAmount order)) eqn:E;
      [|reflexivity].
    apply Qltb_lt in E. contradiction.
Qed.

Lemma processOrder_balance_check_witness :
  (exists e,
      processOrder Fixture.deps (Fixture.order Fixture.recipient (20000 # 1) None)
                   Fixture.world = (inl e, Fixture.world)) /\
  (exists payload,
      processOrder Fixture.deps Fixture.contribution Fixture.world
        = Transaction_createFromPayload Fixture.deps payload Fixture.world /\
      amount (transaction payload) = 5000 # 1 /\
      amountInHostCurrency (transaction payload) = js_mul (5000 # 1) (11 # 10)).
Proof.
  split.
  - destruct (@processOrder_balance_check Fixture.deps
                (Fixture.order Fixture.recipient (20000 # 1) None)
                Fixture.world Fixture.payer eq_refl) as (_ & Hreject & _).
    apply Hreject. vm_compute. reflexivity.
  - destruct (@processOrder_balance_check Fixture.deps Fixture.contribution
                Fixture.world Fixture.payer eq_refl) as (_ & _ & Hproceed).
    apply Hproceed.
    + split; [reflexivity|]. split; [reflexivity|].
      exists 1. split; reflexivity.
    + vm_compute. discriminate.
Defined.

(** C8.  For every refund accepted by [refundTransaction], the two accounts
    have the same fiscal host, the balance of the recipient covers the amount
    of the transaction, and the opposing entry is requested from
    [createRefundTransaction] with a processor fee of zero. *)
Theorem refund_accepted
        (d : PaymentDeps) (t : Transaction) (user : User) (w w' : World)
        (refund : Transaction) :
  refundTransaction d t user w = (inr refund, w') ->
  exists fromCollective collective,
    refundSides t w = (Some fromCollective, Some collective) /\
    falsyId (HostCollectiveId fromCollective) = false /\
    HostCollectiveId fromCollective = HostCollectiveId collective /\
    (amount t <= Collective_getBalance d collective w)%Q /\
    paymentsLib_createRefundTransaction d t 0%Q None user w = (inr refund, w').
Proof.
  intro H. apply refundTransaction_inv in H.
  destruct H as [(e & He & _) | (f & c & Hs & Hhost & Heq & Hbal & Hcall)].
  - discriminate.
  - exists f, c. apply Qltb_ge in Hbal. repeat split; assumption.
Qed.

Lemma refund_accepted_witness :
  exists fromCollective collective,
    refundSides Fixture.credit Fixture.afterOrder = (Some fromCollective, Some collective) /\
    falsyId (HostCollectiveId fromCollective) = false /\
    HostCollectiveId fromCollective = HostCollectiveId collective /\
    (amount Fixture.credit <= Collective_getBalance Fixture.deps collective Fixture.afterOrder)%Q /\
    paymentsLib_createRefundTransaction Fixture.deps Fixture.credit 0%Q None
      Fixture.alice Fixture.afterOrder
      = (inr (opposingEntry Fixture.credit 0), Fixture.afterRefund).
Proof.
  apply (@refund_accepted Fixture.deps Fixture.credit Fixture.alice
           Fixture.afterOrder Fixture.afterRefund (opposingEntry Fixture.credit 0)).
  vm_compute. reflexivity.
Defined.

Section LedgerProperties.
Variable fxrate : Q.


End LedgerProperties.




(* ================================================================== *)
(** * Fee structure                                                     *)
(* ================================================================== *)

Lemma setCollectives_same (w : World) : setCollectives w (Collectives w) = w.
Proof. destruct w; reflexivity. Qed.

Section CascadeRow.
Variables (p : option Q) (flag : bool).

Lemma updateFeesRow_id (instance row : Collective) :
  id (updateFeesRow p flag instance row) = id row.
Proof. unfold updateFeesRow. destruct (id row =? id instance); reflexivity. Qed.

Lemma updateFeesRow_hit (instance row : Collective) :
  id row = id instance -> feesApplied p flag (updateFeesRow p flag instance row).
Proof.
  intro H. unfold updateFeesRow. rewrite H, Z.eqb_refl. split; reflexivity.
Qed.

Lemma updateFeesRow_keeps (instance row : Collective) :
  feesApplied p flag row -> feesApplied p flag (updateFeesRow p flag instance row).
Proof.
  intro H. unfold updateFeesRow.
  destruct (id row =? id instance); [split; reflexivity | exact H].
Qed.

Lemma cascadeRow_id (instances : list Collective) (row : Collective) :
  id (cascadeRow p flag instances row) = id row.
Proof.
  revert row. induction instances as [|c cs IH]; intro row; simpl.
  - reflexivity.
  - unfold cascadeRow in *. simpl. rewrite IH. apply updateFeesRow_id.
Qed.

Lemma cascadeRow_keeps (instances : list Collective) (row : Collective) :
  feesApplied p flag row -> feesApplied p flag (cascadeRow p flag instances row).
Proof.
  revert row. induction instances as [|c cs IH]; intros row H.
  - exact H.
  - unfold cascadeRow in *. simpl. apply IH, updateFeesRow_keeps, H.
Qed.

Lemma cascadeRow_hit (instances : list Collective) (row child : Collective) :
  In child instances -> id row = id child ->
  feesApplied p flag (cascadeRow p flag instances row).
Proof.
  revert row. induction instances as [|c cs IH]; intros row Hin Hid.
  - contradiction.
  - unfold cascadeRow in *. simpl. destruct Hin as [-> | Hin].
    + apply (cascadeRow_keeps cs), updateFeesRow_hit, Hid.
    + apply IH; [exact Hin|]. rewrite updateFeesRow_id. exact Hid.
Qed.

Lemma cascadeRow_miss (instances : list Collective) (row : Collective) :
  (forall child, In child instances -> id row <> id child) ->
  cascadeRow p flag instances row = row.
Proof.
  revert row. induction instances as [|c cs IH]; intros row H.
  - reflexivity.
  - unfold cascadeRow in *. simpl.
    assert (E : updateFeesRow p flag c row = row).
    { unfold updateFeesRow.
      destruct (id row =? id c) eqn:Eid; [|reflexivity].
      apply Z.eqb_eq in Eid. exfalso. apply (H c); [left; reflexivity | exact Eid]. }
    rewrite E. apply IH. intros child Hin. apply H. right. exact Hin.
Qed.

Lemma cascadeRow_nil (rows : list Collective) :
  map (cascadeRow p flag []) rows = rows.
Proof. unfold cascadeRow. simpl. apply map_id. Qed.

(** [Promise.all(children.map(updateAccountFees))] inside a transaction:
    when it resolves, no update was aborted and the table the transaction
    sees is rewritten row by row; what is committed stays in either case. *)
Lemma mapM_updateAccountFees_inv (t : DbTransaction) (children : list Collective)
      (s s' : OpenTransaction) (r : Error + list Collective) :
  mapM (fun a => inTransaction t
                   (Collective_update a p (spreadUseCustomHostFee (data a) flag)))
       children s = (r, s') ->
  committed s' = committed s /\
  match r with
  | inl _ => True
  | inr updated =>
      (forall k, (k < length children)%nat -> aborts t (statements s + k) = None) /\
      updated = map (fun a => withFees a p (spreadUseCustomHostFee (data a) flag))
                    children /\
      pending s'
      = setCollectives (pending s)
          (map (cascadeRow p flag children) (Collectives (pending s))) /\
      statements s' = (statements s + length children)%nat
  end.
Proof.
  revert s s' r. induction children as [|c cs IH]; intros s s' r H.
  - simpl in H. unfold ret in H. inversion H; subst. split; [reflexivity|].
    split; [intros k Hk; inversion Hk|]. split; [reflexivity|].
    rewrite cascadeRow_nil, setCollectives_same. split; [reflexivity|].
    simpl. lia.
  - simpl in H. unfold bind at 1 in H. unfold inTransaction at 1 in H.
    destruct (aborts t (statements s)) as [e|] eqn:Habort.
    { inversion H; subst. split; [reflexivity | exact I]. }
    unfold Collective_update at 1 in H. unfold bind at 1, modify, ret at 1 in H.
    cbv beta iota in H. unfold bind at 1 in H.
    match type of H with
    | context [mapM ?f cs ?s1] => destruct (mapM f cs s1) as [[e|ys] s2] eqn:Hrest
    end.
    + apply IH in Hrest. destruct Hrest as [Hc _]. simpl in Hc.
      inversion H; subst. split; [exact Hc | exact I].
    + apply IH in Hrest. destruct Hrest as (Hc & Hno & Hys & Hp & Hn).
      simpl in Hc, Hno, Hp, Hn.
      unfold ret in H. inversion H; subst r s'. split; [exact Hc|].
      split; [|split; [|split]].
      * intros [|k] Hk.
        -- rewrite Nat.add_0_r. exact Habort.
        -- rewrite Nat.add_succ_r. apply Hno. simpl in Hk. lia.
      * rewrite Hys. reflexivity.
      * rewrite Hp. simpl. rewrite map_map. reflexivity.
      * rewrite Hn. simpl. lia.
Qed.

Lemma mapM_updateAccountFees_run (t : DbTransaction) (children : list Collective)
      (s : OpenTransaction) :
  (forall k, (k < length children)%nat -> aborts t (statements s + k) = None) ->
  mapM (fun a => inTransaction t
                   (Collective_update a p (spreadUseCustomHostFee (data a) flag)))
       children s
  = (inr (map (fun a => withFees a p (spreadUseCustomHostFee (data a) flag)) children),
     {| committed := committed s;
        pending := setCollectives (pending s)
                     (map (cascadeRow p flag children) (Collectives (pending s)));
        statements := (statements s + length children)%nat |}).
Proof.
  revert s. induction children as [|c cs IH]; intros s Hno.
  - simpl. unfold ret. rewrite cascadeRow_nil, setCollectives_same, Nat.add_0_r.
    destruct s; reflexivity.
  - simpl. unfold bind at 1. unfold inTransaction at 1.
    rewrite <- (Nat.add_0_r (statements s)) at 1.
    rewrite (Hno 0%nat) by (simpl; lia).
    unfold Collective_update at 1. unfold bind at 1, modify, ret at 1.
    cbv beta iota. unfold bind at 1.
    rewrite IH.
    + unfold ret. simpl. rewrite map_map, Nat.add_succ_r. reflexivity.
    + intros k Hk. simpl. rewrite <- Nat.add_succ_r. apply Hno. simpl. lia.
Qed.

End CascadeRow.

Lemma Collective_update_run (instance : Collective) (p : option Q)
      (dt : option CollectiveData) (w : World) :
  Collective_update instance p dt w
  = (inr (withFees instance p dt),
     setCollectives w
       (map (fun row => if id row =? id instance then withFees row p dt else row)
            (Collectives w))).
Proof. reflexivity. Qed.

Lemma cascade_if {S B : Type} (f : Collective -> M S B) (children : list Collective) :
  (if 0 <? Z.of_nat (length children) then mapM f children else ret [])
  = mapM f children.
Proof. destruct children; reflexivity. Qed.

Section FeeStructure.
Variable d : AccountDeps.

Lemma inTransaction_run {A} (t : DbTransaction) (op : M World A) (s : OpenTransaction) :
  inTransaction t op s
  = match aborts t (statements s) with
    | Some e => (inl e, s)
    | None =>
        (fst (op (pending s)),
         {| committed := committed s;
            pending := snd (op (pending s));
            statements := Datatypes.S (statements s) |})
    end.
Proof.
  unfold inTransaction. destruct (aborts t (statements s)); [reflexivity|].
  destruct (op (pending s)); reflexivity.
Qed.

Lemma editAccountFeeStructure_cases (args : EditAccountFeeStructureArgs)
      (req : Request) (w w' : World) (r : Error + Collective) :
  editAccountFeeStructure d args req w = (r, w') ->
  (exists e, r = inl e /\ w' = w) \/
  (exists account remote,
      checkRemoteUserCanUseHost d req = None /\
      fetchAccountWithReference d (feeAccount args)
        {| throwIfMissing := true; lock := true |} w = inr (Some account) /\
      remoteUser req = Some remote /\
      User_isAdmin d remote (HostCollectiveId account) = true /\
      falsyId (HostCollectiveId account) = false /\
      approvedAt account <> None /\
      (isCustomFee args = false ->
       findCollective (HostCollectiveId account) w <> None) /\
      let p := appliedHostFeePercent args (findCollective (HostCollectiveId account) w) in
      notAborted d w (6 + length (cascadeChildren d args account p w)) /\
      r = inr (withFees account p
                 (spreadUseCustomHostFee (data account) (isCustomFee args))) /\
      w' = afterFeeEdit d args req remote account p w).
Proof.
  intro H. unfold editAccountFeeStructure in H.
  unfold bind at 1 in H. unfold check in H.
  destruct (checkRemoteUserCanUseHost d req) as [e|] eqn:Hcheck.
  { unfold throw in H. inversion H. left. eauto. }
  unfold ret at 1 in H. cbv beta iota in H.
  unfold sequelize_transaction in H. cbv zeta in H.
  match type of H with
  | (match ?b with _ => _ end) = _ => destruct b as [rb s1] eqn:Hbody
  end.
  cbv beta in Hbody.
  (* fetch *)
  unfold bind at 1 in Hbody. rewrite inTransaction_run in Hbody.
  cbn [aborts statements pending committed] in Hbody.
  destruct (transactionAborts d w 0) as [e0|] eqn:Habort0.
  { inversion Hbody; subst. simpl in H. inversion H. left. eauto. }
  unfold query in Hbody. cbn [fst snd] in Hbody.
  destruct (fetchAccountWithReference d (feeAccount args)
              {| throwIfMissing := true; lock := true |} w)
    as [e1|[account|]] eqn:Hfetch.
  1,3: unfold throw in Hbody; inversion Hbody; subst; simpl in H; inversion H;
       left; eauto.
  (* guards *)
  destruct (falsyId (HostCollectiveId account)) eqn:Hhost.
  { unfold throw in Hbody. inversion Hbody; subst. simpl in H. inversion H. left. eauto. }
  unfold remoteUser_isAdmin in Hbody.
  destruct (remoteUser req) as [remote|] eqn:Hremote.
  2:{ cbn [negb] in Hbody. unfold throw in Hbody. inversion Hbody; subst.
      simpl in H. inversion H. left. eauto. }
  destruct (User_isAdmin d remote (HostCollectiveId account)) eqn:Hadmin.
  2:{ cbn [negb] in Hbody. unfold throw in Hbody. inversion Hbody; subst.
      simpl in H. inversion H. left. eauto. }
  cbn [negb] in Hbody.
  destruct (approvedAt account) as [approved|] eqn:Happroved.
  2:{ unfold throw in Hbody. inversion Hbody; subst. simpl in H. inversion H.
      left. eauto. }
  (* host *)
  unfold bind at 1 in Hbody. rewrite inTransaction_run in Hbody.
  cbn [aborts statements pending committed] in Hbody.
  destruct (transactionAborts d w 1) as [e1|] eqn:Habort1.
  { inversion Hbody; subst. simpl in H. inversion H. left. eauto. }
  unfold Collective_findByPk, gets in Hbody. cbn [fst snd] in Hbody.
  (* the percentage *)
  unfold bind at 1 in Hbody.
  set (p := appliedHostFeePercent args (findCollective (HostCollectiveId account) w)).
  match type of Hbody with
  | (let (_, _) := ?c in _) = _ =>
      assert (Hpct : (c = (inr p, {| committed := w; pending := w; statements := 2 |})
                      /\ (isCustomFee args = false ->
                          findCollective (HostCollectiveId account) w <> None))
                     \/ (exists e, c = (inl e, {| committed := w; pending := w;
                                                 statements := 2 |})))
  end.
  { unfold p, appliedHostFeePercent.
    destruct (isCustomFee args); [left; split; [reflexivity | discriminate]|].
    destruct (findCollective (HostCollectiveId account) w).
    - left. split; [reflexivity | intros _; discriminate].
    - right. eexists. reflexivity. }
  destruct Hpct as [[Hpct Hfound] | [e2 Hpct]]; rewrite Hpct in Hbody; clear Hpct.
  2:{ inversion Hbody; subst. simpl in H. inversion H. left. eauto. }
  (* the account *)
  unfold bind at 1 in Hbody. rewrite inTransaction_run in Hbody.
  cbn [aborts statements pending committed] in Hbody.
  destruct (transactionAborts d w 2) as [e2|] eqn:Habort2.
  { inversion Hbody; subst. simpl in H. inversion H. left. eauto. }
  rewrite !Collective_update_run in Hbody. cbn [fst snd] in Hbody.
  (* the children *)
  unfold bind at 1 in Hbody. rewrite inTransaction_run in Hbody.
  cbn [aborts statements pending committed fst snd] in Hbody.
  destruct (transactionAborts d w 3) as [e3|] eqn:Habort3.
  { inversion Hbody; subst. simpl in H. inversion H. left. eauto. }
  unfold bind at 1 in Hbody. rewrite cascade_if in Hbody.
  match type of Hbody with
  | context [mapM ?f ?l ?st] => destruct (mapM f l st) as [rc s2] eqn:Hcascade
  end.
  apply mapM_updateAccountFees_inv in Hcascade.
  cbn [statements pending committed] in Hcascade.
  destruct Hcascade as [Hcommitted Hcascade].
  destruct rc as [e4|updatedChildren].
  { inversion Hbody; subst rb s1. simpl in H. rewrite Hcommitted in H.
    inversion H. left. eauto. }
  destruct Hcascade as (Hno & _ & Hpending & Hstatements).
  (* the activity *)
  unfold bind at 1 in Hbody. rewrite inTransaction_run in Hbody.
  rewrite Hstatements, Hpending, Hcommitted in Hbody.
  cbn [aborts] in Hbody.
  match type of Hbody with
  | context [transactionAborts d w ?n] =>
      destruct (transactionAborts d w n) as [e5|] eqn:Habort5
  end.
  { inversion Hbody; subst rb s1. simpl in H. rewrite Hcommitted in H.
    inversion H. left. eauto. }
  unfold Activity_create, modify, ret in Hbody. cbn [fst snd] in Hbody.
  inversion Hbody; subst rb s1; clear Hbody.
  cbn [aborts statements pending committed] in H.
  match type of H with
  | context [transactionAborts d w ?n] =>
      destruct (transactionAborts d w n) as [e6|] eqn:Habort6
  end.
  { inversion H. left. eauto. }
  inversion H; subst r w'; clear H.
  right. exists account, remote.
  do 5 (split; [first [assumption | reflexivity]|]).
  split; [congruence|]. split; [exact Hfound|].
  cbv zeta. fold p.
  assert (Hchildren :
            Collective_getChildren d
              (withFees account p
                 (spreadUseCustomHostFee (data account) (isCustomFee args)))
              (setCollectives w
                 (map (fun row : Collective =>
                         if id row =? id account
                         then withFees row p
                                (spreadUseCustomHostFee (data account) (isCustomFee args))
                         else row)
                      (Collectives w)))
            = cascadeChildren d args account p w) by reflexivity.
  rewrite Hchildren in *. clear Hchildren.
  split; [|split].
  - intros k Hk. cbn [aborts] in Hno.
    destruct (Nat.lt_ge_cases k 4) as [Hlow | Hhigh].
    + destruct k as [|[|[|[|k]]]]; try assumption. lia.
    + destruct (Nat.eq_dec k (5 + length (cascadeChildren d args account p w)))
        as [-> | Hne]; [exact Habort6|].
      destruct (Nat.eq_dec k (4 + length (cascadeChildren d args account p w)))
        as [-> | Hne']; [exact Habort5|].
      replace k with (4 + (k - 4))%nat by lia. apply Hno. lia.
  - reflexivity.
  - reflexivity.
Qed.
Lemma editAccountFeeStructure_inv (args : EditAccountFeeStructureArgs)
      (req : Request) (w w' : World) (r : Error + Collective) :
  editAccountFeeStructure d args req w = (r, w') ->
  (exists e, r = inl e /\ w' = w) \/
  (exists account remote,
      checkRemoteUserCanUseHost d req = None /\
      fetchAccountWithReference d (feeAccount args)
        {| throwIfMissing := true; lock := true |} w = inr (Some account) /\
      remoteUser req = Some remote /\
      User_isAdmin d remote (HostCollectiveId account) = true /\
      falsyId (HostCollectiveId account) = false /\
      approvedAt account <> None /\
      (isCustomFee args = false ->
       findCollective (HostCollectiveId account) w <> None) /\
      let p := appliedHostFeePercent args (findCollective (HostCollectiveId account) w) in
      r = inr (withFees account p
                 (spreadUseCustomHostFee (data account) (isCustomFee args))) /\
      w' = afterFeeEdit d args req remote account p w).
Proof.
  intro H. apply editAccountFeeStructure_cases in H.
  destruct H as [H | (account & remote & H1 & H2 & H3 & H4 & H5 & H6 & H7 & H)];
    [left; exact H|].
  right. exists account, remote. cbv zeta in *. destruct H as (_ & H8 & H9).
  repeat (split; [assumption|]). assumption.
Qed.

Lemma editAccountFeeStructure_run (args : EditAccountFeeStructureArgs)
      (req : Request) (w : World) (account : Collective) (remote : User) :
  checkRemoteUserCanUseHost d req = None ->
  fetchAccountWithReference d (feeAccount args)
    {| throwIfMissing := true; lock := true |} w = inr (Some account) ->
  remoteUser req = Some remote ->
  User_isAdmin d remote (HostCollectiveId account) = true ->
  falsyId (HostCollectiveId account) = false ->
  approvedAt account <> None ->
  (isCustomFee args = false ->
   findCollective (HostCollectiveId account) w <> None) ->
  let p := appliedHostFeePercent args (findCollective (HostCollectiveId account) w) in
  notAborted d w (6 + length (cascadeChildren d args account p w)) ->
  editAccountFeeStructure d args req w
  = (inr (withFees account p
            (spreadUseCustomHostFee (data account) (isCustomFee args))),
     afterFeeEdit d args req remote account p w).
Proof.
  intros Hcheck Hfetch Hremote Hadmin Hhost Happroved Hfound p Hno.
  unfold notAborted in Hno.
  unfold editAccountFeeStructure. unfold bind at 1. unfold check.
  rewrite Hcheck. unfold ret at 1. cbv beta iota.
  unfold sequelize_transaction. cbv zeta beta.
  (* fetch *)
  unfold bind at 1. rewrite inTransaction_run.
  cbn [aborts statements pending committed].
  rewrite (Hno 0%nat) by lia. unfold query. cbn [fst snd]. rewrite Hfetch.
  cbv beta iota. rewrite Hhost. unfold remoteUser_isAdmin.
  rewrite Hremote, Hadmin. cbn [negb].
  destruct (approvedAt account) as [approved|]; [|congruence]. cbv beta iota.
  (* host *)
  unfold bind at 1. rewrite inTransaction_run.
  cbn [aborts statements pending committed].
  rewrite (Hno 1%nat) by lia. unfold Collective_findByPk, gets. cbn [fst snd].
  (* the percentage *)
  unfold bind at 1.
  match goal with
  | |- context [let (_, _) := ?c in _] =>
      assert (Hpct : c = (inr p, {| committed := w; pending := w; statements := 2 |}))
  end.
  { unfold p, appliedHostFeePercent.
    destruct (isCustomFee args); [reflexivity|].
    destruct (findCollective (HostCollectiveId account) w); [reflexivity|].
    exfalso. apply Hfound; reflexivity. }
  rewrite Hpct. clear Hpct.
  (* the account *)
  unfold bind at 1. rewrite inTransaction_run.
  cbn [aborts statements pending committed].
  rewrite (Hno 2%nat) by lia.
  rewrite !Collective_update_run. cbn [fst snd].
  (* the children *)
  unfold bind at 1. rewrite inTransaction_run.
  cbn [aborts statements pending committed fst snd].
  rewrite (Hno 3%nat) by lia.
  unfold bind at 1. rewrite cascade_if.
  rewrite mapM_updateAccountFees_run.
  2:{ intros k Hk. cbn [aborts statements]. apply Hno.
      unfold cascadeChildren, updateFeesRow. lia. }
  (* the activity *)
  unfold bind at 1. rewrite inTransaction_run.
  cbn [aborts statements pending committed].
  rewrite (Hno (4 + _)%nat) by (unfold cascadeChildren, updateFeesRow; lia).
  unfold Activity_create, modify, ret. cbn [fst snd].
  cbn [aborts statements pending committed].
  rewrite (Hno (S (4 + _))%nat) by (unfold cascadeChildren, updateFeesRow; lia).
  reflexivity.
Qed.
End FeeStructure.

(** The rows that a committed fee edit touches carry the new fee structure;
    no row is added or removed. *)
Lemma afterFeeEdit_rows (d : AccountDeps) (args : EditAccountFeeStructureArgs)
      (req : Request) (remote : User) (account : Collective) (p : option Q)
      (w : World) :
  map id (Collectives (afterFeeEdit d args req remote account p w))
    = map id (Collectives w) /\
  forall row,
    In row (Collectives (afterFeeEdit d args req remote account p w)) ->
    id row = id account \/
    (exists child, In child (cascadeChildren d args account p w) /\ id row = id child) ->
    feesApplied p (isCustomFee args) row.
Proof.
  unfold afterFeeEdit. simpl. split.
  - rewrite !map_map. apply map_ext. intro row.
    rewrite cascadeRow_id. apply updateFeesRow_id.
  - intros row Hin Hwhich.
    apply in_map_iff in Hin. destruct Hin as (row1 & <- & Hin).
    apply in_map_iff in Hin. destruct Hin as (row0 & <- & Hin).
    rewrite cascadeRow_id, updateFeesRow_id in Hwhich.
    destruct Hwhich as [Hparent | (child & Hchild & Hid)].
    + apply cascadeRow_keeps, updateFeesRow_hit, Hparent.
    + apply cascadeRow_hit with (child := child); [exact Hchild|].
      rewrite updateFeesRow_id. exact Hid.
Qed.

(** C4.  The updates of [editAccountFeeStructure] are statements of one
    database transaction.  When the mutation commits, the database has let
    every statement of the transaction through (the two reads, the update of
    the account, the read of the children, one update for each child, the
    audit row and the commit), and the row of the account and the row of
    every child that [getChildren] returned carry one and the same
    [hostFeePercent] and the same [useCustomHostFee] flag, the one of the
    arguments.  When it throws, also when the database refuses the update of
    a child after the account has been updated, the transaction is rolled
    back and neither the account nor any child is changed. *)
Theorem fee_structure_cascades
        (d : AccountDeps) (args : EditAccountFeeStructureArgs) (req : Request)
        (w w' : World) (r : Error + Collective) :
  editAccountFeeStructure d args req w = (r, w') ->
  match r with
  | inl _ => w' = w
  | inr updated =>
      exists account p,
        fetchAccountWithReference d (feeAccount args)
          {| throwIfMissing := true; lock := true |} w = inr (Some account) /\
        id updated = id account /\
        feesApplied p (isCustomFee args) updated /\
        notAborted d w (6 + length (cascadeChildren d args account p w)) /\
        map id (Collectives w') = map id (Collectives w) /\
        forall parentRow childRow child,
          In parentRow (Collectives w') -> id parentRow = id account ->
          In child (cascadeChildren d args account p w) ->
          In childRow (Collectives w') -> id childRow = id child ->
          feesApplied p (isCustomFee args) parentRow /\
          hostFeePercent childRow = hostFeePercent parentRow /\
          data_useCustomHostFee (data childRow) = data_useCustomHostFee (data parentRow) /\
          data_useCustomHostFee (data childRow) = Some (isCustomFee args)
  end.
Proof.
  intro H. apply editAccountFeeStructure_cases in H.
  destruct H as [(e & -> & ->) | (account & remote & _ & Hfetch & _ & _ & _ & _ & _ & H)].
  - reflexivity.
  - cbv zeta in H. destruct H as (Hno & -> & ->).
    exists account,
      (appliedHostFeePercent args (findCollective (HostCollectiveId account) w)).
    split; [exact Hfetch|]. split; [reflexivity|]. split; [split; reflexivity|].
    split; [exact Hno|].
    destruct (afterFeeEdit_rows d args req remote account
                (appliedHostFeePercent args (findCollective (HostCollectiveId account) w)) w)
      as [Hids Hrows].
    split; [exact Hids|].
    intros parentRow childRow child HinP HidP Hchild HinC HidC.
    assert (HP := Hrows parentRow HinP (or_introl HidP)).
    assert (HC := Hrows childRow HinC
                    (or_intror (ex_intro _ child (conj Hchild HidC)))).
    destruct HP as [HP1 HP2], HC as [HC1 HC2].
    repeat split; congruence.
Qed.

Lemma fee_structure_cascades_witness :
  (exists account p,
      fetchAccountWithReference AccountFixture.deps
        (feeAccount (AccountFixture.feeArgs true))
        {| throwIfMissing := true; lock := true |} Fixture.world = inr (Some account) /\
      id Fixture.recipient = id account /\
      feesApplied p true
        (withFees Fixture.recipient (Some (75 # 10))
           (spreadUseCustomHostFee (data Fixture.recipient) true)) /\
      notAborted AccountFixture.deps Fixture.world
        (6 + length (cascadeChildren AccountFixture.deps (AccountFixture.feeArgs true)
                       account p Fixture.world)) /\
      map id (Collectives
                (snd (editAccountFeeStructure AccountFixture.deps
                        (AccountFixture.feeArgs true) AccountFixture.asAlice
                        Fixture.world)))
        = map id (Collectives Fixture.world) /\
      forall parentRow childRow child,
        In parentRow
           (Collectives
              (snd (editAccountFeeStructure AccountFixture.deps
                      (AccountFixture.feeArgs true) AccountFixture.asAlice
                      Fixture.world))) ->
        id parentRow = id account ->
        In child (cascadeChildren AccountFixture.deps (AccountFixture.feeArgs true)
                                  account p Fixture.world) ->
        In childRow
           (Collectives
              (snd (editAccountFeeStructure AccountFixture.deps
                      (AccountFixture.feeArgs true) AccountFixture.asAlice
                      Fixture.world))) ->
        id childRow = id child ->
        feesApplied p true parentRow /\
        hostFeePercent childRow = hostFeePercent parentRow /\
        data_useCustomHostFee (data childRow) = data_useCustomHostFee (data parentRow) /\
        data_useCustomHostFee (data childRow) = Some true) /\
  snd (editAccountFeeStructure (AccountFixture.depsLosingConnectionAt 5)
         (AccountFixture.feeArgs true) AccountFixture.asAlice Fixture.world)
  = Fixture.world.
Proof.
  split.
  - apply (@fee_structure_cascades AccountFixture.deps (AccountFixture.feeArgs true)
             AccountFixture.asAlice Fixture.world
             (snd (editAccountFeeStructure AccountFixture.deps
                     (AccountFixture.feeArgs true) AccountFixture.asAlice
                     Fixture.world))
             (inr (withFees Fixture.recipient (Some (75 # 10))
                     (spreadUseCustomHostFee (data Fixture.recipient) true)))).
    vm_compute. reflexivity.
  - apply (@fee_structure_cascades (AccountFixture.depsLosingConnectionAt 5)
             (AccountFixture.feeArgs true) AccountFixture.asAlice Fixture.world
             (snd (editAccountFeeStructure (AccountFixture.depsLosingConnectionAt 5)
                     (AccountFixture.feeArgs true) AccountFixture.asAlice
                     Fixture.world))
             (inl AccountFixture.connectionLost)).
    vm_compute. reflexivity.
Defined.

(** C10.  In a committed [editAccountFeeStructure] the host fee percent
    applied to the account and to all its children is the one of the host
    collective when [isCustomFee] is false, whatever was submitted, and the
    submitted one when [isCustomFee] is true; the audit row stores the
    submitted value as the new value in both cases. *)
Theorem submitted_percent_only_when_custom
        (d : AccountDeps) (args : EditAccountFeeStructureArgs) (req : Request)
        (w w' : World) (updated : Collective) :
  editAccountFeeStructure d args req w = (inr updated, w') ->
  exists account remote applied,
    fetchAccountWithReference d (feeAccount args)
      {| throwIfMissing := true; lock := true |} w = inr (Some account) /\
    (if isCustomFee args
     then applied = Some (argHostFeePercent args)
     else exists host,
         findCollective (HostCollectiveId account) w = Some host /\
         applied = hostFeePercent host) /\
    hostFeePercent updated = applied /\
    (forall row,
        In row (Collectives w') ->
        id row = id account \/
        (exists child, In child (cascadeChildren d args account applied w) /\
                       id row = id child) ->
        hostFeePercent row = applied) /\
    (isCustomFee args = false ->
     forall submitted,
       Collectives
         (snd (editAccountFeeStructure d
                 {| feeAccount := feeAccount args;
                    argHostFeePercent := submitted;
                    isCustomFee := false |} req w))
       = Collectives w') /\
    (exists previous,
        Activities w'
        = (Activities w
             ++ [{| actType := COLLECTIVE_EDITED;
                    actUserId := userId remote;
                    actUserTokenId := userToken req;
                    actCollectiveId := Some (id account);
                    actFromCollectiveId := Some (id account);
                    actHostCollectiveId := HostCollectiveId account;
                    actData :=
                      FeeStructureEdit previous
                        {| fsHostFeePercent := argHostFeePercent args;
                           fsUseCustomHostFee := isCustomFee args |} |}])%list).
Proof.
  intro H. apply editAccountFeeStructure_cases in H.
  destruct H as [(e & He & _) |
                 (account & remote & Hcheck & Hfetch & Hremote & Hadmin & Hhost
                  & Happroved & Hfound & H)]; [discriminate|].
  cbv zeta in H. destruct H as (Hno & Hupd & ->).
  inversion Hupd; subst updated; clear Hupd.
  exists account, remote,
    (appliedHostFeePercent args (findCollective (HostCollectiveId account) w)).
  split; [exact Hfetch|]. split; [|split; [reflexivity|split; [|split]]].
  - unfold appliedHostFeePercent. destruct (isCustomFee args); [reflexivity|].
    destruct (findCollective (HostCollectiveId account) w) as [host|].
    + exists host. split; reflexivity.
    + exfalso. apply Hfound; reflexivity.
  - intros row Hin Hwhich.
    destruct (afterFeeEdit_rows d args req remote account
                (appliedHostFeePercent args (findCollective (HostCollectiveId account) w)) w)
      as [_ Hrows].
    apply (Hrows row Hin Hwhich).
  - intros Hcustom submitted.
    rewrite (@editAccountFeeStructure_run d
               {| feeAccount := feeAccount args;
                  argHostFeePercent := submitted;
                  isCustomFee := false |} req w account remote);
      try assumption.
    + unfold afterFeeEdit, cascadeChildren, appliedHostFeePercent. simpl.
      rewrite Hcustom. reflexivity.
    + intros _. apply Hfound, Hcustom.
    + unfold cascadeChildren, appliedHostFeePercent in *. simpl.
      rewrite Hcustom in Hno. exact Hno.
  - eexists. reflexivity.
Qed.

Lemma submitted_percent_only_when_custom_witness :
  exists account remote applied,
    fetchAccountWithReference AccountFixture.deps
      (feeAccount (AccountFixture.feeArgs false))
      {| throwIfMissing := true; lock := true |} Fixture.world = inr (Some account) /\
    (exists host,
        findCollective (HostCollectiveId account) Fixture.world = Some host /\
        applied = hostFeePercent host) /\
    Some (10 # 1) = applied /\
    (forall row,
        In row (Collectives
                  (snd (editAccountFeeStructure AccountFixture.deps
                          (AccountFixture.feeArgs false) AccountFixture.asAlice
                          Fixture.world))) ->
        id row = id account \/
        (exists child,
            In child (cascadeChildren AccountFixture.deps (AccountFixture.feeArgs false)
                                      account applied Fixture.world) /\
            id row = id child) ->
        hostFeePercent row = applied) /\
    (false = false ->
     forall submitted,
       Collectives
         (snd (editAccountFeeStructure AccountFixture.deps
                 {| feeAccount := feeAccount (AccountFixture.feeArgs false);
                    argHostFeePercent := submitted;
                    isCustomFee := false |} AccountFixture.asAlice Fixture.world))
       = Collectives
           (snd (editAccountFeeStructure AccountFixture.deps
                   (AccountFixture.feeArgs false) AccountFixture.asAlice
                   Fixture.world))) /\
    (exists previous,
        Activities
          (snd (editAccountFeeStructure AccountFixture.deps
                  (AccountFixture.feeArgs false) AccountFixture.asAlice
                  Fixture.world))
        = (Activities Fixture.world
             ++ [{| actType := COLLECTIVE_EDITED;
                    actUserId := userId remote;
                    actUserTokenId := Some 51;
                    actCollectiveId := Some (id account);
                    actFromCollectiveId := Some (id account);
                    actHostCollectiveId := HostCollectiveId account;
                    actData :=
                      FeeStructureEdit previous
                        {| fsHostFeePercent := 75 # 10;
                           fsUseCustomHostFee := false |} |}])%list).
Proof.
  apply (@submitted_percent_only_when_custom AccountFixture.deps
           (AccountFixture.feeArgs false) AccountFixture.asAlice Fixture.world
           (snd (editAccountFeeStructure AccountFixture.deps
                   (AccountFixture.feeArgs false) AccountFixture.asAlice
                   Fixture.world))
           (withFees Fixture.recipient (Some (10 # 1))
              (spreadUseCustomHostFee (data Fixture.recipient) false))).
  vm_compute. reflexivity.
Defined.

(* ================================================================== *)
(** * Freezing                                                          *)
(* ================================================================== *)

Section Freeze.
Variable d : AccountDeps.

Lemma editAccountFreezeStatus_rejects (args : EditAccountFreezeStatusArgs)
      (req : Request) (w : World) (account : Collective) :
  fetchAccountWithReference d (freezeAccount args)
    {| throwIfMissing := true; lock := false |} w = inr (Some account) ->
  isCollectiveOrFund (type account) = false ->
  exists e, editAccountFreezeStatus d args req w = (inl e, w) /\
            (authorizedForHost d req account w -> e = onlyCollectiveAndFunds).
Proof.
  intros Hfetch Htype.
  unfold editAccountFreezeStatus, authorizedForHost.
  unfold bind, check, gets, query, throw, ret.
  destruct (checkRemoteUserCanUseHost d req) as [e|] eqn:Hcheck.
  { exists e. split; [reflexivity|]. intros [Hc _]. discriminate. }
  rewrite Hfetch. cbv beta iota.
  destruct (Account_getHostCollective d account w) as [host|] eqn:Hhost.
  2:{ eexists. split; [reflexivity|]. intros (_ & h & r & Hh & _). discriminate. }
  destruct (remoteUser req) as [remote|] eqn:Hremote.
  2:{ eexists. split; [reflexivity|]. intros (_ & h & r & _ & Hr & _). discriminate. }
  destruct (User_isAdminOfCollective d remote (Some host)) eqn:Hadmin; cbn [negb].
  - rewrite Htype. cbn [negb]. eexists. split; reflexivity.
  - eexists. split; [reflexivity|].
    intros (_ & h & r & Hh & Hr & Ha). inversion Hh; inversion Hr; subst.
    congruence.
Qed.

Lemma editAccountFreezeStatus_performs (args : EditAccountFreezeStatusArgs)
      (req : Request) (w : World) (account : Collective) :
  fetchAccountWithReference d (freezeAccount args)
    {| throwIfMissing := true; lock := false |} w = inr (Some account) ->
  isCollectiveOrFund (type account) = true ->
  authorizedForHost d req account w ->
  editAccountFreezeStatus d args req w
  = (match action args with
     | FREEZE => Collective_freeze d account (freezeMessage args)
     | UNFREEZE => Collective_unfreeze d account (freezeMessage args)
     end ;; Collective_reload account) w.
Proof.
  intros Hfetch Htype (Hcheck & host & remote & Hhost & Hremote & Hadmin).
  unfold editAccountFreezeStatus.
  unfold bind at 1 2 3, check, gets, query, throw, ret.
  rewrite Hcheck. cbv beta iota. rewrite Hfetch. cbv beta iota.
  rewrite Hhost, Hremote. cbv beta iota. rewrite Hadmin, Htype. cbn [negb].
  reflexivity.
Qed.

Lemma editAccountFreezeStatus_unauthorized (args : EditAccountFreezeStatusArgs)
      (req : Request) (w : World) (account host : Collective) (remote : User) :
  fetchAccountWithReference d (freezeAccount args)
    {| throwIfMissing := true; lock := false |} w = inr (Some account) ->
  checkRemoteUserCanUseHost d req = None ->
  Account_getHostCollective d account w = Some host ->
  remoteUser req = Some remote ->
  User_isAdminOfCollective d remote (Some host) = false ->
  editAccountFreezeStatus d args req w = (inl (mkError Unauthorized ""), w).
Proof.
  intros Hfetch Hcheck Hhost Hremote Hadmin.
  unfold editAccountFreezeStatus.
  unfold bind, check, gets, query, throw, ret.
  rewrite Hcheck. cbv beta iota. rewrite Hfetch. cbv beta iota.
  rewrite Hhost, Hremote. cbv beta iota. rewrite Hadmin. reflexivity.
Qed.
End Freeze.

(** C7, as the code has it.  For an account whose type is not COLLECTIVE or
    FUND, [editAccountFreezeStatus] throws and leaves the world as it was,
    and the error is the validation error of the account-type guard when
    the caller is authorized (scope check passed, administrator of the
    host of the account); for a collective or a fund and an authorized
    caller it runs [freeze] or [unfreeze], as the action says, on the
    account and returns the reloaded account; for an account of any type
    and a caller who passed the scope check but does not administer the
    host, it throws [Unauthorized]. *)
Theorem freeze_status_by_account_type
        (d : AccountDeps) (args : EditAccountFreezeStatusArgs) (req : Request)
        (w : World) (account : Collective) :
  fetchAccountWithReference d (freezeAccount args)
    {| throwIfMissing := true; lock := false |} w = inr (Some account) ->
  (isCollectiveOrFund (type account) = false ->
   exists e, editAccountFreezeStatus d args req w = (inl e, w) /\
             (authorizedForHost d req account w ->
              e = onlyCollectiveAndFunds /\ kind e = ValidationFailed)) /\
  (isCollectiveOrFund (type account) = true ->
   authorizedForHost d req account w ->
   editAccountFreezeStatus d args req w
   = (match action args with
      | FREEZE => Collective_freeze d account (freezeMessage args)
      | UNFREEZE => Collective_unfreeze d account (freezeMessage args)
      end ;; Collective_reload account) w) /\
  (forall host remote,
      checkRemoteUserCanUseHost d req = None ->
      Account_getHostCollective d account w = Some host ->
      remoteUser req = Some remote ->
      User_isAdminOfCollective d remote (Some host) = false ->
      editAccountFreezeStatus d args req w = (inl (mkError Unauthorized ""), w)).
Proof.
  intro Hfetch. split; [|split].
  - intro Htype.
    destruct (editAccountFreezeStatus_rejects d args req w account Hfetch Htype)
      as (e & He & Hk).
    exists e. split; [exact He|]. intro Hauth. rewrite (Hk Hauth). split; reflexivity.
  - intros Htype Hauth. apply editAccountFreezeStatus_performs; assumption.
  - intros host remote Hcheck Hhost Hremote Hadmin.
    apply editAccountFreezeStatus_unauthorized with (account := account) (host := host)
                                                    (remote := remote); assumption.
Qed.

Lemma freeze_status_by_account_type_witness :
  (exists e,
      editAccountFreezeStatus AccountFixture.deps
        (AccountFixture.freezeArgs Fixture.event FREEZE) AccountFixture.asAlice
        Fixture.world = (inl e, Fixture.world) /\
      (authorizedForHost AccountFixture.deps AccountFixture.asAlice Fixture.event
                         Fixture.world ->
       e = onlyCollectiveAndFunds /\ kind e = ValidationFailed)) /\
  isActive
    (match fst (editAccountFreezeStatus AccountFixture.deps
                  (AccountFixture.freezeArgs Fixture.recipient FREEZE)
                  AccountFixture.asAlice Fixture.world) with
     | inr frozen => frozen
     | inl _ => Fixture.recipient
     end) = false /\
  editAccountFreezeStatus AccountFixture.deps
    (AccountFixture.freezeArgs Fixture.event FREEZE) AccountFixture.asBob
    Fixture.world = (inl (mkError Unauthorized ""), Fixture.world).
Proof.
  split; [|split].
  - apply (@freeze_status_by_account_type AccountFixture.deps
             (AccountFixture.freezeArgs Fixture.event FREEZE) AccountFixture.asAlice
             Fixture.world Fixture.event eq_refl).
    reflexivity.
  - destruct (@freeze_status_by_account_type AccountFixture.deps
                (AccountFixture.freezeArgs Fixture.recipient FREEZE)
                AccountFixture.asAlice Fixture.world Fixture.recipient eq_refl)
      as (_ & Hperform & _).
    rewrite Hperform.
    + reflexivity.
    + reflexivity.
    + split; [reflexivity|].
      exists Fixture.host, Fixture.alice. repeat split; reflexivity.
  - destruct (@freeze_status_by_account_type AccountFixture.deps
                (AccountFixture.freezeArgs Fixture.event FREEZE)
                AccountFixture.asBob Fixture.world Fixture.event eq_refl)
      as (_ & _ & Hdenied).
    apply (Hdenied Fixture.host Fixture.bob); reflexivity.
Defined.

(** C7 as stated does not hold: for an event and a caller who does not
    administer its host the mutation throws [Unauthorized], which is not a
    validation error. *)
Lemma freeze_event_not_validation_error :
  ~ (forall (d : AccountDeps) (args : EditAccountFreezeStatusArgs) (req : Request)
            (w : World) (account : Collective),
        fetchAccountWithReference d (freezeAccount args)
          {| throwIfMissing := true; lock := false |} w = inr (Some account) ->
        isCollectiveOrFund (type account) = false ->
        exists e, fst (editAccountFreezeStatus d args req w) = inl e /\
                  kind e = ValidationFailed).
Proof.
  intro H.
  destruct (H AccountFixture.deps (AccountFixture.freezeArgs Fixture.event FREEZE)
              AccountFixture.asBob Fixture.world Fixture.event eq_refl eq_refl)
    as (e & He & Hk).
  vm_compute in He. inversion He; subst e. discriminate Hk.
Qed.

(* ================================================================== *)
(** * Two-factor authentication                                         *)
(* ================================================================== *)

Lemma userRow_updated (user : User) (codes : option (list string)) (us : list User) :
  In user us ->
  exists row,
    find (fun u => userId u =? userId user) (map (setRecoveryCodes user codes) us)
      = Some row /\
    twoFactorAuthRecoveryCodes row = codes.
Proof.
  induction us as [|u us IH]; intro Hin.
  - contradiction.
  - simpl. destruct (userId u =? userId user) eqn:E.
    + assert (Hs : setRecoveryCodes user codes u
                   = mkUser (userId u) (userCollectiveId u) codes)
        by (unfold setRecoveryCodes; rewrite E; reflexivity).
      rewrite Hs. cbn [userId]. rewrite E. eexists. split; reflexivity.
    + assert (Hs : setRecoveryCodes user codes u = u)
        by (unfold setRecoveryCodes; rewrite E; reflexivity).
      rewrite Hs, E. destruct Hin as [-> | Hin].
      * rewrite Z.eqb_refl in E. discriminate.
      * apply IH, Hin.
Qed.

Lemma rows_updated (user : User) (codes : option (list string)) (us : list User)
      (row : User) :
  In row (map (setRecoveryCodes user codes) us) ->
  userId row = userId user ->
  twoFactorAuthRecoveryCodes row = codes.
Proof.
  intros Hin Hid. apply in_map_iff in Hin. destruct Hin as (row0 & <- & _).
  unfold setRecoveryCodes in *.
  destruct (userId row0 =? userId user) eqn:E.
  - reflexivity.
  - simpl in Hid. apply Z.eqb_neq in E. contradiction.
Qed.

Lemma recoveryCodesDrawn_eq (d : AccountDeps) (w : World) :
  recoveryCodesDrawn d w
  = [cryptoRandomString d (randomDraws w) 16;
     cryptoRandomString d (S (randomDraws w)) 16;
     cryptoRandomString d (S (S (randomDraws w))) 16;
     cryptoRandomString d (S (S (S (randomDraws w)))) 16;
     cryptoRandomString d (S (S (S (S (randomDraws w))))) 16;
     cryptoRandomString d (S (S (S (S (S (randomDraws w)))))) 16].
Proof.
  unfold recoveryCodesDrawn. cbn [map seq].
  rewrite !Nat.add_succ_r, Nat.add_0_r. reflexivity.
Qed.

Lemma recoveryCodesDrawn_length (d : AccountDeps) (w : World) :
  Datatypes.length (recoveryCodesDrawn d w) = 6%nat.
Proof. unfold recoveryCodesDrawn. rewrite length_map, length_seq. reflexivity. Qed.

Section TwoFactor.
Variable d : AccountDeps.

Lemma addTwoFactor_inv (args : AddTwoFactorArgs) (req : Request) (w w' : World)
      (response : AddTwoFactorResponse) :
  addTwoFactorAuthTokenToIndividual d args req w = (inr response, w') ->
  exists acct user,
    fetchAccountWithReference d (addAccount args)
      {| throwIfMissing := false; lock := false |} w = inr (Some acct) /\
    User_findOne (id acct) w = (inr (Some user), w) /\
    account response = acct /\
    (TwoFactorAuthLib_twoFactorMethodsSupportedByUser d user w = [] ->
     recoveryCodes response = Some (recoveryCodesDrawn d w) /\
     Users w' = map (setRecoveryCodes user
                       (Some (map (crypto_hash d) (recoveryCodesDrawn d w))))
                    (Users w)) /\
    (TwoFactorAuthLib_twoFactorMethodsSupportedByUser d user w <> [] ->
     recoveryCodes response = None /\ Users w' = Users w).
Proof.
  unfold addTwoFactorAuthTokenToIndividual, User_findOne, User_update,
    UserTwoFactorMethod_create, Activity_create, drawRandomString,
    setRecoveryCodes.
  unfold replicateM.
  unfold bind, throwIf, check, gets, query, modify, throw, ret.
  intro H.
  repeat (case_scrutinee; cbv beta iota zeta in H).
  all: try discriminate.
  all: inversion H; subst; clear H.
  all: do 2 eexists.
  all: split; [reflexivity|].
  all: split; [match goal with
               | Hf : find _ _ = Some _ |- _ => rewrite Hf; reflexivity
               end|].
  all: split; [reflexivity|].
  all: split; intro Hn.
  all: try (rewrite Hn in *; simpl in * |-; try discriminate;
            rewrite recoveryCodesDrawn_eq; split; reflexivity).
  all: try (split; reflexivity).
  all: match goal with
       | Hl : (Datatypes.length ?l =? 0)%nat = true |- _ =>
           destruct l; simpl in *; congruence
       end.
Qed.
End TwoFactor.

(** C3.  When [addTwoFactorAuthTokenToIndividual] succeeds for a user who
    had no enrolled method, six recovery codes are drawn, the response
    carries them in plaintext, and the row of the user stores the list of
    their hashes and nothing else; when the user had a method already, the
    response carries no codes and the stored codes are untouched. *)
Theorem first_enrollment_recovery_codes
        (d : AccountDeps) (args : AddTwoFactorArgs) (req : Request) (w w' : World)
        (response : AddTwoFactorResponse) :
  addTwoFactorAuthTokenToIndividual d args req w = (inr response, w') ->
  exists acct user,
    fetchAccountWithReference d (addAccount args)
      {| throwIfMissing := false; lock := false |} w = inr (Some acct) /\
    User_findOne (id acct) w = (inr (Some user), w) /\
    (TwoFactorAuthLib_twoFactorMethodsSupportedByUser d user w = [] ->
     exists codes,
       Datatypes.length codes = 6%nat /\
       codes = recoveryCodesDrawn d w /\
       recoveryCodes response = Some codes /\
       (exists row, userRow (userId user) w' = Some row /\
                    twoFactorAuthRecoveryCodes row = Some (map (crypto_hash d) codes)) /\
       (forall row, In row (Users w') -> userId row = userId user ->
                    twoFactorAuthRecoveryCodes row = Some (map (crypto_hash d) codes))) /\
    (TwoFactorAuthLib_twoFactorMethodsSupportedByUser d user w <> [] ->
     recoveryCodes response = None /\ Users w' = Users w).
Proof.
  intro H. apply addTwoFactor_inv in H.
  destruct H as (acct & user & Hfetch & Hfind & _ & Hfirst & Hlater).
  exists acct, user. split; [exact Hfetch|]. split; [exact Hfind|]. split.
  - intro Hnone. destruct (Hfirst Hnone) as [Hresp Husers].
    exists (recoveryCodesDrawn d w).
    split; [apply recoveryCodesDrawn_length|]. split; [reflexivity|].
    split; [exact Hresp|]. split.
    + unfold userRow. rewrite Husers. apply userRow_updated.
      unfold User_findOne, gets in Hfind. inversion Hfind as [Hf].
      apply find_some in Hf. exact (proj1 Hf).
    + intros row Hin Hid. rewrite Husers in Hin.
      exact (rows_updated _ _ _ _ Hin Hid).
  - exact Hlater.
Qed.

Lemma first_enrollment_recovery_codes_witness :
  exists acct user,
    fetchAccountWithReference AccountFixture.deps
      (addAccount (AccountFixture.enroll Fixture.aliceAccount))
      {| throwIfMissing := false; lock := false |} Fixture.world = inr (Some acct) /\
    User_findOne (id acct) Fixture.world = (inr (Some user), Fixture.world) /\
    (TwoFactorAuthLib_twoFactorMethodsSupportedByUser AccountFixture.deps user
       Fixture.world = [] ->
     exists codes,
       Datatypes.length codes = 6%nat /\
       codes = recoveryCodesDrawn AccountFixture.deps Fixture.world /\
       recoveryCodes AccountFixture.enrollment = Some codes /\
       (exists row, userRow (userId user) AccountFixture.afterEnrollment = Some row /\
                    twoFactorAuthRecoveryCodes row
                    = Some (map (crypto_hash AccountFixture.deps) codes)) /\
       (forall row, In row (Users AccountFixture.afterEnrollment) ->
                    userId row = userId user ->
                    twoFactorAuthRecoveryCodes row
                    = Some (map (crypto_hash AccountFixture.deps) codes))) /\
    (TwoFactorAuthLib_twoFactorMethodsSupportedByUser AccountFixture.deps user
       Fixture.world <> [] ->
     recoveryCodes AccountFixture.enrollment = None /\
     Users AccountFixture.afterEnrollment = Users Fixture.world).
Proof.
  apply (first_enrollment_recovery_codes AccountFixture.deps
           (AccountFixture.enroll Fixture.aliceAccount) AccountFixture.asAlice
           Fixture.world AccountFixture.afterEnrollment AccountFixture.enrollment).
  vm_compute. reflexivity.
Defined.

Section Removal.
Variable d : AccountDeps.

Let validation (req : Request) (w : World) : Error + bool :=
  TwoFactorAuthLib_validateRequest d req
    {| alwaysAskForToken := true; requireTwoFactorAuthEnabled := true |} w.

Lemma removeTwoFactor_run (args : RemoveTwoFactorArgs) (req : Request) (w : World)
      (acct : Collective) (user : User) (m : option UserTwoFactorMethod) :
  fetchAccountWithReference d (rmAccount args)
    {| throwIfMissing := false; lock := false |} w = inr (Some acct) ->
  User_findOne (id acct) w = (inr (Some user), w) ->
  reachesRemoval d args req acct w m ->
  removeTwoFactorAuthTokenFromIndividual d args req w
  = if (Datatypes.length (TwoFactorAuthLib_twoFactorMethodsSupportedByUser d user w)
        =? 0)%nat
    then (inl alreadyDisabled, w)
    else match validation req w with
         | inl e => (inl e, w)
         | inr _ => (inr acct, afterRemoval d args req user m w)
         end.
Proof.
  intros Hfetch Hfind (Hcheck & remote & Hremote & Hadmin & Hm).
  unfold validation, removeTwoFactorAuthTokenFromIndividual, afterRemoval,
    destroyed, alreadyDisabled, methodResolved in *.
  unfold User_findOne, gets in Hfind. inversion Hfind as [Hf]. clear Hfind.
  unfold User_findOne, User_update, Activity_create,
    UserTwoFactorMethod_destroyInstance, UserTwoFactorMethod_destroy,
    setRecoveryCodes.
  unfold bind, throwIf, check, gets, query, modify, throw, ret.
  rewrite Hcheck; cbv beta iota. rewrite Hfetch; cbv beta iota.
  rewrite Hremote; cbv beta iota. rewrite Hadmin; cbn [negb]; cbv beta iota.
  destruct (rmUserTwoFactorMethod args) as [reference|].
  - destruct Hm as (found & Hfound & Howner & ->).
    rewrite Hfound; cbv beta iota.
    rewrite Howner, Z.eqb_refl; cbn [negb]; cbv beta iota.
    rewrite Hf; cbv beta iota.
    destruct (Datatypes.length
                (TwoFactorAuthLib_twoFactorMethodsSupportedByUser d user w) =? 0)%nat;
      [reflexivity|]. cbv beta iota.
    destruct (TwoFactorAuthLib_validateRequest d req _ w); [reflexivity|].
    cbv beta iota zeta. cbn [snd].
    match goal with
    | |- context [(Datatypes.length ?l =? 0)%nat] =>
        destruct (Datatypes.length l =? 0)%nat; reflexivity
    end.
  - subst m. rewrite Hf; cbv beta iota.
    destruct (Datatypes.length
                (TwoFactorAuthLib_twoFactorMethodsSupportedByUser d user w) =? 0)%nat;
      [reflexivity|]. cbv beta iota.
    destruct (TwoFactorAuthLib_validateRequest d req _ w); [reflexivity|].
    cbv beta iota zeta. cbn [snd].
    match goal with
    | |- context [(Datatypes.length ?l =? 0)%nat] =>
        destruct (Datatypes.length l =? 0)%nat; reflexivity
    end.
Qed.

Lemma removeTwoFactor_inv (args : RemoveTwoFactorArgs) (req : Request)
      (w w' : World) (r : Error + Collective) :
  removeTwoFactorAuthTokenFromIndividual d args req w = (r, w') ->
  (exists e, r = inl e /\ w' = w) \/
  (exists acct user m b,
      fetchAccountWithReference d (rmAccount args)
        {| throwIfMissing := false; lock := false |} w = inr (Some acct) /\
      User_findOne (id acct) w = (inr (Some user), w) /\
      reachesRemoval d args req acct w m /\
      TwoFactorAuthLib_twoFactorMethodsSupportedByUser d user w <> [] /\
      validation req w = inr b /\
      r = inr acct /\
      w' = afterRemoval d args req user m w).
Proof.
  unfold validation, removeTwoFactorAuthTokenFromIndividual, afterRemoval,
    destroyed, reachesRemoval, methodResolved.
  unfold User_findOne, User_update, Activity_create,
    UserTwoFactorMethod_destroyInstance, UserTwoFactorMethod_destroy,
    setRecoveryCodes.
  unfold bind, throwIf, check, gets, query, modify, throw, ret.
  intro H.
  repeat (case_scrutinee; cbv beta iota zeta in H).
  all: inversion H; subst; clear H.
  all: try (left; eexists; split; reflexivity).
  all: right; norm_hyps.
  all: do 4 eexists.
  all: split; [reflexivity|].
  all: split; [match goal with
               | Hf : find _ _ = Some _ |- _ => rewrite Hf; reflexivity
               end|].
  all: split; [split; [reflexivity|]; eexists; split; [reflexivity|];
               split; [assumption|];
               first [reflexivity | eexists; repeat split; eassumption]|].
  all: split; [intro Hnone; rewrite Hnone in *; simpl in * |-; discriminate|].
  all: split; [reflexivity|]; split; [reflexivity|].
  all: cbv beta iota zeta; cbn [snd].
  all: match goal with
       | Hl : (Datatypes.length _ =? 0)%nat = _ |- _ => rewrite Hl; reflexivity
       end.
Qed.
End Removal.

(** C9.  For the user of the account, [removeTwoFactorAuthTokenFromIndividual]
    - throws when the user has no enrolled method, leaving the world as it
      was, and the error is the [Unauthorized] error "already disabled" when
      the request got as far as that check;
    - deletes nothing when the validation of the two-factor assertion of
      the request fails: the validation comes before the deletion;
    - once the deletion is done, sets the stored recovery codes of the user
      to [null] when no enrolled method remains, and leaves the stored codes
      alone when one remains. *)
Theorem removal_guarded
        (d : AccountDeps) (args : RemoveTwoFactorArgs) (req : Request) (w : World)
        (acct : Collective) (user : User) :
  fetchAccountWithReference d (rmAccount args)
    {| throwIfMissing := false; lock := false |} w = inr (Some acct) ->
  User_findOne (id acct) w = (inr (Some user), w) ->
  (TwoFactorAuthLib_twoFactorMethodsSupportedByUser d user w = [] ->
   exists e,
     removeTwoFactorAuthTokenFromIndividual d args req w = (inl e, w) /\
     (forall m, reachesRemoval d args req acct w m ->
                e = alreadyDisabled /\ isAuthorizationError e = true)) /\
  (forall e,
      TwoFactorAuthLib_validateRequest d req
        {| alwaysAskForToken := true; requireTwoFactorAuthEnabled := true |} w = inl e ->
      (exists e', removeTwoFactorAuthTokenFromIndividual d args req w = (inl e', w)) /\
      (forall m, reachesRemoval d args req acct w m ->
                 TwoFactorAuthLib_twoFactorMethodsSupportedByUser d user w <> [] ->
                 removeTwoFactorAuthTokenFromIndividual d args req w = (inl e, w))) /\
  (forall m b,
      reachesRemoval d args req acct w m ->
      TwoFactorAuthLib_twoFactorMethodsSupportedByUser d user w <> [] ->
      TwoFactorAuthLib_validateRequest d req
        {| alwaysAskForToken := true; requireTwoFactorAuthEnabled := true |} w = inr b ->
      let w1 := destroyed m user (rmType args) w in
      exists w',
        removeTwoFactorAuthTokenFromIndividual d args req w = (inr acct, w') /\
        UserTwoFactorMethods w' = UserTwoFactorMethods w1 /\
        (TwoFactorAuthLib_twoFactorMethodsSupportedByUser d user w1 = [] ->
         (forall row, In row (Users w') -> userId row = userId user ->
                      twoFactorAuthRecoveryCodes row = None) /\
         (exists row, userRow (userId user) w' = Some row /\
                      twoFactorAuthRecoveryCodes row = None)) /\
        (TwoFactorAuthLib_twoFactorMethodsSupportedByUser d user w1 <> [] ->
         Users w' = Users w)).
Proof.
  intros Hfetch Hfind.
  assert (Hin : In user (Users w)).
  { unfold User_findOne, gets in Hfind. inversion Hfind as [Hf].
    apply find_some in Hf. exact (proj1 Hf). }
  assert (Hzero : forall l : list TwoFactorMethod,
             l <> [] -> (Datatypes.length l =? 0)%nat = false).
  { intros [|x l] Hl; [congruence | reflexivity]. }
  split; [|split].
  - intro Hnone.
    destruct (removeTwoFactorAuthTokenFromIndividual d args req w) as [r w'] eqn:E.
    pose proof E as E'. apply removeTwoFactor_inv in E'.
    destruct E' as [(e & -> & ->) |
                    (acct' & user' & m & b & Hfetch' & Hfind' & _ & Hsome & _)].
    + exists e. split; [reflexivity|]. intros m Hreach.
      rewrite (removeTwoFactor_run d args req w acct user m Hfetch Hfind Hreach) in E.
      rewrite Hnone in E. cbn in E. inversion E. split; reflexivity.
    + exfalso. rewrite Hfetch in Hfetch'. inversion Hfetch'; subst acct'.
      rewrite Hfind in Hfind'. inversion Hfind'; subst user'. contradiction.
  - intros e Hval. split.
    + destruct (removeTwoFactorAuthTokenFromIndividual d args req w) as [r w'] eqn:E.
      apply removeTwoFactor_inv in E.
      destruct E as [(e' & -> & ->) | (acct' & user' & m & b & _ & _ & _ & _ & Hok & _)].
      * exists e'. reflexivity.
      * rewrite Hval in Hok. discriminate.
    + intros m Hreach Hsome.
      rewrite (removeTwoFactor_run d args req w acct user m Hfetch Hfind Hreach).
      rewrite (Hzero _ Hsome), Hval. reflexivity.
  - intros m b Hreach Hsome Hval w1.
    exists (afterRemoval d args req user m w).
    split.
    { rewrite (removeTwoFactor_run d args req w acct user m Hfetch Hfind Hreach).
      rewrite (Hzero _ Hsome), Hval. reflexivity. }
    unfold afterRemoval. fold w1. cbv zeta.
    assert (Husers : Users w1 = Users w) by (unfold w1, destroyed; destruct m; reflexivity).
    split; [|split].
    + destruct (Datatypes.length _ =? 0)%nat; reflexivity.
    + intro Hnone. rewrite Hnone. cbn [Datatypes.length Nat.eqb].
      cbn [Users setActivities setUsers]. rewrite Husers. split.
      * intros row Hrow Hid. exact (rows_updated _ _ _ _ Hrow Hid).
      * unfold userRow. cbn [Users setActivities setUsers]. rewrite ?Husers.
        apply userRow_updated, Hin.
    + intro Hrem. rewrite (Hzero _ Hrem). cbn [Users setActivities]. exact Husers.
Qed.

Lemma removal_guarded_witness :
  (exists e,
      removeTwoFactorAuthTokenFromIndividual AccountFixture.deps
        (AccountFixture.removeAll Fixture.aliceAccount) AccountFixture.asAlice
        Fixture.world = (inl e, Fixture.world) /\
      (forall m,
          reachesRemoval AccountFixture.deps
            (AccountFixture.removeAll Fixture.aliceAccount) AccountFixture.asAlice
            Fixture.aliceAccount Fixture.world m ->
          e = alreadyDisabled /\ isAuthorizationError e = true)) /\
  (exists w',
      removeTwoFactorAuthTokenFromIndividual AccountFixture.deps
        (AccountFixture.removeAll Fixture.bobAccount) AccountFixture.asBob
        Fixture.world = (inr Fixture.bobAccount, w') /\
      UserTwoFactorMethods w' = [] /\
      exists row, userRow 12 w' = Some row /\ twoFactorAuthRecoveryCodes row = None).
Proof.
  split.
  - destruct (removal_guarded AccountFixture.deps
                (AccountFixture.removeAll Fixture.aliceAccount) AccountFixture.asAlice
                Fixture.world Fixture.aliceAccount Fixture.alice eq_refl eq_refl)
      as (Hzero & _ & _).
    apply Hzero. reflexivity.
  - destruct (removal_guarded AccountFixture.deps
                (AccountFixture.removeAll Fixture.bobAccount) AccountFixture.asBob
                Fixture.world Fixture.bobAccount Fixture.bob eq_refl eq_refl)
      as (_ & _ & Hremove).
    destruct (Hremove None true) as (w' & Hrun & Hmethods & Hcleared & _).
    + split; [reflexivity|]. exists Fixture.bob. repeat split; reflexivity.
    + vm_compute. discriminate.
    + reflexivity.
    + exists w'. split; [exact Hrun|]. split; [exact Hmethods|].
      apply Hcleared. reflexivity.
Defined.

(* ================================================================== *)
(** * Further properties of orders and refunds                          *)
(* ================================================================== *)

(** X1.  [processOrder] succeeds only for an active payer that pays with its
    own payment method, to a recipient of the same fiscal host, out of a
    balance that covers the total. *)
Theorem processOrder_only_for_valid_orders
        (d : PaymentDeps) (order : Order) (w w' : World)
        (transactions : list Transaction) :
  processOrder d order w = (inr transactions, w') ->
  isActive (fromCollective order) = true /\
  pmCollectiveId (paymentMethod order) = Some (id (fromCollective order)) /\
  (exists h, hostIdOf d (fromCollective order) w = Some h /\
             hostIdOf d (collective order) w = Some h) /\
  exists payerAccount,
    PaymentMethod_getCollective d (paymentMethod order) w = inr payerAccount /\
    (totalAmount order <= Collective_getBalance d payerAccount w)%Q.
Proof.
  intro H. apply processOrder_accepted in H.
  destruct H as ((Hactive & Hpm & Hhosts) & acct & fx & p & Hacct & Hbal & _).
  split; [exact Hactive|]. split; [exact Hpm|]. split; [exact Hhosts|].
  exists acct. split; [exact Hacct|]. apply Qltb_ge. exact Hbal.
Qed.

Lemma processOrder_only_for_valid_orders_witness :
  isActive Fixture.payer = true /\
  pmCollectiveId Fixture.card = Some (id Fixture.payer) /\
  (exists h, hostIdOf Fixture.deps Fixture.payer Fixture.world = Some h /\
             hostIdOf Fixture.deps Fixture.recipient Fixture.world = Some h) /\
  exists payerAccount,
    PaymentMethod_getCollective Fixture.deps Fixture.card Fixture.world
      = inr payerAccount /\
    (5000 # 1 <= Collective_getBalance Fixture.deps payerAccount Fixture.world)%Q.
Proof.
  apply (processOrder_only_for_valid_orders Fixture.deps Fixture.contribution
           Fixture.world Fixture.afterOrder Fixture.created).
  vm_compute. reflexivity.
Defined.




Lemma get_feeOnTop_withPlatformFee_zero (order : Order) (fee : Q) :
  isZero fee = true ->
  get_feeOnTop (withPlatformFee order (Some fee)) = 0%Q /\
  get_feeOnTop (withPlatformFee order None) = 0%Q.
Proof.
  intro Hz. unfold get_feeOnTop, withPlatformFee. simpl.
  destruct (orData order); simpl; [rewrite Hz|]; split; reflexivity.
Qed.

(** X3.  A fee on top of zero counts as no fee on top: an order whose
    [data.platformFee] is zero is processed exactly as the same order
    without [data.platformFee], so its platform fee is the percentage. *)
Theorem processOrder_zero_fee_on_top
        (d : PaymentDeps) (order : Order) (fee : Q) (w : World) :
  (fee == 0)%Q ->
  processOrder d (withPlatformFee order (Some fee)) w
  = processOrder d (withPlatformFee order None) w.
Proof.
  intro Hz.
  assert (Hz' : isZero fee = true) by (apply Qeq_bool_iff; exact Hz).
  destruct (get_feeOnTop_withPlatformFee_zero order fee Hz') as [E1 E2].
  unfold processOrder at 1 2.
  rewrite E1, E2.
  unfold get_hostFeePercent, get_platformFeePercent, get_isFeesOnTop, withPlatformFee.
  simpl. destruct (orData order); reflexivity.
Qed.

Lemma processOrder_zero_fee_on_top_witness :
  processOrder Fixture.deps
    (withPlatformFee Fixture.contribution (Some (0 # 5))) Fixture.world
  = processOrder Fixture.deps (withPlatformFee Fixture.contribution None) Fixture.world.
Proof.
  apply (processOrder_zero_fee_on_top Fixture.deps Fixture.contribution (0 # 5)
           Fixture.world).
  reflexivity.
Defined.

(** X4.  A refund is refused, with the world left as it was, when the payer
    of the transaction has no fiscal host ([HostCollectiveId] is [null] or
    [0]), whatever the recipient is. *)
Theorem refundTransaction_without_host
        (d : PaymentDeps) (t : Transaction) (user : User) (w : World)
        (payer : Collective) :
  fst (refundSides t w) = Some payer ->
  falsyId (HostCollectiveId payer) = true ->
  refundTransaction d t user w = (inl refundWithoutHost, w).
Proof.
  intros Hside Hfalsy.
  unfold refundSides in Hside.
  unfold refundTransaction, Collective_findByPk. unfold_monad.
  destruct (isCredit (txType t)); simpl in Hside; rewrite Hside, Hfalsy; reflexivity.
Qed.

Lemma refundTransaction_without_host_witness :
  refundTransaction Fixture.deps MoreFixture.gift Fixture.alice Fixture.world
  = (inl refundWithoutHost, Fixture.world).
Proof.
  apply (refundTransaction_without_host Fixture.deps MoreFixture.gift Fixture.alice
           Fixture.world Fixture.aliceAccount).
  - reflexivity.
  - reflexivity.
Defined.

(** X5.  A refund is refused, with the world left as it was, when the
    balance of the recipient of the transaction is below the amount of the
    transaction. *)
Theorem refundTransaction_insufficient_funds
        (d : PaymentDeps) (t : Transaction) (user : User) (w : World)
        (payer recipient : Collective) :
  refundSides t w = (Some payer, Some recipient) ->
  (Collective_getBalance d recipient w < amount t)%Q ->
  exists e, refundTransaction d t user w = (inl e, w).
Proof.
  intros Hsides Hlt.
  destruct (refundTransaction d t user w) as [r w'] eqn:E.
  apply refundTransaction_inv in E.
  destruct E as [(e & -> & ->) | (f & c & Hs & _ & _ & Hbal & _)].
  - eauto.
  - exfalso. rewrite Hsides in Hs. inversion Hs; subst.
    apply Qltb_ge in Hbal. exact (Qlt_not_le _ _ Hlt Hbal).
Qed.

Lemma refundTransaction_insufficient_funds_witness :
  exists e,
    refundTransaction Fixture.deps Fixture.funding Fixture.alice
      MoreFixture.emptyLedger = (inl e, MoreFixture.emptyLedger).
Proof.
  apply (refundTransaction_insufficient_funds Fixture.deps Fixture.funding
           Fixture.alice MoreFixture.emptyLedger Fixture.host Fixture.payer).
  - reflexivity.
  - vm_compute. reflexivity.
Defined.

(* ================================================================== *)
(** * Further properties of the fee structure and of freezing           *)
(* ================================================================== *)

(** X6.  [editAccountFeeStructure] commits only when the token has the
    "host" scope, the account is hosted, the caller is an administrator of
    its host and the account is approved. *)
Theorem editAccountFeeStructure_only_for_host_admins
        (d : AccountDeps) (args : EditAccountFeeStructureArgs) (req : Request)
        (w w' : World) (updated : Collective) :
  editAccountFeeStructure d args req w = (inr updated, w') ->
  checkRemoteUserCanUseHost d req = None /\
  exists account remote,
    fetchAccountWithReference d (feeAccount args)
      {| throwIfMissing := true; lock := true |} w = inr (Some account) /\
    remoteUser req = Some remote /\
    falsyId (HostCollectiveId account) = false /\
    User_isAdmin d remote (HostCollectiveId account) = true /\
    approvedAt account <> None.
Proof.
  intro H. apply editAccountFeeStructure_inv in H.
  destruct H as [(e & He & _) |
                 (account & remote & Hcheck & Hfetch & Hremote & Hadmin & Hhost
                  & Happroved & _)]; [discriminate|].
  split; [exact Hcheck|]. exists account, remote. repeat split; assumption.
Qed.

Lemma editAccountFeeStructure_only_for_host_admins_witness :
  checkRemoteUserCanUseHost AccountFixture.deps AccountFixture.asAlice = None /\
  exists account remote,
    fetchAccountWithReference AccountFixture.deps
      (feeAccount (AccountFixture.feeArgs true))
      {| throwIfMissing := true; lock := true |} Fixture.world = inr (Some account) /\
    remoteUser AccountFixture.asAlice = Some remote /\
    falsyId (HostCollectiveId account) = false /\
    User_isAdmin AccountFixture.deps remote (HostCollectiveId account) = true /\
    approvedAt account <> None.
Proof.
  apply (editAccountFeeStructure_only_for_host_admins AccountFixture.deps
           (AccountFixture.feeArgs true) AccountFixture.asAlice Fixture.world
           (snd (editAccountFeeStructure AccountFixture.deps
                   (AccountFixture.feeArgs true) AccountFixture.asAlice
                   Fixture.world))
           (withFees Fixture.recipient (Some (75 # 10))
              (spreadUseCustomHostFee (data Fixture.recipient) true))).
  vm_compute. reflexivity.
Defined.

Section FeeFrame.
Variables (p : option Q) (flag : bool).

Lemma updateFeesRow_columns (instance row : Collective) :
  sameOtherColumns row (updateFeesRow p flag instance row).
Proof.
  unfold updateFeesRow, sameOtherColumns.
  destruct (id row =? id instance); repeat split; reflexivity.
Qed.

Lemma cascadeRow_columns (instances : list Collective) (row : Collective) :
  sameOtherColumns row (cascadeRow p flag instances row).
Proof.
  revert row. induction instances as [|c cs IH]; intro row.
  - unfold sameOtherColumns. repeat split; reflexivity.
  - unfold cascadeRow in *. simpl.
    specialize (IH (updateFeesRow p flag c row)).
    pose proof (updateFeesRow_columns c row) as Hc.
    unfold sameOtherColumns in *.
    repeat match goal with H : _ /\ _ |- _ => destruct H end.
    repeat split; congruence.
Qed.

Lemma updateFeesRow_miss (instance row : Collective) :
  id row <> id instance -> updateFeesRow p flag instance row = row.
Proof.
  intro H. unfold updateFeesRow.
  destruct (id row =? id instance) eqn:E; [|reflexivity].
  apply Z.eqb_eq in E. contradiction.
Qed.
End FeeFrame.

(** X7.  A committed [editAccountFeeStructure] touches the Collectives table
    and the audit log only: no row is added, removed or moved; every row
    keeps every column other than [hostFeePercent] and [data]; the rows that
    are neither the account nor one of its children are left as they were;
    and the users, the two-factor methods and the ledger are left as they
    were. *)
Theorem editAccountFeeStructure_frame
        (d : AccountDeps) (args : EditAccountFeeStructureArgs) (req : Request)
        (w w' : World) (updated : Collective) :
  editAccountFeeStructure d args req w = (inr updated, w') ->
  Users w' = Users w /\
  UserTwoFactorMethods w' = UserTwoFactorMethods w /\
  Transactions w' = Transactions w /\
  exists account applied (change : Collective -> Collective),
    fetchAccountWithReference d (feeAccount args)
      {| throwIfMissing := true; lock := true |} w = inr (Some account) /\
    Collectives w' = map change (Collectives w) /\
    (forall row, sameOtherColumns row (change row)) /\
    (forall row,
        id row <> id account ->
        (forall child, In child (cascadeChildren d args account applied w) ->
                       id row <> id child) ->
        change row = row).
Proof.
  intro H. apply editAccountFeeStructure_inv in H.
  destruct H as [(e & He & _) |
                 (account & remote & _ & Hfetch & _ & _ & _ & _ & _ & H)];
    [discriminate|].
  cbv zeta in H. destruct H as [_ ->].
  set (applied := appliedHostFeePercent args
                    (findCollective (HostCollectiveId account) w)).
  split; [reflexivity|]. split; [reflexivity|]. split; [reflexivity|].
  exists account, applied,
    (fun row => cascadeRow applied (isCustomFee args)
                  (cascadeChildren d args account applied w)
                  (updateFeesRow applied (isCustomFee args) account row)).
  split; [exact Hfetch|]. split; [|split].
  - unfold afterFeeEdit. simpl. rewrite map_map. reflexivity.
  - intro row.
    pose proof (updateFeesRow_columns applied (isCustomFee args) account row) as H1.
    pose proof (cascadeRow_columns applied (isCustomFee args)
                  (cascadeChildren d args account applied w)
                  (updateFeesRow applied (isCustomFee args) account row)) as H2.
    unfold sameOtherColumns in *.
    repeat match goal with H : _ /\ _ |- _ => destruct H end.
    repeat split; congruence.
  - intros row Hacct Hchildren.
    rewrite (updateFeesRow_miss applied (isCustomFee args) account row Hacct).
    apply cascadeRow_miss. exact Hchildren.
Qed.

Lemma editAccountFeeStructure_frame_witness :
  Users (snd (editAccountFeeStructure AccountFixture.deps
                (AccountFixture.feeArgs true) AccountFixture.asAlice Fixture.world))
    = Users Fixture.world /\
  UserTwoFactorMethods
    (snd (editAccountFeeStructure AccountFixture.deps
            (AccountFixture.feeArgs true) AccountFixture.asAlice Fixture.world))
    = UserTwoFactorMethods Fixture.world /\
  Transactions (snd (editAccountFeeStructure AccountFixture.deps
                       (AccountFixture.feeArgs true) AccountFixture.asAlice
                       Fixture.world))
    = Transactions Fixture.world /\
  exists account applied (change : Collective -> Collective),
    fetchAccountWithReference AccountFixture.deps
      (feeAccount (AccountFixture.feeArgs true))
      {| throwIfMissing := true; lock := true |} Fixture.world = inr (Some account) /\
    Collectives (snd (editAccountFeeStructure AccountFixture.deps
                        (AccountFixture.feeArgs true) AccountFixture.asAlice
                        Fixture.world))
      = map change (Collectives Fixture.world) /\
    (forall row, sameOtherColumns row (change row)) /\
    (forall row,
        id row <> id account ->
        (forall child,
            In child (cascadeChildren AccountFixture.deps
                        (AccountFixture.feeArgs true) account applied Fixture.world) ->
            id row <> id child) ->
        change row = row).
Proof.
  apply (editAccountFeeStructure_frame AccountFixture.deps
           (AccountFixture.feeArgs true) AccountFixture.asAlice Fixture.world
           (snd (editAccountFeeStructure AccountFixture.deps
                   (AccountFixture.feeArgs true) AccountFixture.asAlice
                   Fixture.world))
           (withFees Fixture.recipient (Some (75 # 10))
              (spreadUseCustomHostFee (data Fixture.recipient) true))).
  vm_compute. reflexivity.
Defined.

(** X8.  A committed [editAccountFeeStructure] appends exactly one audit
    row: a COLLECTIVE_EDITED activity of the caller on the account, under
    the host of the account, whose previous data are the host fee percent
    and the custom-fee flag the account had before the edit; and the
    account it returns keeps the other keys of its [data]. *)
Theorem editAccountFeeStructure_audit
        (d : AccountDeps) (args : EditAccountFeeStructureArgs) (req : Request)
        (w w' : World) (updated : Collective) :
  editAccountFeeStructure d args req w = (inr updated, w') ->
  exists account remote activity,
    fetchAccountWithReference d (feeAccount args)
      {| throwIfMissing := true; lock := true |} w = inr (Some account) /\
    remoteUser req = Some remote /\
    Activities w' = (Activities w ++ [activity])%list /\
    actType activity = COLLECTIVE_EDITED /\
    actUserId activity = userId remote /\
    actUserTokenId activity = userToken req /\
    actCollectiveId activity = Some (id account) /\
    actHostCollectiveId activity = HostCollectiveId account /\
    actData activity
      = FeeStructureEdit
          {| fsHostFeePercent := hostFeePercent account;
             fsUseCustomHostFee := data_useCustomHostFee (data account) |}
          {| fsHostFeePercent := argHostFeePercent args;
             fsUseCustomHostFee := isCustomFee args |} /\
    data_otherData (data updated) = data_otherData (data account) /\
    sameOtherColumns account updated.
Proof.
  intro H. apply editAccountFeeStructure_inv in H.
  destruct H as [(e & He & _) |
                 (account & remote & _ & Hfetch & Hremote & _ & _ & _ & _ & H)];
    [discriminate|].
  cbv zeta in H. destruct H as [Hupd ->]. inversion Hupd; subst updated.
  exists account, remote, (feeEditActivity args req remote account).
  split; [exact Hfetch|]. split; [exact Hremote|].
  unfold afterFeeEdit, feeEditActivity, sameOtherColumns. simpl.
  repeat split; reflexivity.
Qed.

Lemma editAccountFeeStructure_audit_witness :
  exists account remote activity,
    fetchAccountWithReference AccountFixture.deps
      (feeAccount (AccountFixture.feeArgs true))
      {| throwIfMissing := true; lock := true |} Fixture.world = inr (Some account) /\
    remoteUser AccountFixture.asAlice = Some remote /\
    Activities (snd (editAccountFeeStructure AccountFixture.deps
                       (AccountFixture.feeArgs true) AccountFixture.asAlice
                       Fixture.world))
      = (Activities Fixture.world ++ [activity])%list /\
    actType activity = COLLECTIVE_EDITED /\
    actUserId activity = userId remote /\
    actUserTokenId activity = Some 51 /\
    actCollectiveId activity = Some (id account) /\
    actHostCollectiveId activity = HostCollectiveId account /\
    actData activity
      = FeeStructureEdit
          {| fsHostFeePercent := hostFeePercent account;
             fsUseCustomHostFee := data_useCustomHostFee (data account) |}
          {| fsHostFeePercent := 75 # 10; fsUseCustomHostFee := true |} /\
    data_otherData
      (data (withFees Fixture.recipient (Some (75 # 10))
               (spreadUseCustomHostFee (data Fixture.recipient) true)))
      = data_otherData (data account) /\
    sameOtherColumns account
      (withFees Fixture.recipient (Some (75 # 10))
         (spreadUseCustomHostFee (data Fixture.recipient) true)).
Proof.
  apply (editAccountFeeStructure_audit AccountFixture.deps
           (AccountFixture.feeArgs true) AccountFixture.asAlice Fixture.world
           (snd (editAccountFeeStructure AccountFixture.deps
                   (AccountFixture.feeArgs true) AccountFixture.asAlice
                   Fixture.world))
           (withFees Fixture.recipient (Some (75 # 10))
              (spreadUseCustomHostFee (data Fixture.recipient) true))).
  vm_compute. reflexivity.
Defined.

Lemma editAccountFreezeStatus_inv (d : AccountDeps) (args : EditAccountFreezeStatusArgs)
      (req : Request) (w w' : World) (r : Error + Collective) :
  editAccountFreezeStatus d args req w = (r, w') ->
  (exists e, r = inl e /\ w' = w) \/
  (exists account,
      fetchAccountWithReference d (freezeAccount args)
        {| throwIfMissing := true; lock := false |} w = inr (Some account) /\
      authorizedForHost d req account w /\
      isCollectiveOrFund (type account) = true /\
      (match action args with
       | FREEZE => Collective_freeze d account (freezeMessage args)
       | UNFREEZE => Collective_unfreeze d account (freezeMessage args)
       end ;; Collective_reload account) w = (r, w')).
Proof.
  intro H.
  destruct (checkRemoteUserCanUseHost d req) as [e|] eqn:Hcheck.
  { unfold editAccountFreezeStatus in H. unfold bind at 1, check in H.
    rewrite Hcheck in H. unfold throw in H. inversion H. left. eauto. }
  destruct (fetchAccountWithReference d (freezeAccount args)
              {| throwIfMissing := true; lock := false |} w) as [e|[account|]] eqn:Hfetch.
  1,3: unfold editAccountFreezeStatus in H; unfold bind, check, query, throw, ret in H;
       rewrite Hcheck, Hfetch in H; inversion H; left; eauto.
  destruct (Account_getHostCollective d account w) as [h|] eqn:Hhost.
  2:{ unfold editAccountFreezeStatus in H.
      unfold bind, check, gets, query, throw, ret in H.
      rewrite Hcheck, Hfetch, Hhost in H. inversion H. left. eauto. }
  destruct (remoteUser req) as [remote|] eqn:Hremote.
  2:{ unfold editAccountFreezeStatus in H.
      unfold bind, check, gets, query, throw, ret in H.
      rewrite Hcheck, Hfetch, Hhost, Hremote in H. inversion H. left. eauto. }
  destruct (User_isAdminOfCollective d remote (Some h)) eqn:Hadmin.
  2:{ rewrite (editAccountFreezeStatus_unauthorized d args req w account h remote
                 Hfetch Hcheck Hhost Hremote Hadmin) in H.
      inversion H. left. eauto. }
  assert (Hauth : authorizedForHost d req account w).
  { split; [exact Hcheck|]. exists h, remote. repeat split; assumption. }
  destruct (isCollectiveOrFund (type account)) eqn:Htype.
  - right. exists account.
    split; [reflexivity|]. split; [exact Hauth|]. split; [exact Htype|].
    rewrite <- H. symmetry.
    apply editAccountFreezeStatus_performs; assumption.
  - destruct (editAccountFreezeStatus_rejects d args req w account Hfetch Htype)
      as (e & He & _).
    rewrite He in H. inversion H. left. eauto.
Qed.

(** X9.  [editAccountFreezeStatus] either throws with the world as it
    was, or gets to [freeze] or [unfreeze]; it gets there only for an
    authorized caller and a collective or a fund, and its result is then
    the one of the freeze or unfreeze followed by the reload. *)
Theorem editAccountFreezeStatus_guarded
        (d : AccountDeps) (args : EditAccountFreezeStatusArgs) (req : Request)
        (w w' : World) (r : Error + Collective) :
  editAccountFreezeStatus d args req w = (r, w') ->
  (exists e, r = inl e /\ w' = w) \/
  (exists account,
      fetchAccountWithReference d (freezeAccount args)
        {| throwIfMissing := true; lock := false |} w = inr (Some account) /\
      authorizedForHost d req account w /\
      isCollectiveOrFund (type account) = true /\
      (match action args with
       | FREEZE => Collective_freeze d account (freezeMessage args)
       | UNFREEZE => Collective_unfreeze d account (freezeMessage args)
       end ;; Collective_reload account) w = (r, w')).
Proof.
  intro H. destruct (editAccountFreezeStatus_inv d args req w w' r H) as [Hthrown | Hdone].
  - left. exact Hthrown.
  - right. exact Hdone.
Qed.

Lemma editAccountFreezeStatus_guarded_witness :
  (exists e,
      editAccountFreezeStatus AccountFixture.deps
        (AccountFixture.freezeArgs Fixture.event FREEZE) AccountFixture.asAlice
        Fixture.world = (inl e, Fixture.world)) /\
  (exists account,
      fetchAccountWithReference AccountFixture.deps
        (freezeAccount (AccountFixture.freezeArgs Fixture.recipient FREEZE))
        {| throwIfMissing := true; lock := false |} Fixture.world = inr (Some account) /\
      authorizedForHost AccountFixture.deps AccountFixture.asAlice account Fixture.world /\
      isCollectiveOrFund (type account) = true /\
      (Collective_freeze AccountFixture.deps account None ;; Collective_reload account)
        Fixture.world
      = editAccountFreezeStatus AccountFixture.deps
          (AccountFixture.freezeArgs Fixture.recipient FREEZE) AccountFixture.asAlice
          Fixture.world).
Proof.
  split.
  - destruct (editAccountFreezeStatus_guarded AccountFixture.deps
                (AccountFixture.freezeArgs Fixture.event FREEZE) AccountFixture.asAlice
                Fixture.world
                (snd (editAccountFreezeStatus AccountFixture.deps
                        (AccountFixture.freezeArgs Fixture.event FREEZE)
                        AccountFixture.asAlice Fixture.world))
                (fst (editAccountFreezeStatus AccountFixture.deps
                        (AccountFixture.freezeArgs Fixture.event FREEZE)
                        AccountFixture.asAlice Fixture.world))
                (surjective_pairing _))
      as [(e & He & Hw) | (account & Hfetch & _ & Htype & _)].
    + exists e. rewrite <- He, <- Hw. apply surjective_pairing.
    + vm_compute in Hfetch. inversion Hfetch; subst account.
      vm_compute in Htype. discriminate Htype.
  - destruct (editAccountFreezeStatus_guarded AccountFixture.deps
                (AccountFixture.freezeArgs Fixture.recipient FREEZE)
                AccountFixture.asAlice Fixture.world
                (snd (editAccountFreezeStatus AccountFixture.deps
                        (AccountFixture.freezeArgs Fixture.recipient FREEZE)
                        AccountFixture.asAlice Fixture.world))
                (fst (editAccountFreezeStatus AccountFixture.deps
                        (AccountFixture.freezeArgs Fixture.recipient FREEZE)
                        AccountFixture.asAlice Fixture.world))
                (surjective_pairing _))
      as [(e & He & _) | H].
    + vm_compute in He. discriminate He.
    + exact H.
Defined.

(* ================================================================== *)
(** * The check of the TOTP secret                                      *)
(* ================================================================== *)

Lemma startsWithBase32_le (n m : nat) (s : string) :
  (m <= n)%nat -> startsWithBase32 n s = true -> startsWithBase32 m s = true.
Proof.
  revert m s. induction n as [|n IH]; intros m s Hle H.
  - replace m with 0%nat by lia. reflexivity.
  - destruct m as [|m]; [reflexivity|].
    destruct s as [|ch s]; [discriminate|]. simpl in *.
    apply andb_true_iff in H. destruct H as [Hc Hs].
    rewrite Hc. simpl. apply (IH m s); [lia | exact Hs].
Qed.

Lemma dropChars_empty (k : nat) : dropChars k EmptyString = EmptyString.
Proof. destruct k; reflexivity. Qed.

Lemma hasBase32Window_tail (n : nat) (ch : Ascii.ascii) (s : string) :
  hasBase32Window n s -> hasBase32Window n (String ch s).
Proof. intros [k Hk]. exists (S k). exact Hk. Qed.

Lemma hasBase32Window_here (n : nat) (s : string) :
  startsWithBase32 n s = true -> hasBase32Window n s.
Proof. intro H. exists 0%nat. exact H. Qed.

Lemma base32Run_spec (n : nat) (s : string) :
  forall left, (left <= n)%nat ->
    (base32Run n left s = true <->
     startsWithBase32 left s = true \/ hasBase32Window n s).
Proof.
  induction s as [|ch s IH]; intros left Hle.
  - destruct left as [|left]; simpl.
    + split; [left; reflexivity | reflexivity].
    + split; [discriminate|].
      intros [H | [k Hk]]; [discriminate|].
      rewrite dropChars_empty in Hk.
      destruct n as [|n]; [lia | discriminate].
  - destruct left as [|left]; simpl.
    + split; [left; reflexivity | reflexivity].
    + destruct (isBase32Char ch) eqn:Hch; simpl.
      * rewrite (IH left) by lia. split.
        -- intros [H | H]; [left; exact H | right; apply hasBase32Window_tail, H].
        -- intros [H | [k Hk]]; [left; exact H|].
           destruct k as [|k].
           ++ left. destruct n as [|n]; [lia|]. simpl in Hk.
              apply andb_true_iff in Hk. destruct Hk as [_ Hs].
              apply (startsWithBase32_le n left s); [lia | exact Hs].
           ++ right. exists k. exact Hk.
      * rewrite (IH n) by lia. split.
        -- intros [H | H]; right; apply hasBase32Window_tail;
             [apply hasBase32Window_here, H | exact H].
        -- intros [H | [k Hk]]; [discriminate|].
           destruct k as [|k].
           ++ destruct n as [|n]; [lia|]. simpl in Hk. rewrite Hch in Hk. discriminate.
           ++ right. exists k. exact Hk.
Qed.

Lemma verifyToken_window (tk : string) :
  verifyToken tk = true <-> hasBase32Window 103 tk.
Proof.
  unfold verifyToken. rewrite (base32Run_spec 103 tk 103 (le_n _)). split.
  - intros [H | H]; [apply hasBase32Window_here, H | exact H].
  - intro H. right. exact H.
Qed.

(** X10.  The check of the TOTP secret accepts a token exactly when 103
    characters of [A-Z2-7] occur in a row somewhere in it: the scan that
    counts the current run of such characters finds what the regular
    expression matches. *)
Theorem verifyToken_spec (tk : string) :
  verifyToken tk = true
  <-> exists k, startsWithBase32 103 (dropChars k tk) = true.
Proof.
  exact (verifyToken_window tk).
Qed.

Lemma startsWithBase32_app (n : nat) (s q : string) :
  startsWithBase32 n s = true -> startsWithBase32 n (s ++ q) = true.
Proof.
  revert s. induction n as [|n IH]; intros s H; [reflexivity|].
  destruct s as [|ch s]; [discriminate|]. simpl in *.
  apply andb_true_iff in H. destruct H as [Hc Hs].
  rewrite Hc. simpl. apply IH, Hs.
Qed.

Lemma startsWithBase32_drop_app (n k : nat) (s q : string) :
  startsWithBase32 n (dropChars k s) = true ->
  startsWithBase32 n (dropChars k (s ++ q)) = true.
Proof.
  revert s. induction k as [|k IH]; intros s H.
  - simpl in *. apply startsWithBase32_app, H.
  - destruct s as [|ch s].
    + simpl in H. destruct n; [reflexivity | discriminate].
    + simpl in *. apply IH, H.
Qed.

Lemma dropChars_app (p s : string) (k : nat) :
  dropChars (String.length p + k) (p ++ s) = dropChars k s.
Proof.
  induction p as [|ch p IH]; [reflexivity|]. simpl. exact IH.
Qed.

Lemma startsWithBase32_length (n : nat) (s : string) :
  startsWithBase32 n s = true -> (n <= String.length s)%nat.
Proof.
  revert s. induction n as [|n IH]; intros s H; [lia|].
  destruct s as [|ch s]; [discriminate|]. simpl in *.
  apply andb_true_iff in H. destruct H as [_ Hs]. apply IH in Hs. lia.
Qed.

Lemma dropChars_length (k : nat) (s : string) :
  (String.length (dropChars k s) <= String.length s)%nat.
Proof.
  revert s. induction k as [|k IH]; intro s; [simpl; lia|].
  destruct s as [|ch s]; simpl; [lia|]. specialize (IH s). lia.
Qed.

(** X11.  The check of the TOTP secret is not anchored: a token that is
    accepted stays accepted with any text before and after it, so the
    length of the token is not bounded above; and no token of fewer than
    103 characters is accepted. *)
Theorem verifyToken_unanchored (tk : string) :
  (verifyToken tk = true ->
   forall before after, verifyToken (before ++ tk ++ after) = true) /\
  ((String.length tk < 103)%nat -> verifyToken tk = false).
Proof.
  split.
  - intros H before after. apply verifyToken_window in H. destruct H as [k Hk].
    apply verifyToken_window. exists (String.length before + k)%nat.
    rewrite dropChars_app. apply startsWithBase32_drop_app, Hk.
  - intro Hshort. destruct (verifyToken tk) eqn:E; [|reflexivity].
    apply verifyToken_window in E. destruct E as [k Hk].
    apply startsWithBase32_length in Hk.
    pose proof (dropChars_length k tk). lia.
Qed.

Lemma verifyToken_unanchored_witness :
  verifyToken ("otpauth://" ++ MoreFixture.secret 103 ++ "=") = true /\
  verifyToken (MoreFixture.secret 102) = false.
Proof.
  destruct (verifyToken_unanchored (MoreFixture.secret 103)) as [Hpad _].
  destruct (verifyToken_unanchored (MoreFixture.secret 102)) as [_ Hshort].
  split.
  - apply Hpad. vm_compute. reflexivity.
  - apply Hshort. vm_compute. lia.
Defined.

(* ================================================================== *)
(** * Further properties of the two-factor mutations                    *)
(* ================================================================== *)

Lemma addTwoFactor_cases (d : AccountDeps) (args : AddTwoFactorArgs) (req : Request)
      (w w' : World) (r : Error + AddTwoFactorResponse) :
  addTwoFactorAuthTokenToIndividual d args req w = (r, w') ->
  (exists e, r = inl e /\ w' = w) \/
  (exists acct user remote row response,
      r = inr response /\
      checkRemoteUserCanUseAccount d req = None /\
      fetchAccountWithReference d (addAccount args)
        {| throwIfMissing := false; lock := false |} w = inr (Some acct) /\
      remoteUser req = Some remote /\
      User_isAdminOfCollective d remote (Some acct) = true /\
      User_findOne (id acct) w = (inr (Some user), w) /\
      (TwoFactorAuthLib_twoFactorMethodsSupportedByUser d user w <> [] ->
       exists b,
         TwoFactorAuthLib_validateRequest d req
           {| alwaysAskForToken := true; requireTwoFactorAuthEnabled := false |} w
         = inr b) /\
      UserTwoFactorMethods w' = (UserTwoFactorMethods w ++ [row])%list /\
      methodId row = nextMethodId (UserTwoFactorMethods w) /\
      methodUserId row = userId user /\
      method row = requestedMethod args /\
      match method row with
      | TOTP =>
          verifyToken (token args) = true /\
          methodName row = "Authenticator" /\
          methodData row = SecretData (crypto_encrypt d (token args))
      | YUBIKEY_OTP =>
          validateYubikeyOTP d (token args) w = inr true /\
          methodName row = "Yubikey " ++ substring 0 12 (token args) /\
          methodData row = YubikeyData (substring 0 12 (token args))
      | WEBAUTHN =>
          exists registration verified device,
            parseRegistrationResult d (token args) = inr registration /\
            webauthn_verifyRegistrationResponse d user req registration w
              = inr verified /\
            webauthn_getWebauthDeviceData d verified w = inr device /\
            methodName row = orString (description device) "U2F device" /\
            methodData row = DeviceData device
      | RECOVERY_CODE => False
      end /\
      Activities w' = (Activities w ++ [methodAddedActivity user])%list /\
      Collectives w' = Collectives w /\
      Transactions w' = Transactions w /\
      account response = acct).
Proof.
  unfold addTwoFactorAuthTokenToIndividual, User_findOne, User_update,
    UserTwoFactorMethod_create, Activity_create, drawRandomString,
    requestedMethod, methodAddedActivity.
  unfold replicateM.
  unfold bind, throwIf, check, gets, query, modify, throw, ret.
  intro H.
  repeat (case_scrutinee; cbv beta iota zeta in H).
  all: inversion H; subst; clear H.
  all: try (left; eexists; split; reflexivity).
  all: right; norm_hyps.
  all: repeat match goal with
              | Hb : ?x = true |- _ => is_var x; subst x
              end.
  all: do 5 eexists.
  all: split; [reflexivity|]; split; [reflexivity|]; split; [reflexivity|].
  all: split; [reflexivity|]; split; [assumption|].
  all: split; [match goal with
               | Hf : find _ _ = Some _ |- _ => rewrite Hf; reflexivity
               end|].
  all: split;
    [intro Hsome;
     first [ eexists; reflexivity
           | eexists; eassumption
           | exfalso; apply Hsome;
             match goal with
             | Hl : (0 <? Z.of_nat (Datatypes.length ?m)) = false |- _ =>
                 destruct m; [reflexivity | cbn in Hl; discriminate Hl]
             end ]|].
  all: split; [reflexivity|]; split; [reflexivity|]; split; [reflexivity|].
  all: split; [cbn [method]; first [reflexivity | congruence]|].
  all: split; [cbn [method methodName methodData];
               repeat split; try reflexivity; try assumption;
               try (do 3 eexists; repeat split; try eassumption; reflexivity)|].
  all: repeat split; reflexivity.
Qed.

(** X13.  A successful enrollment adds exactly one credential, after the
    existing ones, for the user of the account and of the requested kind
    (TOTP when none is requested, never a recovery code): a TOTP credential
    stores the encrypted token, never the token, and only for a token with
    103 base32 characters in a row; a Yubikey credential stores the first
    twelve characters of the one-time password as the device id.  One
    TWO_FACTOR_METHOD_ADDED activity is logged; accounts and ledger are left
    as they were. *)
Theorem enrollment_adds_one_method
        (d : AccountDeps) (args : AddTwoFactorArgs) (req : Request) (w w' : World)
        (response : AddTwoFactorResponse) :
  addTwoFactorAuthTokenToIndividual d args req w = (inr response, w') ->
  exists user row,
    User_findOne (id (account response)) w = (inr (Some user), w) /\
    UserTwoFactorMethods w' = (UserTwoFactorMethods w ++ [row])%list /\
    methodUserId row = userId user /\
    method row = requestedMethod args /\
    method row <> RECOVERY_CODE /\
    (method row = TOTP ->
     hasBase32Window 103 (token args) /\
     methodData row = SecretData (crypto_encrypt d (token args))) /\
    (method row = YUBIKEY_OTP ->
     validateYubikeyOTP d (token args) w = inr true /\
     methodData row = YubikeyData (substring 0 12 (token args))) /\
    Activities w' = (Activities w ++ [methodAddedActivity user])%list /\
    Collectives w' = Collectives w /\
    Transactions w' = Transactions w.
Proof.
  intro H. apply addTwoFactor_cases in H.
  destruct H as [(e & He & _) |
                 (acct & user & remote & row & resp & Hr & _ & _ & _ & _ & Hfind & _
                  & Hrows & _ & Howner & Hmethod & Hkind & Hact & Hcoll & Htx & Hacct)];
    [discriminate|].
  inversion Hr; subst resp. exists user, row.
  rewrite Hacct. split; [exact Hfind|]. split; [exact Hrows|].
  split; [exact Howner|]. split; [exact Hmethod|].
  split; [intro E; rewrite E in Hkind; exact Hkind|].
  split; [|split; [|repeat split; assumption]].
  - intro E. rewrite E in Hkind. destruct Hkind as (Hv & _ & Hd).
    split; [apply base32Run_spec in Hv; [|apply le_n]|exact Hd].
    destruct Hv as [Hv | Hv]; [apply hasBase32Window_here, Hv | exact Hv].
  - intro E. rewrite E in Hkind. destruct Hkind as (Hv & _ & Hd).
    split; assumption.
Qed.

Lemma enrollment_adds_one_method_witness :
  exists user row,
    User_findOne (id (account AccountFixture.enrollment)) Fixture.world
      = (inr (Some user), Fixture.world) /\
    UserTwoFactorMethods AccountFixture.afterEnrollment
      = (UserTwoFactorMethods Fixture.world ++ [row])%list /\
    methodUserId row = userId user /\
    method row = YUBIKEY_OTP /\
    method row <> RECOVERY_CODE /\
    (method row = TOTP ->
     hasBase32Window 103 AccountFixture.yubikeyToken /\
     methodData row
     = SecretData (crypto_encrypt AccountFixture.deps AccountFixture.yubikeyToken)) /\
    (method row = YUBIKEY_OTP ->
     validateYubikeyOTP AccountFixture.deps AccountFixture.yubikeyToken Fixture.world
       = inr true /\
     methodData row = YubikeyData "ccccccalicek") /\
    Activities AccountFixture.afterEnrollment
      = (Activities Fixture.world ++ [methodAddedActivity user])%list /\
    Collectives AccountFixture.afterEnrollment = Collectives Fixture.world /\
    Transactions AccountFixture.afterEnrollment = Transactions Fixture.world.
Proof.
  apply (enrollment_adds_one_method AccountFixture.deps
           (AccountFixture.enroll Fixture.aliceAccount) AccountFixture.asAlice
           Fixture.world AccountFixture.afterEnrollment AccountFixture.enrollment).
  vm_compute. reflexivity.
Defined.

(** X14.  A user who has a second factor already gets no further credential
    unless the two-factor assertion of the request validates: for a caller
    who passed the scope check and administers the account, the error that
    [validateRequest] throws is the error of the enrollment, and nothing is
    written. *)
Theorem enrollment_needs_valid_second_factor
        (d : AccountDeps) (args : AddTwoFactorArgs) (req : Request) (w : World)
        (acct : Collective) (remote user : User) (e : Error) :
  checkRemoteUserCanUseAccount d req = None ->
  fetchAccountWithReference d (addAccount args)
    {| throwIfMissing := false; lock := false |} w = inr (Some acct) ->
  remoteUser req = Some remote ->
  User_isAdminOfCollective d remote (Some acct) = true ->
  User_findOne (id acct) w = (inr (Some user), w) ->
  TwoFactorAuthLib_twoFactorMethodsSupportedByUser d user w <> [] ->
  TwoFactorAuthLib_validateRequest d req
    {| alwaysAskForToken := true; requireTwoFactorAuthEnabled := false |} w = inl e ->
  addTwoFactorAuthTokenToIndividual d args req w = (inl e, w).
Proof.
  intros Hcheck Hfetch Hremote Hadmin Hfind Hsome Hval.
  unfold addTwoFactorAuthTokenToIndividual.
  unfold bind at 1. unfold check. rewrite Hcheck. unfold ret at 1.
  unfold bind at 1. unfold query at 1. rewrite Hfetch.
  rewrite Hremote.
  unfold bind at 1. rewrite Hadmin. cbn [negb throwIf]. unfold ret at 1.
  unfold bind at 1. rewrite Hfind.
  unfold bind at 1. unfold gets at 1.
  destruct (TwoFactorAuthLib_twoFactorMethodsSupportedByUser d user w) as [|m ms] eqn:Hm;
    [contradiction Hsome; reflexivity|].
  cbn [length]. rewrite Nat2Z.inj_succ.
  replace (0 <? Z.succ (Z.of_nat (length ms))) with true
    by (symmetry; apply Z.ltb_lt; lia).
  unfold bind at 1. unfold query at 1. rewrite Hval. reflexivity.
Qed.

Lemma enrollment_needs_valid_second_factor_witness :
  addTwoFactorAuthTokenToIndividual AccountFixture.deps
    (AccountFixture.enroll Fixture.bobAccount) MoreFixture.asBobWithoutCode
    Fixture.world
  = (inl (mkError Unauthorized "Two-factor authentication required"), Fixture.world).
Proof.
  apply (enrollment_needs_valid_second_factor AccountFixture.deps
           (AccountFixture.enroll Fixture.bobAccount) MoreFixture.asBobWithoutCode
           Fixture.world Fixture.bobAccount Fixture.bob Fixture.bob
           (mkError Unauthorized "Two-factor authentication required")).
  - reflexivity.
  - reflexivity.
  - reflexivity.
  - reflexivity.
  - reflexivity.
  - vm_compute. discriminate.
  - reflexivity.
Defined.

Lemma TwoFactorMethod_eqb_eq (a b : TwoFactorMethod) :
  TwoFactorMethod_eqb a b = true <-> a = b.
Proof. destruct a, b; simpl; split; intro H; try reflexivity; discriminate. Qed.

Lemma afterRemoval_methods (d : AccountDeps) (args : RemoveTwoFactorArgs)
      (req : Request) (user : User) (m : option UserTwoFactorMethod) (w : World) :
  UserTwoFactorMethods (afterRemoval d args req user m w)
  = UserTwoFactorMethods (destroyed m user (rmType args) w).
Proof.
  unfold afterRemoval. cbv zeta.
  destruct (Datatypes.length _ =? 0)%nat; reflexivity.
Qed.

(** X15.  A completed removal adds no credential and deletes only what it
    was asked to: with a named credential, the rows with the id of that
    credential, which belongs to the caller; without one, the credentials of
    the user of the account, of the given kind when a kind is given.  Every
    other credential is still there. *)
Theorem removal_deletes_only_what_is_named
        (d : AccountDeps) (args : RemoveTwoFactorArgs) (req : Request) (w w' : World)
        (acct : Collective) :
  removeTwoFactorAuthTokenFromIndividual d args req w = (inr acct, w') ->
  exists user m,
    User_findOne (id acct) w = (inr (Some user), w) /\
    reachesRemoval d args req acct w m /\
    (forall row, In row (UserTwoFactorMethods w') -> In row (UserTwoFactorMethods w)) /\
    (forall row,
        In row (UserTwoFactorMethods w) ->
        ~ In row (UserTwoFactorMethods w') ->
        match m with
        | Some named => methodId row = methodId named
        | None =>
            methodUserId row = userId user /\
            match rmType args with
            | Some kind => method row = kind
            | None => True
            end
        end).
Proof.
  intro H. apply removeTwoFactor_inv in H.
  destruct H as [(e & He & _) |
                 (acct' & user & m & b & _ & Hfind & Hreach & _ & _ & Hr & ->)];
    [discriminate|].
  inversion Hr; subst acct'. exists user, m.
  split; [exact Hfind|]. split; [exact Hreach|].
  rewrite afterRemoval_methods. unfold destroyed.
  destruct m as [named|]; simpl.
  - split.
    + intros row Hin. apply filter_In in Hin. exact (proj1 Hin).
    + intros row Hin Hgone.
      destruct (methodId row =? methodId named) eqn:E.
      * apply Z.eqb_eq, E.
      * exfalso. apply Hgone. apply filter_In. split; [exact Hin|].
        rewrite E. reflexivity.
  - split.
    + intros row Hin. apply filter_In in Hin. exact (proj1 Hin).
    + intros row Hin Hgone.
      destruct (methodUserId row =? userId user) eqn:E1.
      * split; [apply Z.eqb_eq, E1|].
        destruct (rmType args) as [kind|]; [|exact I].
        destruct (TwoFactorMethod_eqb (method row) kind) eqn:E2.
        -- apply TwoFactorMethod_eqb_eq, E2.
        -- exfalso. apply Hgone. apply filter_In. split; [exact Hin|].
           rewrite E1, E2. reflexivity.
      * exfalso. apply Hgone. apply filter_In. split; [exact Hin|].
        rewrite E1. reflexivity.
Qed.

Lemma removal_deletes_only_what_is_named_witness :
  exists user m,
    User_findOne (id Fixture.bobAccount) AccountFixture.afterEnrollment
      = (inr (Some user), AccountFixture.afterEnrollment) /\
    reachesRemoval AccountFixture.deps (AccountFixture.removeAll Fixture.bobAccount)
                   AccountFixture.asBob Fixture.bobAccount
                   AccountFixture.afterEnrollment m /\
    (forall row,
        In row (UserTwoFactorMethods
                  (snd (removeTwoFactorAuthTokenFromIndividual AccountFixture.deps
                          (AccountFixture.removeAll Fixture.bobAccount)
                          AccountFixture.asBob AccountFixture.afterEnrollment))) ->
        In row (UserTwoFactorMethods AccountFixture.afterEnrollment)) /\
    (forall row,
        In row (UserTwoFactorMethods AccountFixture.afterEnrollment) ->
        ~ In row (UserTwoFactorMethods
                    (snd (removeTwoFactorAuthTokenFromIndividual AccountFixture.deps
                            (AccountFixture.removeAll Fixture.bobAccount)
                            AccountFixture.asBob AccountFixture.afterEnrollment))) ->
        match m with
        | Some named => methodId row = methodId named
        | None => methodUserId row = userId user /\ True
        end).
Proof.
  apply (removal_deletes_only_what_is_named AccountFixture.deps
           (AccountFixture.removeAll Fixture.bobAccount) AccountFixture.asBob
           AccountFixture.afterEnrollment
           (snd (removeTwoFactorAuthTokenFromIndividual AccountFixture.deps
                   (AccountFixture.removeAll Fixture.bobAccount)
                   AccountFixture.asBob AccountFixture.afterEnrollment))
           Fixture.bobAccount).
  vm_compute. reflexivity.
Defined.

(** X16.  After a completed removal nothing of what was named is left: no
    row with the id of the named credential; or, when none was named, no
    credential of the user of the given kind, and none at all when no kind
    was given. *)
Theorem removal_leaves_nothing_named
        (d : AccountDeps) (args : RemoveTwoFactorArgs) (req : Request) (w w' : World)
        (acct : Collective) :
  removeTwoFactorAuthTokenFromIndividual d args req w = (inr acct, w') ->
  exists user m,
    User_findOne (id acct) w = (inr (Some user), w) /\
    reachesRemoval d args req acct w m /\
    forall row,
      In row (UserTwoFactorMethods w') ->
      match m with
      | Some named => methodId row <> methodId named
      | None =>
          methodUserId row = userId user ->
          match rmType args with
          | Some kind => method row <> kind
          | None => False
          end
      end.
Proof.
  intro H. apply removeTwoFactor_inv in H.
  destruct H as [(e & He & _) |
                 (acct' & user & m & b & _ & Hfind & Hreach & _ & _ & Hr & ->)];
    [discriminate|].
  inversion Hr; subst acct'. exists user, m.
  split; [exact Hfind|]. split; [exact Hreach|].
  intros row Hin. rewrite afterRemoval_methods in Hin. unfold destroyed in Hin.
  destruct m as [named|]; simpl in Hin; apply filter_In in Hin;
    destruct Hin as [_ Hkeep]; apply negb_true_iff in Hkeep.
  - apply Z.eqb_neq, Hkeep.
  - intro Howner. apply Z.eqb_eq in Howner. rewrite Howner in Hkeep.
    destruct (rmType args) as [kind|]; simpl in Hkeep.
    + intro E. apply TwoFactorMethod_eqb_eq in E. congruence.
    + discriminate.
Qed.

Lemma removal_leaves_nothing_named_witness :
  exists user m,
    User_findOne (id Fixture.bobAccount) Fixture.world
      = (inr (Some user), Fixture.world) /\
    reachesRemoval AccountFixture.deps (MoreFixture.removeKind (Some YUBIKEY_OTP))
                   AccountFixture.asBob Fixture.bobAccount Fixture.world m /\
    forall row,
      In row (UserTwoFactorMethods
                (snd (removeTwoFactorAuthTokenFromIndividual AccountFixture.deps
                        (MoreFixture.removeKind (Some YUBIKEY_OTP))
                        AccountFixture.asBob Fixture.world))) ->
      match m with
      | Some named => methodId row <> methodId named
      | None => methodUserId row = userId user -> method row <> YUBIKEY_OTP
      end.
Proof.
  apply (removal_leaves_nothing_named AccountFixture.deps
           (MoreFixture.removeKind (Some YUBIKEY_OTP)) AccountFixture.asBob
           Fixture.world
           (snd (removeTwoFactorAuthTokenFromIndividual AccountFixture.deps
                   (MoreFixture.removeKind (Some YUBIKEY_OTP))
                   AccountFixture.asBob Fixture.world))
           Fixture.bobAccount).
  vm_compute. reflexivity.
Defined.

(** X17.  A caller cannot name the credential of somebody else: when the
    named credential does not belong to the caller, the removal throws
    [Forbidden] and nothing is deleted, whoever the account belongs to. *)
Theorem removal_of_foreign_credential_forbidden
        (d : AccountDeps) (args : RemoveTwoFactorArgs) (req : Request) (w : World)
        (acct : option Collective) (remote : User) (reference : Z)
        (found : UserTwoFactorMethod) :
  checkRemoteUserCanUseAccount d req = None ->
  fetchAccountWithReference d (rmAccount args)
    {| throwIfMissing := false; lock := false |} w = inr acct ->
  remoteUser req = Some remote ->
  User_isAdminOfCollective d remote acct = true ->
  rmUserTwoFactorMethod args = Some reference ->
  fetchUserTwoFactorMethodWithReference d reference
    {| throwIfMissing := true; lock := false |} w = inr (Some found) ->
  methodUserId found <> userId remote ->
  removeTwoFactorAuthTokenFromIndividual d args req w = (inl (mkError Forbidden ""), w).
Proof.
  intros Hcheck Hfetch Hremote Hadmin Hnamed Hfound Hforeign.
  unfold removeTwoFactorAuthTokenFromIndividual.
  unfold bind, throwIf, check, gets, query, throw, ret.
  rewrite Hcheck; cbv beta iota. rewrite Hfetch; cbv beta iota.
  rewrite Hremote; cbv beta iota. rewrite Hadmin; cbn [negb]; cbv beta iota.
  rewrite Hnamed; cbv beta iota. rewrite Hfound; cbv beta iota.
  apply Z.eqb_neq in Hforeign. rewrite Hforeign. reflexivity.
Qed.

Lemma removal_of_foreign_credential_forbidden_witness :
  removeTwoFactorAuthTokenFromIndividual AccountFixture.deps MoreFixture.removeBobKey
    AccountFixture.asAlice Fixture.world
  = (inl (mkError Forbidden ""), Fixture.world).
Proof.
  apply (removal_of_foreign_credential_forbidden AccountFixture.deps
           MoreFixture.removeBobKey AccountFixture.asAlice Fixture.world
           (Some Fixture.aliceAccount) Fixture.alice 1 Fixture.bobKey).
  - reflexivity.
  - reflexivity.
  - reflexivity.
  - reflexivity.
  - reflexivity.
  - reflexivity.
  - vm_compute. discriminate.
Defined.

(* ================================================================== *)
(** * Recovery codes, duplication and deletion                          *)
(* ================================================================== *)

Lemma regenerateRecoveryCodes_cases (d : AccountDeps) (l : AccountLibDeps)
      (req : Request) (w w' : World) (r : Error + list string) :
  regenerateRecoveryCodes d l req w = (r, w') ->
  (exists e, r = inl e /\ Users w' = Users w /\ Activities w' = Activities w /\
             UserTwoFactorMethods w' = UserTwoFactorMethods w) \/
  (exists remote b,
      r = inr (recoveryCodesDrawn d w) /\
      remoteUser req = Some remote /\
      checkRemoteUserCanUseAccount d req = None /\
      TwoFactorAuthLib_userHasTwoFactorAuthEnabled l (Some remote) w = inr true /\
      TwoFactorAuthLib_validateRequest d req
        {| alwaysAskForToken := true; requireTwoFactorAuthEnabled := false |} w = inr b /\
      Users w' = map (setRecoveryCodes remote
                        (Some (map (crypto_hash d) (recoveryCodesDrawn d w))))
                     (Users w) /\
      UserTwoFactorMethods w' = UserTwoFactorMethods w /\
      Activities w' = Activities w /\
      Collectives w' = Collectives w /\
      Transactions w' = Transactions w /\
      randomDraws w' = (randomDraws w + 6)%nat).
Proof.
  unfold regenerateRecoveryCodes, User_update, drawRandomString, setRecoveryCodes.
  unfold replicateM.
  unfold bind, throwIf, check, gets, query, modify, throw, ret.
  intro H.
  repeat (case_scrutinee; cbv beta iota zeta in H).
  all: inversion H; subst; clear H.
  all: try (left; eexists; repeat split; reflexivity).
  all: right; norm_hyps.
  all: repeat match goal with
              | Hb : ?x = true |- _ => is_var x; subst x
              end.
  all: do 2 eexists.
  all: rewrite recoveryCodesDrawn_eq.
  all: split; [reflexivity|]; split; [reflexivity|]; split; [reflexivity|].
  all: split; [assumption|].
  all: split; [reflexivity|].
  all: repeat split; try reflexivity.
  all: simpl; lia.
Qed.

(** X18.  [regenerateRecoveryCodes] hands out six fresh codes only to a
    logged-in user with two-factor authentication enabled whose two-factor
    assertion validates; the rows of that user then store the hashes of
    exactly these six codes, whatever was stored before; credentials and
    audit log are left as they were.  When it throws, the stored codes are
    left as they were. *)
Theorem regenerateRecoveryCodes_replaces_codes
        (d : AccountDeps) (l : AccountLibDeps) (req : Request) (w w' : World)
        (r : Error + list string) :
  regenerateRecoveryCodes d l req w = (r, w') ->
  match r with
  | inl _ => Users w' = Users w
  | inr codes =>
      exists remote,
        remoteUser req = Some remote /\
        TwoFactorAuthLib_userHasTwoFactorAuthEnabled l (Some remote) w = inr true /\
        (exists b,
            TwoFactorAuthLib_validateRequest d req
              {| alwaysAskForToken := true; requireTwoFactorAuthEnabled := false |} w
            = inr b) /\
        codes = recoveryCodesDrawn d w /\
        Datatypes.length codes = 6%nat /\
        (forall row, In row (Users w') ->
                     userId row = userId remote ->
                     twoFactorAuthRecoveryCodes row = Some (map (crypto_hash d) codes)) /\
        (forall row, In row (Users w') ->
                     userId row <> userId remote -> In row (Users w)) /\
        UserTwoFactorMethods w' = UserTwoFactorMethods w /\
        Activities w' = Activities w
  end.
Proof.
  intro H. apply regenerateRecoveryCodes_cases in H.
  destruct H as [(e & -> & Hu & _) |
                 (remote & b & -> & Hremote & _ & Hhas & Hval & Husers & Hm & Ha & _)].
  - exact Hu.
  - exists remote. split; [exact Hremote|]. split; [exact Hhas|].
    split; [exists b; exact Hval|]. split; [reflexivity|].
    split; [apply recoveryCodesDrawn_length|].
    split; [|split; [|split; assumption]].
    + intros row Hin Hid. rewrite Husers in Hin.
      exact (rows_updated _ _ _ _ Hin Hid).
    + intros row Hin Hid. rewrite Husers in Hin.
      apply in_map_iff in Hin. destruct Hin as (row0 & Heq & Hin0).
      unfold setRecoveryCodes in Heq.
      destruct (userId row0 =? userId remote) eqn:E.
      * subst row. simpl in Hid. apply Z.eqb_eq in E. contradiction.
      * subst row. exact Hin0.
Qed.

Lemma regenerateRecoveryCodes_replaces_codes_witness :
  exists remote,
    remoteUser AccountFixture.asBob = Some remote /\
    TwoFactorAuthLib_userHasTwoFactorAuthEnabled MoreFixture.libDeps (Some remote)
      Fixture.world = inr true /\
    (exists b,
        TwoFactorAuthLib_validateRequest AccountFixture.deps AccountFixture.asBob
          {| alwaysAskForToken := true; requireTwoFactorAuthEnabled := false |}
          Fixture.world = inr b) /\
    recoveryCodesDrawn AccountFixture.deps Fixture.world
      = recoveryCodesDrawn AccountFixture.deps Fixture.world /\
    Datatypes.length (recoveryCodesDrawn AccountFixture.deps Fixture.world) = 6%nat /\
    (forall row,
        In row (Users (snd (regenerateRecoveryCodes AccountFixture.deps
                              MoreFixture.libDeps AccountFixture.asBob Fixture.world))) ->
        userId row = userId remote ->
        twoFactorAuthRecoveryCodes row
        = Some (map (crypto_hash AccountFixture.deps)
                    (recoveryCodesDrawn AccountFixture.deps Fixture.world))) /\
    (forall row,
        In row (Users (snd (regenerateRecoveryCodes AccountFixture.deps
                              MoreFixture.libDeps AccountFixture.asBob Fixture.world))) ->
        userId row <> userId remote -> In row (Users Fixture.world)) /\
    UserTwoFactorMethods
      (snd (regenerateRecoveryCodes AccountFixture.deps MoreFixture.libDeps
              AccountFixture.asBob Fixture.world))
      = UserTwoFactorMethods Fixture.world /\
    Activities (snd (regenerateRecoveryCodes AccountFixture.deps MoreFixture.libDeps
                       AccountFixture.asBob Fixture.world))
      = Activities Fixture.world.
Proof.
  apply (regenerateRecoveryCodes_replaces_codes AccountFixture.deps
           MoreFixture.libDeps AccountFixture.asBob Fixture.world
           (snd (regenerateRecoveryCodes AccountFixture.deps MoreFixture.libDeps
                   AccountFixture.asBob Fixture.world))
           (inr (recoveryCodesDrawn AccountFixture.deps Fixture.world))).
  vm_compute. reflexivity.
Defined.

Lemma duplicateAccount_cases (d : AccountDeps) (l : AccountLibDeps)
      (args : DuplicateAccountArgs) (req : Request) (w w' : World)
      (r : Error + Collective) :
  duplicateAccount d l args req w = (r, w') ->
  (exists e, r = inl e /\ w' = w) \/
  (exists account remote,
      checkRemoteUserCanUseAccount d req = None /\
      fetchAccountWithReference d (dupAccount args)
        {| throwIfMissing := true; lock := false |} w = inr (Some account) /\
      remoteUser req = Some remote /\
      User_isAdminOfCollective d remote (Some account) = true /\
      isCollectiveOrFund (type account) = true /\
      lib_duplicateAccount l account remote (dupOptions args) w = (r, w')).
Proof.
  unfold duplicateAccount.
  unfold bind, throwIf, check, gets, query, modify, throw, ret.
  intro H.
  repeat (case_scrutinee; cbv beta iota zeta in H).
  all: try (inversion H; subst; left; eexists; split; reflexivity).
  all: right; norm_hyps; do 2 eexists; repeat split; eassumption.
Qed.

(** X19.  [duplicateAccount] reaches the duplication only for a caller with
    the "account" scope who administers the account, and only for a
    collective or a fund; in every other case it throws and nothing is
    changed.  A caller who does not administer the account gets
    [Forbidden], whatever the type of the account. *)
Theorem duplicateAccount_guarded
        (d : AccountDeps) (l : AccountLibDeps) (args : DuplicateAccountArgs)
        (req : Request) (w : World) :
  (forall r w',
      duplicateAccount d l args req w = (r, w') ->
      (exists e, r = inl e /\ w' = w) \/
      (exists account remote,
          fetchAccountWithReference d (dupAccount args)
            {| throwIfMissing := true; lock := false |} w = inr (Some account) /\
          remoteUser req = Some remote /\
          User_isAdminOfCollective d remote (Some account) = true /\
          isCollectiveOrFund (type account) = true /\
          lib_duplicateAccount l account remote (dupOptions args) w = (r, w'))) /\
  (forall account remote,
      checkRemoteUserCanUseAccount d req = None ->
      fetchAccountWithReference d (dupAccount args)
        {| throwIfMissing := true; lock := false |} w = inr account ->
      remoteUser req = Some remote ->
      User_isAdminOfCollective d remote account = false ->
      duplicateAccount d l args req w
      = (inl (mkError Forbidden
                "You need to be logged in as an Admin of the account to duplicate it."),
         w)) /\
  (forall account remote,
      checkRemoteUserCanUseAccount d req = None ->
      fetchAccountWithReference d (dupAccount args)
        {| throwIfMissing := true; lock := false |} w = inr (Some account) ->
      remoteUser req = Some remote ->
      User_isAdminOfCollective d remote (Some account) = true ->
      isCollectiveOrFund (type account) = false ->
      duplicateAccount d l args req w
      = (inl (mkError ValidationFailed
                (CollectiveType_toString (type account)
                   ++ " accounts cannot be duplicated.")),
         w)).
Proof.
  split; [|split].
  - intros r w' H. apply duplicateAccount_cases in H.
    destruct H as [H | (account & remote & _ & H)]; [left; exact H|].
    right. exists account, remote. exact H.
  - intros account remote Hcheck Hfetch Hremote Hadmin.
    unfold duplicateAccount. unfold bind, check, query, throw, ret.
    rewrite Hcheck; cbv beta iota. rewrite Hfetch; cbv beta iota.
    rewrite Hremote, Hadmin. reflexivity.
  - intros account remote Hcheck Hfetch Hremote Hadmin Htype.
    unfold duplicateAccount. unfold bind, check, query, throw, ret.
    rewrite Hcheck; cbv beta iota. rewrite Hfetch; cbv beta iota.
    rewrite Hremote, Hadmin. cbn [negb]. rewrite Htype. reflexivity.
Qed.

Lemma duplicateAccount_guarded_witness :
  duplicateAccount AccountFixture.deps MoreFixture.libDeps
    (MoreFixture.duplicateArgs Fixture.event) AccountFixture.asBob Fixture.world
  = (inl (mkError Forbidden
            "You need to be logged in as an Admin of the account to duplicate it."),
     Fixture.world) /\
  duplicateAccount AccountFixture.deps MoreFixture.libDeps
    (MoreFixture.duplicateArgs Fixture.aliceAccount) AccountFixture.asAlice
    Fixture.world
  = (inl (mkError ValidationFailed "USER accounts cannot be duplicated."),
     Fixture.world).
Proof.
  destruct (duplicateAccount_guarded AccountFixture.deps MoreFixture.libDeps
              (MoreFixture.duplicateArgs Fixture.event) AccountFixture.asBob
              Fixture.world) as (_ & Hforbidden & _).
  destruct (duplicateAccount_guarded AccountFixture.deps MoreFixture.libDeps
              (MoreFixture.duplicateArgs Fixture.aliceAccount) AccountFixture.asAlice
              Fixture.world) as (_ & _ & Hinvalid).
  split.
  - apply (Hforbidden (Some Fixture.event) Fixture.bob); reflexivity.
  - apply (Hinvalid Fixture.aliceAccount Fixture.alice); reflexivity.
Defined.

Lemma deleteAccount_cases (d : AccountDeps) (l : AccountLibDeps)
      (reference : AccountReference) (req : Request) (w w' : World)
      (r : Error + Collective) :
  deleteAccount d l reference req w = (r, w') ->
  (exists e, r = inl e /\ w' = w) \/
  (exists account remote,
      checkRemoteUserCanUseAccount d req = None /\
      In account (Collectives w) /\
      remoteUser req = Some remote /\
      User_isAdminOfCollective d remote (Some account) = true /\
      TwoFactorAuthLib_enforceForAccount l req account
        {| enforceAlwaysAskForToken := true; onlyAskOnLogin := false |} w = inr tt /\
      Collective_isHost l account w = inr false /\
      collectivelib_isCollectiveDeletable l account w = inr true /\
      collectivelib_deleteCollective l account w = (r, w')).
Proof.
  unfold deleteAccount, accountIdOf, Collective_findByPk, findCollective.
  unfold bind, throwIf, check, gets, query, modify, throw, ret.
  intro H.
  repeat (case_scrutinee; cbv beta iota zeta in H).
  all: try (inversion H; subst; left; eexists; split; reflexivity).
  all: right; norm_hyps.
  all: repeat match goal with
              | Hb : ?x = true |- _ => is_var x; subst x
              | Hb : ?x = false |- _ => is_var x; subst x
              | Hu : ?x = tt |- _ => is_var x; subst x
              | u : unit |- _ => destruct u
              end.
  all: do 2 eexists.
  all: split; [reflexivity|].
  all: split; [match goal with
               | Hf : find _ _ = Some _ |- _ => apply find_some in Hf; exact (proj1 Hf)
               end|].
  all: repeat split; eassumption.
Qed.

(** X20.  [deleteAccount] reaches the deletion only for an existing account
    that the caller administers, after the two-factor check, when the
    account is not a host and can be deleted; in every other case it throws
    and nothing is changed.  In particular an account activated as host is
    never deleted. *)
Theorem deleteAccount_guarded
        (d : AccountDeps) (l : AccountLibDeps) (reference : AccountReference)
        (req : Request) (w w' : World) (r : Error + Collective) :
  deleteAccount d l reference req w = (r, w') ->
  w' <> w ->
  exists account remote,
    In account (Collectives w) /\
    remoteUser req = Some remote /\
    User_isAdminOfCollective d remote (Some account) = true /\
    TwoFactorAuthLib_enforceForAccount l req account
      {| enforceAlwaysAskForToken := true; onlyAskOnLogin := false |} w = inr tt /\
    Collective_isHost l account w = inr false /\
    collectivelib_isCollectiveDeletable l account w = inr true /\
    collectivelib_deleteCollective l account w = (r, w').
Proof.
  intros H Hchanged. apply deleteAccount_cases in H.
  destruct H as [(e & _ & Hsame) | (account & remote & _ & H)]; [contradiction|].
  exists account, remote. exact H.
Qed.

Lemma deleteAccount_guarded_witness :
  exists account remote,
    In account (Collectives MoreFixture.emptyLedger) /\
    remoteUser AccountFixture.asAlice = Some remote /\
    User_isAdminOfCollective AccountFixture.deps remote (Some account) = true /\
    TwoFactorAuthLib_enforceForAccount MoreFixture.libDeps AccountFixture.asAlice account
      {| enforceAlwaysAskForToken := true; onlyAskOnLogin := false |}
      MoreFixture.emptyLedger = inr tt /\
    Collective_isHost MoreFixture.libDeps account MoreFixture.emptyLedger = inr false /\
    collectivelib_isCollectiveDeletable MoreFixture.libDeps account
      MoreFixture.emptyLedger = inr true /\
    collectivelib_deleteCollective MoreFixture.libDeps account MoreFixture.emptyLedger
    = deleteAccount AccountFixture.deps MoreFixture.libDeps
        (AccountFixture.reference Fixture.aliceAccount) AccountFixture.asAlice
        MoreFixture.emptyLedger.
Proof.
  apply (deleteAccount_guarded AccountFixture.deps MoreFixture.libDeps
           (AccountFixture.reference Fixture.aliceAccount) AccountFixture.asAlice
           MoreFixture.emptyLedger
           (snd (deleteAccount AccountFixture.deps MoreFixture.libDeps
                   (AccountFixture.reference Fixture.aliceAccount)
                   AccountFixture.asAlice MoreFixture.emptyLedger))
           (fst (deleteAccount AccountFixture.deps MoreFixture.libDeps
                   (AccountFixture.reference Fixture.aliceAccount)
                   AccountFixture.asAlice MoreFixture.emptyLedger))).
  - apply surjective_pairing.
  - vm_compute. intro H. discriminate H.
Defined.

(* ================================================================== *)
(** * Policies                                                          *)
(* ================================================================== *)

Section Objects.
Context {V : Type}.

Lemma getKey_setKey (k k' : string) (v : option V) (obj : JsObject V) :
  getKey k (setKey k' v obj) = if String.eqb k k' then Some v else getKey k obj.
Proof.
  induction obj as [|[k0 x] rest IH]; simpl.
  - reflexivity.
  - destruct (String.eqb k' k0) eqn:E'; simpl.
    + apply String.eqb_eq in E'. subst k0.
      destruct (String.eqb k k'); reflexivity.
    + destruct (String.eqb k k0) eqn:E0.
      * apply String.eqb_eq in E0. subst k0.
        rewrite String.eqb_sym, E'. reflexivity.
      * exact IH.
Qed.

Lemma getKey_app (k : string) (a b : JsObject V) :
  getKey k (a ++ b)%list
  = match getKey k a with Some v => Some v | None => getKey k b end.
Proof.
  induction a as [|[k0 x] rest IH]; simpl.
  - reflexivity.
  - destruct (String.eqb k k0); [reflexivity | exact IH].
Qed.

Lemma getKey_spread (k : string) (b a : JsObject V) :
  getKey k (spread a b)
  = match lastKey k b with Some v => Some v | None => getKey k a end.
Proof.
  unfold spread, lastKey. revert a.
  induction b as [|[k0 x] rest IH]; intro a; simpl.
  - reflexivity.
  - rewrite IH, getKey_app, getKey_setKey. simpl.
    destruct (getKey k (rev rest)); [reflexivity|].
    destruct (String.eqb k k0); reflexivity.
Qed.

Lemma setKey_keys (k k' : string) (v : option V) (obj : JsObject V) :
  In k' (map fst (setKey k v obj)) <-> k' = k \/ In k' (map fst obj).
Proof.
  induction obj as [|[k0 x] rest IH]; simpl.
  - intuition congruence.
  - destruct (String.eqb k k0) eqn:E; simpl.
    + apply String.eqb_eq in E. subst k0. intuition congruence.
    + rewrite IH. intuition congruence.
Qed.

Lemma setKey_unique (k : string) (v : option V) (obj : JsObject V) :
  uniqueKeys obj -> uniqueKeys (setKey k v obj).
Proof.
  unfold uniqueKeys.
  induction obj as [|[k0 x] rest IH]; simpl; intro H.
  - constructor; [intros [] | constructor].
  - inversion H as [|? ? Hnotin Hrest]; subst.
    destruct (String.eqb k k0) eqn:E; simpl.
    + constructor; assumption.
    + constructor; [|apply IH; exact Hrest].
      rewrite setKey_keys. intros [-> | Hin]; [|contradiction].
      rewrite String.eqb_refl in E. discriminate E.
Qed.

Lemma spread_unique (b a : JsObject V) :
  uniqueKeys a -> uniqueKeys (spread a b).
Proof.
  unfold spread. revert a.
  induction b as [|kv rest IH]; intros a H; simpl.
  - exact H.
  - apply IH, setKey_unique, H.
Qed.

Lemma getKey_missing (k : string) (obj : JsObject V) :
  ~ In k (map fst obj) -> getKey k obj = None.
Proof.
  induction obj as [|[k0 x] rest IH]; simpl; intro H.
  - reflexivity.
  - destruct (String.eqb k k0) eqn:E.
    + apply String.eqb_eq in E. subst k0. exfalso. apply H. left. reflexivity.
    + apply IH. intro Hin. apply H. right. exact Hin.
Qed.

Lemma getKey_omitNull (k : string) (obj : JsObject V) :
  uniqueKeys obj ->
  getKey k (omitNull obj)
  = match getKey k obj with Some (Some v) => Some (Some v) | _ => None end.
Proof.
  unfold uniqueKeys.
  induction obj as [|[k0 x] rest IH]; simpl; intro H.
  - reflexivity.
  - inversion H as [|? ? Hnotin Hrest]; subst.
    destruct x as [v|]; simpl.
    + destruct (String.eqb k k0); [reflexivity | exact (IH Hrest)].
    + rewrite (IH Hrest).
      destruct (String.eqb k k0) eqn:E; [|reflexivity].
      apply String.eqb_eq in E. subst k0.
      rewrite (getKey_missing _ _ Hnotin). reflexivity.
Qed.

Lemma omitNull_unique (obj : JsObject V) :
  uniqueKeys obj -> uniqueKeys (omitNull obj).
Proof.
  unfold uniqueKeys, omitNull.
  induction obj as [|[k0 x] rest IH]; simpl; intro H.
  - constructor.
  - inversion H as [|? ? Hnotin Hrest]; subst.
    destruct x as [v|]; simpl.
    + constructor; [|exact (IH Hrest)].
      intro Hin. apply Hnotin.
      apply in_map_iff in Hin. destruct Hin as (kv & Hk & Hin).
      apply filter_In in Hin. apply in_map_iff. exists kv. tauto.
    + exact (IH Hrest).
Qed.
End Objects.

Lemma mergePolicies_getKey (previousPolicies : option (JsObject PolicyValue))
      (policies : JsObject PolicyValue) (k : string) :
  (forall p, previousPolicies = Some p -> uniqueKeys p) ->
  getKey k (mergePolicies previousPolicies policies)
  = match lastKey k policies with
    | Some (Some v) => Some (Some v)
    | Some None => None
    | None =>
        match previousPolicies with
        | Some p =>
            match getKey k p with
            | Some (Some v) => Some (Some v)
            | _ => None
            end
        | None => None
        end
    end.
Proof.
  intro Huniq. unfold mergePolicies.
  rewrite getKey_omitNull.
  - rewrite getKey_spread.
    destruct (lastKey k policies) as [[v|]|]; try reflexivity.
    destruct previousPolicies as [p|]; reflexivity.
  - apply spread_unique.
    destruct previousPolicies as [p|]; [apply Huniq; reflexivity | constructor].
Qed.

(** X21.  The merge of [setPolicies]: a policy submitted with a value is
    stored with the value submitted last; a policy submitted as [null] is
    removed; a policy that the submission does not name keeps the value it
    had; the result has no key twice and holds no [null]. *)
Theorem setPolicies_merge
        (previousPolicies : option (JsObject PolicyValue))
        (policies : JsObject PolicyValue) :
  (forall p, previousPolicies = Some p -> uniqueKeys p) ->
  uniqueKeys (mergePolicies previousPolicies policies) /\
  forall k,
    getKey k (mergePolicies previousPolicies policies) <> Some None /\
    (forall v, lastKey k policies = Some (Some v) ->
               getKey k (mergePolicies previousPolicies policies) = Some (Some v)) /\
    (lastKey k policies = Some None ->
     getKey k (mergePolicies previousPolicies policies) = None) /\
    (lastKey k policies = None ->
     forall v,
       getKey k (mergePolicies previousPolicies policies) = Some (Some v)
       <-> exists p, previousPolicies = Some p /\ getKey k p = Some (Some v)).
Proof.
  intro Huniq. split.
  - unfold mergePolicies. apply omitNull_unique, spread_unique.
    destruct previousPolicies as [p|]; [apply Huniq; reflexivity | constructor].
  - intro k. rewrite (mergePolicies_getKey _ _ _ Huniq).
    split; [|split; [|split]].
    + destruct (lastKey k policies) as [[v|]|]; try discriminate.
      destruct previousPolicies as [p|]; [|discriminate].
      destruct (getKey k p) as [[v|]|]; discriminate.
    + intros v ->. reflexivity.
    + intros ->. reflexivity.
    + intros -> v. split.
      * destruct previousPolicies as [p|]; [|discriminate].
        intro H. exists p. split; [reflexivity|].
        destruct (getKey k p) as [[v'|]|]; try discriminate. exact H.
      * intros (p & -> & ->). reflexivity.
Qed.

Lemma setPolicies_merge_witness :
  uniqueKeys (mergePolicies (Some MoreFixture.strictPolicies)
                (MoreFixture.relax2FA ++ MoreFixture.minimumAdmins)%list) /\
  forall k,
    getKey k (mergePolicies (Some MoreFixture.strictPolicies)
                (MoreFixture.relax2FA ++ MoreFixture.minimumAdmins)%list) <> Some None /\
    (forall v, lastKey k (MoreFixture.relax2FA ++ MoreFixture.minimumAdmins)%list
               = Some (Some v) ->
               getKey k (mergePolicies (Some MoreFixture.strictPolicies)
                           (MoreFixture.relax2FA ++ MoreFixture.minimumAdmins)%list)
               = Some (Some v)) /\
    (lastKey k (MoreFixture.relax2FA ++ MoreFixture.minimumAdmins)%list = Some None ->
     getKey k (mergePolicies (Some MoreFixture.strictPolicies)
                 (MoreFixture.relax2FA ++ MoreFixture.minimumAdmins)%list) = None) /\
    (lastKey k (MoreFixture.relax2FA ++ MoreFixture.minimumAdmins)%list = None ->
     forall v,
       getKey k (mergePolicies (Some MoreFixture.strictPolicies)
                   (MoreFixture.relax2FA ++ MoreFixture.minimumAdmins)%list)
       = Some (Some v)
       <-> exists p, Some MoreFixture.strictPolicies = Some p /\
                     getKey k p = Some (Some v)).
Proof.
  apply (setPolicies_merge (Some MoreFixture.strictPolicies)
           (MoreFixture.relax2FA ++ MoreFixture.minimumAdmins)%list).
  intros p Hp. inversion Hp; subst p.
  unfold uniqueKeys. simpl.
  constructor; [|constructor; [|constructor]].
  - intros [H | []]. discriminate H.
  - intros [].
Defined.

(** X22.  [setPolicies] asks for a two-factor code exactly when the account
    required two-factor authentication of its admins and the submission
    names REQUIRE_2FA_FOR_ADMINS with [null] or [false]; a submission that
    does not name this policy never asks for one. *)
Theorem setPolicies_second_factor_trigger
        (previousPolicies : option (JsObject PolicyValue))
        (policies : JsObject PolicyValue) :
  (forall p, previousPolicies = Some p -> uniqueKeys p) ->
  disables2FAForAdmins previousPolicies policies = true
  <-> requires2FAForAdmins previousPolicies = true /\
      exists v, lastKey "REQUIRE_2FA_FOR_ADMINS" policies = Some v /\
                truthyPolicy v = false.
Proof.
  intro Huniq. unfold disables2FAForAdmins.
  rewrite andb_true_iff, negb_true_iff.
  unfold requires2FAForAdmins at 2.
  rewrite (mergePolicies_getKey _ _ _ Huniq).
  split.
  - intros [Hprev Hnew]. split; [exact Hprev|].
    destruct (lastKey "REQUIRE_2FA_FOR_ADMINS" policies) as [[v|]|].
    + exists (Some v). split; [reflexivity | exact Hnew].
    + exists None. split; reflexivity.
    + exfalso. unfold requires2FAForAdmins in Hprev.
      destruct previousPolicies as [p|]; [|discriminate].
      destruct (getKey "REQUIRE_2FA_FOR_ADMINS" p) as [[v|]|];
        simpl in Hprev; try discriminate.
      simpl in Hnew. congruence.
  - intros [Hprev (v & -> & Hv)]. split; [exact Hprev|].
    destruct v as [v|]; [exact Hv | reflexivity].
Qed.

Lemma setPolicies_second_factor_trigger_witness :
  disables2FAForAdmins (Some MoreFixture.strictPolicies) MoreFixture.relax2FA = true
  <-> requires2FAForAdmins (Some MoreFixture.strictPolicies) = true /\
      exists v, lastKey "REQUIRE_2FA_FOR_ADMINS" MoreFixture.relax2FA = Some v /\
                truthyPolicy v = false.
Proof.
  apply (setPolicies_second_factor_trigger (Some MoreFixture.strictPolicies)
           MoreFixture.relax2FA).
  intros p Hp. inversion Hp; subst p.
  unfold uniqueKeys. simpl.
  constructor; [|constructor; [|constructor]].
  - intros [H | []]. discriminate H.
  - intros [].
Defined.

(* ================================================================== *)
(** * The cron job                                                      *)
(* ================================================================== *)

Section CronProperties.
Variable c : CronDeps.

Lemma forEach_app {A} (body : A -> M World unit) (xs ys : list A) (w : World) :
  forEach body (xs ++ ys)%list w
  = match forEach body xs w with
    | (inl e, w') => (inl e, w')
    | (inr _, w') => forEach body ys w'
    end.
Proof.
  revert w. induction xs as [|x rest IH]; intro w; simpl.
  - reflexivity.
  - unfold bind. destruct (body x w) as [[e|u] w1]; [reflexivity | apply IH].
Qed.

Lemma forEach_unchanged (xs : list HostedCollective) (w : World) :
  (forall x, In x xs -> suspendIfBelowMinimum c x w = (inr tt, w)) ->
  forEach (suspendIfBelowMinimum c) xs w = (inr tt, w).
Proof.
  induction xs as [|x rest IH]; intro H; simpl.
  - reflexivity.
  - unfold bind. rewrite (H x (or_introl eq_refl)).
    apply IH. intros y Hy. apply H. right. exact Hy.
Qed.

Lemma forEach_below_minimum (policyOf : HostedCollective -> option MinimumAdminsPolicy)
      (xs : list HostedCollective) :
  (forall x w, In x xs -> getPolicy c (host x) w = inr (policyOf x)) ->
  forall w,
    forEach (suspendIfBelowMinimum c) xs w
    = forEach (fun x => Collective_disableFeature c (hosted x)
                          RECEIVE_FINANCIAL_CONTRIBUTIONS)
              (filter (fun x => belowMinimum (length (members x)) (policyOf x)) xs) w.
Proof.
  induction xs as [|x rest IH]; intros H w; simpl.
  - reflexivity.
  - assert (Hrest : forall y w0, In y rest -> getPolicy c (host y) w0 = inr (policyOf y)).
    { intros y w0 Hy. apply H. right. exact Hy. }
    unfold bind at 1. unfold suspendIfBelowMinimum at 1. unfold bind, query, ret.
    rewrite (H x w (or_introl eq_refl)).
    destruct (belowMinimum (length (members x)) (policyOf x)); simpl.
    + unfold bind.
      destruct (Collective_disableFeature c (hosted x) RECEIVE_FINANCIAL_CONTRIBUTIONS w)
        as [[e|u] w1]; [reflexivity | apply (IH Hrest)].
    + apply (IH Hrest).
Qed.
End CronProperties.

(** X23.  The cron job changes nothing when every collective it finds has
    at least the number of admins that the policy of its host asks for;
    a policy without [numberOfAdmins] asks for none. *)
Theorem run_leaves_compliant_collectives
        (c : CronDeps) (w : World) (collectives : list HostedCollective) :
  findAllHostedCollectives c w = inr collectives ->
  (forall x, In x collectives ->
             exists p, getPolicy c (host x) w = inr p /\
                       (belowMinimum (length (members x)) p = false \/
                        (forall policy, p = Some policy -> numberOfAdmins policy = None))) ->
  run c w = (inr tt, w).
Proof.
  intros Hfind Hall. unfold run. unfold bind, query. rewrite Hfind.
  apply forEach_unchanged. intros x Hx.
  destruct (Hall x Hx) as (p & Hp & Hok).
  unfold suspendIfBelowMinimum. unfold bind, query, ret. rewrite Hp.
  assert (Hbelow : belowMinimum (length (members x)) p = false).
  { destruct Hok as [Hok | Hok]; [exact Hok|].
    unfold belowMinimum. destruct p as [policy|]; [|reflexivity].
    rewrite (Hok policy eq_refl). reflexivity. }
  rewrite Hbelow. reflexivity.
Qed.

Lemma run_leaves_compliant_collectives_witness :
  run (MoreFixture.cronDeps [MoreFixture.recipientRow; MoreFixture.strangerRow])
      Fixture.world
  = (inr tt, Fixture.world).
Proof.
  apply (run_leaves_compliant_collectives
           (MoreFixture.cronDeps [MoreFixture.recipientRow; MoreFixture.strangerRow])
           Fixture.world [MoreFixture.recipientRow; MoreFixture.strangerRow]).
  - reflexivity.
  - intros x [<- | [<- | []]].
    + eexists. split; [reflexivity|]. left. vm_compute. reflexivity.
    + eexists. split; [reflexivity|]. right.
      intros policy Hpolicy. inversion Hpolicy. reflexivity.
Defined.

(** X24.  The loop of the cron job has no error handling: when the policy
    lookup or the suspension of one collective throws, the job ends with
    this error in the state reached, and the collectives after it in the
    list are not looked at. *)
Theorem run_stops_at_first_failure
        (c : CronDeps) (w w1 w2 : World) (e : Error)
        (before after : list HostedCollective) (x : HostedCollective) :
  findAllHostedCollectives c w = inr (before ++ x :: after)%list ->
  forEach (suspendIfBelowMinimum c) before w = (inr tt, w1) ->
  suspendIfBelowMinimum c x w1 = (inl e, w2) ->
  run c w = (inl e, w2) /\
  run c w = forEach (suspendIfBelowMinimum c) (before ++ [x])%list w.
Proof.
  intros Hfind Hbefore Hx. unfold run. unfold bind, query. rewrite Hfind.
  rewrite !forEach_app, Hbefore. simpl. unfold bind. rewrite Hx.
  split; reflexivity.
Qed.

Lemma run_stops_at_first_failure_witness :
  run (MoreFixture.cronDeps
         [MoreFixture.recipientRow; MoreFixture.goneRow; MoreFixture.payerRow])
      Fixture.world
  = (inl (mkError NotFound "No such row"), Fixture.world) /\
  run (MoreFixture.cronDeps
         [MoreFixture.recipientRow; MoreFixture.goneRow; MoreFixture.payerRow])
      Fixture.world
  = forEach (suspendIfBelowMinimum
               (MoreFixture.cronDeps
                  [MoreFixture.recipientRow; MoreFixture.goneRow; MoreFixture.payerRow]))
            [MoreFixture.recipientRow; MoreFixture.goneRow] Fixture.world.
Proof.
  apply (run_stops_at_first_failure
           (MoreFixture.cronDeps
              [MoreFixture.recipientRow; MoreFixture.goneRow; MoreFixture.payerRow])
           Fixture.world Fixture.world Fixture.world
           (mkError NotFound "No such row")
           [MoreFixture.recipientRow] [MoreFixture.payerRow] MoreFixture.goneRow).
  - reflexivity.
  - vm_compute. reflexivity.
  - vm_compute. reflexivity.
Defined.

(** X25.  When the policy lookup succeeds for every collective found, the
    cron job disables RECEIVE_FINANCIAL_CONTRIBUTIONS for the collectives
    whose number of admins is below the number required by their host, in
    the order found, and does nothing else. *)
Theorem run_suspends_those_below_minimum
        (c : CronDeps) (w : World) (collectives : list HostedCollective)
        (policyOf : HostedCollective -> option MinimumAdminsPolicy) :
  findAllHostedCollectives c w = inr collectives ->
  (forall x w', In x collectives -> getPolicy c (host x) w' = inr (policyOf x)) ->
  run c w
  = forEach (fun x => Collective_disableFeature c (hosted x)
                        RECEIVE_FINANCIAL_CONTRIBUTIONS)
            (filter (fun x => belowMinimum (length (members x)) (policyOf x))
                    collectives) w.
Proof.
  intros Hfind Hpolicy. unfold run. unfold bind, query. rewrite Hfind.
  apply forEach_below_minimum. exact Hpolicy.
Qed.

Lemma run_suspends_those_below_minimum_witness :
  run (MoreFixture.cronDeps
         [MoreFixture.payerRow; MoreFixture.recipientRow; MoreFixture.strangerRow])
      Fixture.world
  = forEach (fun x => Collective_disableFeature
                        (MoreFixture.cronDeps
                           [MoreFixture.payerRow; MoreFixture.recipientRow;
                            MoreFixture.strangerRow])
                        (hosted x) RECEIVE_FINANCIAL_CONTRIBUTIONS)
            [MoreFixture.payerRow] Fixture.world.
Proof.
  apply (run_suspends_those_below_minimum
           (MoreFixture.cronDeps
              [MoreFixture.payerRow; MoreFixture.recipientRow; MoreFixture.strangerRow])
           Fixture.world
           [MoreFixture.payerRow; MoreFixture.recipientRow; MoreFixture.strangerRow]
           MoreFixture.policyOfRow).
  - reflexivity.
  - intros x w' _. destruct x as [a b h]. reflexivity.
Defined.
